(** * LATSO demo backend: scenario and scoring engine

    A shallow embedding of [backend/main.py]: the request handlers are
    functions over an in-memory picture of the row store, Python
    exceptions are a result type, and Python [float]s are IEEE-754
    binary64 values computed with the operations of [SpecFloat]. The
    seeding script [backend/seed_data.py] is a function from tables to
    tables and printed lines, over a supply of identifiers and an oracle
    that says which inserts fail. *)

From Stdlib Require Import ZArith List String Ascii Bool Lia.
From Stdlib Require Import DecimalString DecimalZ.
From Stdlib Require Import Floats.SpecFloat.
Import ListNotations.
Local Open Scope string_scope.
Local Open Scope Z_scope.

(** ** Exceptions and results *)

(** What a handler can raise: FastAPI's [HTTPException], or any other
    Python exception, kept as the text [str(e)] gives for it. *)
Inductive exn : Type :=
| HTTPException (status_code : Z) (detail : string)
| PyError (msg : string).

Inductive result (A : Type) : Type :=
| Ok (a : A)
| Raise (e : exn).
Arguments Ok {A} a.
Arguments Raise {A} e.

Definition bind {A B} (r : result A) (k : A -> result B) : result B :=
  match r with
  | Ok a => k a
  | Raise e => Raise e
  end.

Notation "x <- c ;; k" := (bind c (fun x => k))
  (at level 61, c at next level, right associativity).

(** ** Python numbers *)

Definition str_of_int (z : Z) : string := NilZero.string_of_int (Z.to_int z).

Module PyFloat.

Definition prec : Z := 53.
Definition emax : Z := 1024.

(** A Python [float] is a binary64 value. *)
Definition t : Type := spec_float.

Definition mul : t -> t -> t := SFmul prec emax.
Definition add : t -> t -> t := SFadd prec emax.
Definition div : t -> t -> t := SFdiv prec emax.
Definition eqb : t -> t -> bool := SFeqb.

Definition is_finite (x : t) : bool :=
  match x with
  | S754_zero _ | S754_finite _ _ _ => true
  | _ => false
  end.

(** [float(n)] for an [int]: the nearest binary64, ties to even;
    [OverflowError] when that is out of range. *)
Definition of_int (n : Z) : result t :=
  match binary_normalize prec emax n 0 false with
  | S754_infinity _ => Raise (PyError "int too large to convert to float")
  | x => Ok x
  end.

(** [n / 2] for an [int] [n]: true division, the correctly rounded
    quotient, that is the binary64 nearest to [n * 2^-1]. *)
Definition int_truediv_2 (n : Z) : result t :=
  match binary_normalize prec emax n (-1) false with
  | S754_infinity _ =>
      Raise (PyError "integer division result too large for a float")
  | x => Ok x
  end.

(** [n * x] for an [int] [n] and a [float] [x]. *)
Definition int_mul (n : Z) (x : t) : result t :=
  fn <- of_int n ;; Ok (mul fn x).

(** The signed mantissa of a finite value [m * 2^e]. *)
Definition signed (s : bool) (m : positive) : Z :=
  if s then Z.neg m else Z.pos m.

(** [int(x)]: truncation toward zero. *)
Definition to_int (x : t) : result Z :=
  match x with
  | S754_zero _ => Ok 0
  | S754_finite s m e =>
      Ok (if 0 <=? e then signed s m * 2 ^ e
          else Z.quot (signed s m) (2 ^ (- e)))
  | S754_infinity _ =>
      Raise (PyError "cannot convert float infinity to integer")
  | S754_nan => Raise (PyError "cannot convert float NaN to integer")
  end.

(** The mathematical floor of a finite value (0 elsewhere). *)
Definition floor (x : t) : Z :=
  match x with
  | S754_finite s m e =>
      if 0 <=? e then signed s m * 2 ^ e
      else Z.div (signed s m) (2 ^ (- e))
  | _ => 0
  end.

Definition is_negative (x : t) : bool :=
  match x with
  | S754_finite s _ _ => s
  | S754_infinity s => s
  | _ => false
  end.

(** [round(v * 10^k)] to an integer, ties to even, for the exact
    value [v = n / d] with [d > 0]. *)
Definition round_half_even (n d : Z) : Z :=
  let q := n / d in
  let r := n mod d in
  match 2 * r ?= d with
  | Lt => q
  | Gt => q + 1
  | Eq => if Z.even q then q else q + 1
  end.

(** [format(x, '.1f')]: the exact value rounded to one decimal,
    ties to even, sign kept (also on a zero result). *)
Definition format_1f (x : t) : string :=
  match x with
  | S754_nan => "nan"
  | S754_infinity s => if s then "-inf" else "inf"
  | S754_zero s => if s then "-0.0" else "0.0"
  | S754_finite s m e =>
      let tenths :=
        if 0 <=? e then 10 * Z.pos m * 2 ^ e
        else round_half_even (10 * Z.pos m) (2 ^ (- e)) in
      (if s then "-" else "") ++
      str_of_int (tenths / 10) ++ "." ++ str_of_int (tenths mod 10)
  end.

(** The literals of the source, as the binary64 values Python reads. *)
Definition lit_0_35 : t := S754_finite false 6305039478318694 (-54).
Definition lit_0_25 : t := S754_finite false 4503599627370496 (-54).
Definition lit_0_15 : t := S754_finite false 5404319552844595 (-55).

(** [x / n] for a [float] [x] and an [int] [n]. *)
Definition truediv_int (x : t) (n : Z) : result t :=
  fn <- of_int n ;;
  match fn with
  | S754_zero _ => Raise (PyError "float division by zero")
  | _ => Ok (div x fn)
  end.

End PyFloat.

(** ** Dates and durations ([datetime], [timedelta]) *)

Module PyDate.

Definition us_per_day : Z := 86400000000.
Definition MAXORDINAL : Z := 3652059.
Definition max_delta_days : Z := 999999999.

(** A naive [datetime]: the proleptic Gregorian ordinal of its date
    ([toordinal()], 1 = 0001-01-01) and the microsecond of the day. *)
Record datetime : Type := mk_datetime {
  ordinal : Z;
  usec_of_day : Z
}.

Definition valid (d : datetime) : Prop :=
  1 <= ordinal d <= MAXORDINAL /\ 0 <= usec_of_day d < us_per_day.

(** A [timedelta], as its total number of microseconds. *)
Definition timedelta : Type := Z.

Definition check_delta (us : Z) : result timedelta :=
  let days := us / us_per_day in
  if (- max_delta_days <=? days) && (days <=? max_delta_days) then Ok us
  else Raise (PyError ("days=" ++ str_of_int days ++
                       "; must have magnitude <= 999999999")).

(** [timedelta(days=n)] for an [int]. *)
Definition timedelta_of_int_days (n : Z) : result timedelta :=
  check_delta (n * us_per_day).

(** [timedelta(days=x)] for a [float]: the exact value of [x] in
    microseconds, rounded to the nearest microsecond, ties to even. *)
Definition timedelta_of_float_days (x : PyFloat.t) : result timedelta :=
  match x with
  | S754_nan => Raise (PyError "cannot convert float NaN to integer")
  | S754_infinity _ =>
      Raise (PyError "cannot convert float infinity to integer")
  | S754_zero _ => Ok 0
  | S754_finite s m e =>
      check_delta
        (if 0 <=? e then PyFloat.signed s m * 2 ^ e * us_per_day
         else PyFloat.round_half_even
                (PyFloat.signed s m * us_per_day) (2 ^ (- e)))
  end.

(** [dt + td]. *)
Definition add (dt : datetime) (td : timedelta) : result datetime :=
  let total := ordinal dt * us_per_day + usec_of_day dt + td in
  let days := total / us_per_day in
  if (1 <=? days) && (days <=? MAXORDINAL)
  then Ok (mk_datetime days (total mod us_per_day))
  else Raise (PyError "date value out of range").

(** [_ord2ymd] of the standard library: ordinal to (year, month, day). *)
Definition days_before_month (month : Z) : Z :=
  nth (Z.to_nat month)
      [0; 0; 31; 59; 90; 120; 151; 181; 212; 243; 273; 304; 334] 0.

Definition days_in_month (month : Z) : Z :=
  nth (Z.to_nat month)
      [0; 31; 28; 31; 30; 31; 30; 31; 31; 30; 31; 30; 31] 0.

Definition ord2ymd (n0 : Z) : Z * Z * Z :=
  let n := n0 - 1 in
  let n400 := n / 146097 in
  let n := n mod 146097 in
  let n100 := n / 36524 in
  let n := n mod 36524 in
  let n4 := n / 1461 in
  let n := n mod 1461 in
  let n1 := n / 365 in
  let n := n mod 365 in
  let year := n400 * 400 + 1 + n100 * 100 + n4 * 4 + n1 in
  if (n1 =? 4) || (n100 =? 4) then (year - 1, 12, 31)
  else
    let leapyear := (n1 =? 3) && (negb (n4 =? 24) || (n100 =? 3)) in
    let month := Z.shiftr (n + 50) 5 in
    let preceding :=
      days_before_month month +
      (if (2 <? month) && leapyear then 1 else 0) in
    if n <? preceding then
      let month' := month - 1 in
      let preceding' :=
        preceding - (days_in_month month' +
                     (if (month' =? 2) && leapyear then 1 else 0)) in
      (year, month', n - preceding' + 1)
    else (year, month, n - preceding + 1).

Definition month_abbr (month : Z) : string :=
  nth (Z.to_nat month)
      [""; "Jan"; "Feb"; "Mar"; "Apr"; "May"; "Jun";
       "Jul"; "Aug"; "Sep"; "Oct"; "Nov"; "Dec"] "".

(** Decimal text of [n >= 0], padded with zeros on the left to [w]. *)
Fixpoint zeros (k : nat) : string :=
  match k with
  | O => ""
  | S k' => String "0" (zeros k')
  end.

Definition zpad (w : nat) (n : Z) : string :=
  let s := str_of_int n in
  zeros (w - String.length s) ++ s.

(** [dt.strftime("%b %d, %Y")], in the C locale; the year in four digits
    (before year 1000 a C library may drop the leading zeros). *)
Definition strftime_b_d_Y (dt : datetime) : string :=
  let '(y, m, d) := ord2ymd (ordinal dt) in
  month_abbr m ++ " " ++ zpad 2 d ++ ", " ++ zpad 4 y.

(** [dt.isoformat()]. *)
Definition isoformat (dt : datetime) : string :=
  let '(y, m, d) := ord2ymd (ordinal dt) in
  let us := usec_of_day dt in
  let secs := us / 1000000 in
  let frac := us mod 1000000 in
  zpad 4 y ++ "-" ++ zpad 2 m ++ "-" ++ zpad 2 d ++ "T" ++
  zpad 2 (secs / 3600) ++ ":" ++ zpad 2 (secs / 60 mod 60) ++ ":" ++
  zpad 2 (secs mod 60) ++
  (if frac =? 0 then "" else "." ++ zpad 6 frac).

End PyDate.

(** ** Rows of the store *)

Record Project : Type := mk_Project {
  project_id : string;
  project_name : string;
  project_status : string
}.

Record WorkPackage : Type := mk_WorkPackage {
  wp_id : string;
  wp_project_id : string;
  wp_name : string;
  wp_risk_level : string;
  wp_vendor_id : string
}.

(** [impact_cost] is a currency amount, read from the store as a float;
    [impact_days] is an integer. *)
Record Risk : Type := mk_Risk {
  risk_id : string;
  work_package_id : string;
  title : string;
  impact_cost : PyFloat.t;
  impact_days : Z;
  risk_level : string;
  reasoning : string
}.

Record Vendor : Type := mk_Vendor {
  vendor_id : string;
  vendor_name : string;
  performance_score : Z;
  on_time_delivery : Z;
  quality_score : Z;
  cost_performance : Z;
  communication_score : Z;
  trend : string
}.

Record VendorAlert : Type := mk_VendorAlert {
  alert_vendor_id : string;
  message : string;
  is_active : bool
}.

(** The hosted database as the handlers see it: five tables, rows in
    the store's order, and [fault]: when it is [Some msg] every query
    fails with an exception whose text is [msg]. *)
Record Store : Type := mk_Store {
  projects : list Project;
  work_packages : list WorkPackage;
  risks : list Risk;
  vendors : list Vendor;
  vendor_alerts : list VendorAlert;
  fault : option string
}.

(** [supabase.table(..).select(..)...execute()]: the rows, or the fault. *)
Definition execute {A} (st : Store) (rows : list A) : result (list A) :=
  match fault st with
  | Some msg => Raise (PyError msg)
  | None => Ok rows
  end.

(** [.order('impact_cost', desc=True)]: a stable descending sort. *)
Fixpoint insert_desc (r : Risk) (l : list Risk) : list Risk :=
  match l with
  | [] => [r]
  | y :: l' =>
      if SFltb (impact_cost r) (impact_cost y) then y :: insert_desc r l'
      else r :: l
  end.

Fixpoint order_by_cost_desc (l : list Risk) : list Risk :=
  match l with
  | [] => []
  | r :: l' => insert_desc r (order_by_cost_desc l')
  end.

(** ** Requests and responses *)

Record RiskAnalysis : Type := mk_RiskAnalysis {
  ra_work_package_id : string;
  delay_weeks : Z
}.

Record ScenarioResult : Type := mk_ScenarioResult {
  budget_impact : PyFloat.t;
  schedule_impact : Z;
  completion_date : string;
  sr_risk_level : string
}.

Record VendorScore : Type := mk_VendorScore {
  vs_vendor_id : string;
  on_time : Z;
  quality : Z;
  cost : Z;
  communication : Z
}.

Record CriticalItem : Type := mk_CriticalItem {
  ci_title : string;
  ci_impact : string;
  ci_reasoning : string
}.

Record Dashboard : Type := mk_Dashboard {
  d_project : option Project;
  d_work_packages : list (WorkPackage * option string);
  critical_items : list CriticalItem;
  time_saved_today : string
}.

Record DetailedScores : Type := mk_DetailedScores {
  ds_on_time : Z;
  ds_quality : Z;
  ds_cost : Z;
  ds_communication : Z
}.

Record VendorEntry : Type := mk_VendorEntry {
  ve_id : string;
  ve_name : string;
  score : Z;
  ve_trend : string;
  alerts : list string;
  detailed_scores : DetailedScores
}.

Record UpdateResult : Type := mk_UpdateResult {
  success : bool;
  new_score : Z
}.

Record Brief : Type := mk_Brief {
  generated_at : string;
  generation_time : string;
  time_saved : string;
  project_health : string;
  top_risks : list string;
  recommendations : list string;
  budget_remaining : Z;
  budget_at_risk : Z;
  days_remaining : Z;
  at_risk_days : Z
}.

(** ** The request handlers *)

Section Handlers.

(** [str(e)] for an [HTTPException]: the web framework's, outside the
    repository. *)
Variable http_exception_str : Z -> string -> string.

Definition exn_str (e : exn) : string :=
  match e with
  | HTTPException s d => http_exception_str s d
  | PyError m => m
  end.

(** [try: body / except Exception as e:
      raise HTTPException(status_code=500, detail=f"{prefix}: {str(e)}")] *)
Definition try_except {A} (prefix : string) (body : result A) : result A :=
  match body with
  | Ok a => Ok a
  | Raise e => Raise (HTTPException 500 (prefix ++ ": " ++ exn_str e))
  end.

(** *** GET /api/project/{project_id}/dashboard *)

Definition vendor_name_of (st : Store) (wp : WorkPackage) : option string :=
  option_map vendor_name
    (find (fun v => String.eqb (vendor_id v) (wp_vendor_id wp)) (vendors st)).

Definition impact_text (r : Risk) : result string :=
  millions <- PyFloat.truediv_int (impact_cost r) 1000000 ;;
  Ok ("$" ++ PyFloat.format_1f millions ++ "M cost, " ++
      str_of_int (impact_days r) ++ " days delay").

Fixpoint collect_critical (rs : list Risk) : result (list CriticalItem) :=
  match rs with
  | [] => Ok []
  | r :: rs' =>
      if String.eqb (risk_level r) "HIGH" then
        txt <- impact_text r ;;
        rest <- collect_critical rs' ;;
        Ok (mk_CriticalItem (title r) txt (reasoning r) :: rest)
      else collect_critical rs'
  end.

Definition get_dashboard (st : Store) (pid : string) : result Dashboard :=
  try_except "Database error"
    (project <- execute st
       (filter (fun p => String.eqb (project_id p) pid) (projects st)) ;;
     wps <- execute st
       (map (fun wp => (wp, vendor_name_of st wp))
          (filter (fun wp => String.eqb (wp_project_id wp) pid)
             (work_packages st))) ;;
     top <- execute st (firstn 3 (order_by_cost_desc (risks st))) ;;
     items <- collect_critical top ;;
     Ok (mk_Dashboard (hd_error project) wps items "4.5 hrs")).

(** *** POST /api/scenario/analyze *)

Definition scenario_risk_level (weeks : Z) : string :=
  if 3 <? weeks then "CRITICAL"
  else if 2 <? weeks then "HIGH"
  else "MEDIUM".

Definition analyze_scenario (now : PyDate.datetime) (st : Store)
    (analysis : RiskAnalysis) : result ScenarioResult :=
  try_except "Analysis error"
    (risk <- execute st
       (filter (fun r => String.eqb (work_package_id r)
                           (ra_work_package_id analysis)) (risks st)) ;;
     match risk with
     | [] => Raise (HTTPException 404 "Risk not found")
     | base_risk :: _ =>
         multiplier <- PyFloat.int_truediv_2 (delay_weeks analysis) ;;
         let new_budget_impact :=
           PyFloat.mul (impact_cost base_risk) multiplier in
         new_schedule_impact <-
           PyFloat.int_mul (impact_days base_risk) multiplier ;;
         d127 <- PyDate.timedelta_of_int_days 127 ;;
         base_date <- PyDate.add now d127 ;;
         dsched <- PyDate.timedelta_of_float_days new_schedule_impact ;;
         new_date <- PyDate.add base_date dsched ;;
         let level := scenario_risk_level (delay_weeks analysis) in
         days <- PyFloat.to_int new_schedule_impact ;;
         Ok (mk_ScenarioResult new_budget_impact days
               (PyDate.strftime_b_d_Y new_date) level)
     end).

(** *** GET /api/vendors *)

(** [o * 0.35 + q * 0.25 + c * 0.25 + m * 0.15] on [int] sub-scores. *)
Definition weighted_sum (o q c m : Z) : result PyFloat.t :=
  a <- PyFloat.int_mul o PyFloat.lit_0_35 ;;
  b <- PyFloat.int_mul q PyFloat.lit_0_25 ;;
  c' <- PyFloat.int_mul c PyFloat.lit_0_25 ;;
  d <- PyFloat.int_mul m PyFloat.lit_0_15 ;;
  Ok (PyFloat.add (PyFloat.add (PyFloat.add a b) c') d).

Definition vendor_entry (st : Store) (v : Vendor) : result VendorEntry :=
  let scores := mk_DetailedScores (on_time_delivery v) (quality_score v)
                  (cost_performance v) (communication_score v) in
  composite_score <- weighted_sum (ds_on_time scores) (ds_quality scores)
                       (ds_cost scores) (ds_communication scores) ;;
  sc <- PyFloat.to_int composite_score ;;
  Ok (mk_VendorEntry (vendor_id v) (vendor_name v) sc (trend v)
        (map message
           (filter is_active
              (filter (fun a => String.eqb (alert_vendor_id a) (vendor_id v))
                 (vendor_alerts st))))
        scores).

Fixpoint vendor_entries (st : Store) (vs : list Vendor)
  : result (list VendorEntry) :=
  match vs with
  | [] => Ok []
  | v :: vs' =>
      e <- vendor_entry st v ;;
      rest <- vendor_entries st vs' ;;
      Ok (e :: rest)
  end.

Definition get_vendor_performance (st : Store) : result (list VendorEntry) :=
  try_except "Vendor data error"
    (vs <- execute st (vendors st) ;;
     vendor_entries st vs).

(** *** POST /api/vendor/{vendor_id}/update-score *)

Definition apply_scores (vid : string) (scores : VendorScore)
    (composite : Z) (v : Vendor) : Vendor :=
  if String.eqb (vendor_id v) vid then
    mk_Vendor (vendor_id v) (vendor_name v) composite
      (on_time scores) (quality scores) (cost scores)
      (communication scores) (trend v)
  else v.

Definition set_vendors (st : Store) (vs : list Vendor) : Store :=
  mk_Store (projects st) (work_packages st) (risks st) vs
    (vendor_alerts st) (fault st).

Definition update_vendor_score (st : Store) (vid : string)
    (scores : VendorScore) : result UpdateResult * Store :=
  let body :=
    composite <- weighted_sum (on_time scores) (quality scores)
                   (cost scores) (communication scores) ;;
    stored <- PyFloat.to_int composite ;;
    vs <- execute st (map (apply_scores vid scores stored) (vendors st)) ;;
    returned <- PyFloat.to_int composite ;;
    Ok (mk_UpdateResult true returned, set_vendors st vs) in
  match try_except "Update error" body with
  | Ok (r, st') => (Ok r, st')
  | Raise e => (Raise e, st)
  end.

(** *** POST /api/executive-brief/generate *)

Definition generate_executive_brief (now : PyDate.datetime)
    (pid : string) : Brief :=
  mk_Brief (PyDate.isoformat now) "10 seconds" "3 hours" "At Risk"
    ["Electrical Package Performance: ABC Electrical showing 67% compliance";
     "IT Infrastructure Delays: 34% completion vs 45% planned";
     "HVAC Material Supply: 3-day delivery delays impacting schedule"]
    ["Implement dual-source procurement for electrical switchgear (+$180K)";
     "Activate penalty clauses for ABC Electrical (triggers in 14 days)";
     "Accelerate IT infrastructure contractor onboarding"]
    47200000 2300000 127 18.

End Handlers.

(** ** Derived notions used in the statements *)

(** The value both vendor handlers hand to [int()] and then report: the
    weighted sum of four sub-scores, truncated. *)
Definition composite (o q c m : Z) : result Z :=
  x <- weighted_sum o q c m ;; PyFloat.to_int x.

(** The composite as the specification words it: the floor of the real
    weighted sum [0.35 o + 0.25 q + 0.25 c + 0.15 m]. *)
Definition floor_composite (o q c m : Z) : Z :=
  (35 * o + 25 * q + 25 * c + 15 * m) / 100.

(** A vendor row with its stored [performance_score] replaced. *)
Definition with_performance (f : Vendor -> Z) (v : Vendor) : Vendor :=
  mk_Vendor (vendor_id v) (vendor_name v) (f v)
    (on_time_delivery v) (quality_score v) (cost_performance v)
    (communication_score v) (trend v).

Definition with_performances (f : Vendor -> Z) (st : Store) : Store :=
  set_vendors st (map (with_performance f) (vendors st)).

(** The rows of [risks] a scenario request selects. *)
Definition risks_of (st : Store) (a : RiskAnalysis) : list Risk :=
  filter (fun r => String.eqb (work_package_id r) (ra_work_package_id a))
    (risks st).

(** The completion date as the specification words it: today plus 127
    days plus [floor (impact_days * delay_weeks / 2)] whole days. *)
Definition claimed_completion_date (now : PyDate.datetime) (d w : Z)
  : string :=
  PyDate.strftime_b_d_Y
    (PyDate.mk_datetime (PyDate.ordinal now + 127 + d * w / 2)
       (PyDate.usec_of_day now)).

(** A cost that is not NaN and, when finite and not zero, is at least
    [2^-1021] in magnitude: its mantissa [m] and exponent [e] have
    [log2 m + e >= -1021], that is [2^-1021 <= m * 2^e]. *)
Definition ordinary (x : PyFloat.t) : bool :=
  match x with
  | S754_nan => false
  | S754_finite _ m e => -1021 <=? Z.log2 (Z.pos m) + e
  | _ => true
  end.

(** *** Exact binary64 values *)

(** The number of bits of a mantissa. *)
Definition digits (p : positive) : Z := Z.pos (digits2_pos p).

(** The canonical binary64 form of [+-a * 2^k] for [a] of at most 53 bits. *)
Definition canon (s : bool) (a : positive) (k : Z) : spec_float :=
  S754_finite s (Z.to_pos (Z.pos a * 2 ^ (53 - digits a))) (k + digits a - 53).

(** The mantissa and the exponent shift that rounding to 53 bits gives a
    mantissa [P] of at least 53 bits. *)
Definition round53 (P : Z) : Z * Z :=
  let n1 := Z.log2 P - 52 in
  let mrs1 := fst (shr (Build_shr_record P false false) 0 n1) in
  let m1 := round_nearest_even (shr_m mrs1) (loc_of_shr_record mrs1) in
  let n2 := Z.log2 m1 - 52 in
  (shr_m (fst (shr (Build_shr_record m1 false false) 0 n2)), n1 + n2).

(** 2.0 *)
Definition two : spec_float := S754_finite false 4503599627370496 (-51).

(** [x] is exactly [n / 2]. *)
Definition half_float (x : PyFloat.t) (n : Z) : Prop :=
  match n with
  | 0 => exists s, x = S754_zero s
  | Z.pos a => x = canon false a (-1)
  | Z.neg a => x = canon true a (-1)
  end.

(** The instant [h] half days (12 hours each) after [dt]. *)
Definition after_half_days (dt : PyDate.datetime) (h : Z) : PyDate.datetime :=
  let us := PyDate.usec_of_day dt + h * 43200000000 in
  PyDate.mk_datetime (PyDate.ordinal dt + us / PyDate.us_per_day)
    (us mod PyDate.us_per_day).

(** Zero, or a 53-bit mantissa with an exponent between [L] and [H]. *)
Definition in_class (L H : Z) (x : spec_float) : Prop :=
  match x with
  | S754_zero _ => True
  | S754_finite _ m e => Z.log2 (Z.pos m) = 52 /\ L <= e <= H
  | _ => False
  end.

(** ** Sample data: the seeded demo store *)

Module Demo.

(** Starlette's [HTTPException.__str__]: ["{status_code}: {detail}"]. *)
Definition http_str (status : Z) (detail : string) : string :=
  str_of_int status ++ ": " ++ detail.

(** 2300000.0 and 450000.0 *)
Definition cost_2300000 : PyFloat.t :=
  S754_finite false 4939212390400000 (-31).
Definition cost_450000 : PyFloat.t :=
  S754_finite false 7730941132800000 (-34).

Definition electrical_risk : Risk :=
  mk_Risk "risk-1" "wp-2"
    "Electrical Package - Vendor Performance Decline"
    cost_2300000 18 "HIGH"
    "ABC Electrical missed 3/5 recent milestones.".

Definition hvac_risk : Risk :=
  mk_Risk "risk-2" "wp-3" "HVAC Material Supply"
    cost_450000 3 "MEDIUM" "3-day delivery delays impacting schedule.".

Definition abc_electrical : Vendor :=
  mk_Vendor "vendor-1" "ABC Electrical" 67 60 80 65 70 "down".

Definition store : Store :=
  mk_Store
    [mk_Project "project-1" "Port Expansion Project - Phase 2" "active"]
    [mk_WorkPackage "wp-1" "project-1" "Foundation & Structural" "LOW"
       "vendor-2";
     mk_WorkPackage "wp-2" "project-1" "Electrical Systems" "HIGH"
       "vendor-1";
     mk_WorkPackage "wp-3" "project-1" "HVAC Installation" "MEDIUM"
       "vendor-3"]
    [electrical_risk; hvac_risk]
    [abc_electrical;
     mk_Vendor "vendor-2" "Steelworks Pro" 89 95 88 85 82 "up"]
    [mk_VendorAlert "vendor-1" "3 consecutive missed milestones" true;
     mk_VendorAlert "vendor-1" "Penalty clause triggers in 14 days" true]
    None.

(** A store whose only risk costs the smallest positive float, 5e-324. *)
Definition tiny_cost_store : Store :=
  mk_Store [] []
    [mk_Risk "risk-t" "wp-t" "Rounding" (S754_finite false 1 (-1074)) 1
       "LOW" "Smallest cost."]
    [] [] None.

(** A second project whose only risk is the costliest in the store. *)
Definition two_project_store : Store :=
  mk_Store
  (projects store ++ [mk_Project "project-2" "Airport Terminal" "active"])
  (work_packages store ++
   [mk_WorkPackage "wp-9" "project-2" "Runway Lighting" "HIGH" "vendor-2"])
  (risks store ++
   [mk_Risk "risk-9" "wp-9" "Runway Lighting - Permit Delay"
      (S754_finite false 5368709120000000 (-30)) 30 "HIGH"
      "Permit office backlog."])%list
  (vendors store) (vendor_alerts store) None.

(** 2024-11-02 09:00:00 and 2024-11-02 13:00:00. *)
Definition morning : PyDate.datetime :=
  PyDate.mk_datetime 739192 32400000000.
Definition afternoon : PyDate.datetime :=
  PyDate.mk_datetime 739192 46800000000.

End Demo.

(** ** The remaining handlers *)

(** A row of [mitigations]. *)
Record Mitigation : Type := mk_Mitigation {
  mitigation_risk_id : string;
  mitigation_title : string;
  mitigation_description : string;
  mitigation_cost : PyFloat.t;
  time_to_implement : string;
  risk_reduction_percentage : Z;
  mitigation_status : string
}.

(** *** GET / *)

Definition root : string * string :=
  ("LATSO Demo API is running!", "healthy").

(** *** GET /api/risks/{risk_id}/mitigations

    The [mitigations] table is handed in beside the store. *)
Definition get_risk_mitigations (http_exception_str : Z -> string -> string)
    (st : Store) (mitigations : list Mitigation) (rid : string)
  : result (list Mitigation) :=
  try_except http_exception_str "Mitigation data error"
    (execute st
       (filter (fun m => String.eqb (mitigation_risk_id m) rid) mitigations)).

(** *** Notions used in the statements about them *)

(** A sub-score [float()] converts exactly. *)
Definition small (n : Z) : Prop := - 2 ^ 53 < n < 2 ^ 53.

Definition small_scores (s : VendorScore) : Prop :=
  small (on_time s) /\ small (quality s) /\ small (cost s) /\
  small (communication s).

Definition small_vendor (v : Vendor) : Prop :=
  small (on_time_delivery v) /\ small (quality_score v) /\
  small (cost_performance v) /\ small (communication_score v).

(** The store with a fault injected. *)
Definition with_fault (msg : string) (st : Store) : Store :=
  mk_Store (projects st) (work_packages st) (risks st) (vendors st)
    (vendor_alerts st) (Some msg).


(** 1.0 *)
Definition one : spec_float := S754_finite false 4503599627370496 (-52).


(** A float that is [+0.0] or positive and finite. *)
Definition nonneg_float (x : PyFloat.t) : Prop :=
  match x with
  | S754_zero false | S754_finite false _ _ => True
  | _ => False
  end.

(** ** Start-up ([main.py], module level) *)

Inductive startup_outcome (C : Type) : Type :=
| Started (client : C)
| Exited (status : Z).
Arguments Started {C} client.
Arguments Exited {C} status.

(** A value read with [os.environ.get], as [if not v] sees it: [None]
    when unset or empty. *)
Definition present (v : option string) : option string :=
  match v with
  | Some s => if String.eqb s "" then None else Some s
  | None => None
  end.

(** The lines printed and how the module-level code ends: with the client
    in hand, or by [exit(status)]. [create_client] is the database
    library's. *)
Definition startup {C : Type} (http_exception_str : Z -> string -> string)
    (create_client : string -> string -> result C)
    (environ : string -> option string)
  : list string * startup_outcome C :=
  let url := environ "SUPABASE_URL" in
  let key := environ "SUPABASE_ANON_KEY" in
  match present url with
  | None =>
      (["❌ ERROR: SUPABASE_URL not found in environment variables";
        "Make sure your .env file contains:";
        "SUPABASE_URL=your_supabase_project_url"], Exited 1)
  | Some u =>
      match present key with
      | None =>
          (["❌ ERROR: SUPABASE_ANON_KEY not found in environment variables";
            "Make sure your .env file contains:";
            "SUPABASE_ANON_KEY=your_supabase_anon_key"], Exited 1)
      | Some k =>
          match create_client u k with
          | Ok supabase =>
              (["✅ Successfully connected to Supabase"], Started supabase)
          | Raise e =>
              (["❌ Failed to connect to Supabase: " ++
                exn_str http_exception_str e], Exited 1)
          end
      end
  end.

(** ** Seeding ([seed_data.py]) *)

(** The rows as the seeding script writes them, with all their columns. *)
Record ProjectRow : Type := mk_ProjectRow {
  pr_id : string;
  pr_name : string;
  pr_description : string;
  pr_budget : PyFloat.t;
  pr_start_date : string;
  pr_end_date : string;
  pr_status : string
}.

Record VendorRow : Type := mk_VendorRow {
  vr_id : string;
  vr_name : string;
  vr_contact_email : string;
  vr_performance_score : Z;
  vr_on_time_delivery : Z;
  vr_quality_score : Z;
  vr_cost_performance : Z;
  vr_communication_score : Z;
  vr_trend : string
}.

Record WorkPackageRow : Type := mk_WorkPackageRow {
  wr_id : string;
  wr_project_id : string;
  wr_name : string;
  wr_budget : PyFloat.t;
  wr_completion_percentage : Z;
  wr_status : string;
  wr_risk_level : string;
  wr_vendor_id : string
}.

Record RiskRow : Type := mk_RiskRow {
  rr_id : string;
  rr_work_package_id : string;
  rr_title : string;
  rr_description : string;
  rr_impact_cost : PyFloat.t;
  rr_impact_days : Z;
  rr_probability : Z;
  rr_risk_level : string;
  rr_reasoning : string;
  rr_confidence_level : Z
}.

Record AlertRow : Type := mk_AlertRow {
  ar_vendor_id : string;
  ar_alert_type : string;
  ar_message : string;
  ar_severity : string;
  ar_is_active : bool
}.

(** The six tables, rows in insertion order. *)
Record Db : Type := mk_Db {
  db_projects : list ProjectRow;
  db_vendors : list VendorRow;
  db_work_packages : list WorkPackageRow;
  db_risks : list RiskRow;
  db_mitigations : list Mitigation;
  db_vendor_alerts : list AlertRow
}.

Definition empty_db : Db := mk_Db [] [] [] [] [] [].

(** One [insert(row).execute()] per table. *)
Definition put_project (r : ProjectRow) (d : Db) : Db :=
  mk_Db (db_projects d ++ [r]) (db_vendors d) (db_work_packages d)
    (db_risks d) (db_mitigations d) (db_vendor_alerts d).
Definition put_vendor (r : VendorRow) (d : Db) : Db :=
  mk_Db (db_projects d) (db_vendors d ++ [r]) (db_work_packages d)
    (db_risks d) (db_mitigations d) (db_vendor_alerts d).
Definition put_work_package (r : WorkPackageRow) (d : Db) : Db :=
  mk_Db (db_projects d) (db_vendors d) (db_work_packages d ++ [r])
    (db_risks d) (db_mitigations d) (db_vendor_alerts d).
Definition put_risk (r : RiskRow) (d : Db) : Db :=
  mk_Db (db_projects d) (db_vendors d) (db_work_packages d)
    (db_risks d ++ [r]) (db_mitigations d) (db_vendor_alerts d).
Definition put_mitigation (r : Mitigation) (d : Db) : Db :=
  mk_Db (db_projects d) (db_vendors d) (db_work_packages d)
    (db_risks d) (db_mitigations d ++ [r]) (db_vendor_alerts d).
Definition put_alert (r : AlertRow) (d : Db) : Db :=
  mk_Db (db_projects d) (db_vendors d) (db_work_packages d)
    (db_risks d) (db_mitigations d) (db_vendor_alerts d ++ [r]).

(** What the handlers read of the tables. *)
Definition store_of_db (d : Db) : Store :=
  mk_Store
    (map (fun r => mk_Project (pr_id r) (pr_name r) (pr_status r))
       (db_projects d))
    (map (fun r => mk_WorkPackage (wr_id r) (wr_project_id r) (wr_name r)
                     (wr_risk_level r) (wr_vendor_id r))
       (db_work_packages d))
    (map (fun r => mk_Risk (rr_id r) (rr_work_package_id r) (rr_title r)
                     (rr_impact_cost r) (rr_impact_days r) (rr_risk_level r)
                     (rr_reasoning r))
       (db_risks d))
    (map (fun r => mk_Vendor (vr_id r) (vr_name r) (vr_performance_score r)
                     (vr_on_time_delivery r) (vr_quality_score r)
                     (vr_cost_performance r) (vr_communication_score r)
                     (vr_trend r))
       (db_vendors d))
    (map (fun r => mk_VendorAlert (ar_vendor_id r) (ar_message r)
                     (ar_is_active r))
       (db_vendor_alerts d))
    None.

Module Seed.

Section Script.

(** [uuid4 n]: the text of the [n]-th identifier [uuid.uuid4()] draws. *)
Variable uuid4 : nat -> string.

(** [failure n]: the text of the exception the [n]-th insert raises, or
    [None] when it goes through (inserts counted from 0). *)
Variable failure : nat -> option string.

(** [for row in rows: insert(row).execute()], from insert number [n] on:
    the tables reached and the exception that stopped the loop, if any. *)
Fixpoint insert_each {A} (put : A -> Db -> Db) (rows : list A) (n : nat)
    (d : Db) : Db * option string :=
  match rows with
  | [] => (d, None)
  | r :: rows' =>
      match failure n with
      | Some msg => (d, Some msg)
      | None => insert_each put rows' (S n) (put r d)
      end
  end.

Definition project (project_id : string) : ProjectRow :=
  mk_ProjectRow project_id "Port Expansion Project - Phase 2"
    "Major port infrastructure expansion including electrical, HVAC, and structural work"
    (S754_finite false 5033164800000000 (-26))
    "2024-08-01" "2025-03-31" "active".

Definition vendors_data : list VendorRow :=
  [mk_VendorRow (uuid4 1) "ABC Electrical" "pm@abcelectrical.com"
     67 60 80 65 70 "down";
   mk_VendorRow (uuid4 2) "Steelworks Pro" "contact@steelworkspro.com"
     89 95 88 85 90 "up";
   mk_VendorRow (uuid4 3) "HVAC Solutions" "pm@hvacsolutions.com"
     72 70 75 70 75 "stable";
   mk_VendorRow (uuid4 4) "SafeGuard Fire" "projects@safeguardfire.com"
     94 98 95 90 95 "up";
   mk_VendorRow (uuid4 5) "TechNet Systems" "delivery@technetsystems.com"
     68 65 70 68 70 "down"].

Definition work_packages_data (project_id : string) : list WorkPackageRow :=
  [mk_WorkPackageRow (uuid4 6) project_id "Foundation & Structural"
     (S754_finite false 6442450944000000 (-29)) 78 "in-progress" "LOW"
     (uuid4 2);
   mk_WorkPackageRow (uuid4 7) project_id "Electrical Systems"
     (S754_finite false 4831838208000000 (-28)) 45 "at-risk" "HIGH"
     (uuid4 1);
   mk_WorkPackageRow (uuid4 8) project_id "HVAC Installation"
     (S754_finite false 8053063680000000 (-29)) 52 "at-risk" "MEDIUM"
     (uuid4 3);
   mk_WorkPackageRow (uuid4 9) project_id "Fire Safety Systems"
     (S754_finite false 8589934592000000 (-30)) 89 "in-progress" "LOW"
     (uuid4 4);
   mk_WorkPackageRow (uuid4 10) project_id "IT Infrastructure"
     (S754_finite false 6442450944000000 (-29)) 34 "at-risk" "MEDIUM"
     (uuid4 5);
   mk_WorkPackageRow (uuid4 11) project_id "Exterior Cladding"
     (S754_finite false 5368709120000000 (-29)) 67 "in-progress" "LOW"
     (uuid4 2)].

Definition electrical_risk : RiskRow :=
  mk_RiskRow (uuid4 12) (uuid4 7)
    "Electrical Package - Vendor Performance Decline"
    "ABC Electrical showing declining performance across multiple metrics"
    (S754_finite false 4939212390400000 (-31)) 18 85 "HIGH"
    "ABC Electrical missed 3/5 recent milestones. Historical pattern shows 85% probability of 2-week delay. Contract compliance at 67% and declining."
    85.

Definition mitigations (risk_id : string) : list Mitigation :=
  [mk_Mitigation risk_id "Dual-source switchgear procurement"
     "Secure secondary supplier for critical electrical components"
     (S754_finite false 6184752906240000 (-35)) "5 days" 45 "proposed";
   mk_Mitigation risk_id "Accelerate contractor penalties"
     "Trigger contractual penalty clauses immediately"
     (S754_zero false) "2 days" 25 "proposed";
   mk_Mitigation risk_id "Bring backup vendor online"
     "Activate pre-qualified backup electrical contractor"
     (S754_finite false 5841155522560000 (-34)) "14 days" 70 "proposed"].

Definition alerts : list AlertRow :=
  [mk_AlertRow (uuid4 1) "performance" "3 consecutive missed milestones"
     "high" true;
   mk_AlertRow (uuid4 1) "contract" "Penalty clause triggers in 14 days"
     "high" true;
   mk_AlertRow (uuid4 3) "delivery" "Material delivery 3 days late"
     "medium" true;
   mk_AlertRow (uuid4 5) "communication" "RFI response time exceeded"
     "medium" true].

(** [seed_demo_data()]: the tables it leaves and the lines it prints. *)
Definition seed_demo_data (d0 : Db) : Db * list string :=
  let out0 := ["🌱 Starting to seed demo data..."] in
  let project_id := uuid4 0 in
  match insert_each put_project [project project_id] 0 d0 with
  | (d1, Some e) =>
      (d1, (out0 ++ [("❌ Error creating project: " ++ e)%string])%list)
  | (d1, None) =>
  let out1 := (out0 ++ ["✅ Created project"])%list in
  match insert_each put_vendor vendors_data 1 d1 with
  | (d2, Some e) =>
      (d2, (out1 ++ [("❌ Error creating vendors: " ++ e)%string])%list)
  | (d2, None) =>
  let out2 := (out1 ++ ["✅ Created 5 vendors"])%list in
  match insert_each put_work_package (work_packages_data project_id) 6 d2
  with
  | (d3, Some e) =>
      (d3, (out2 ++ [("❌ Error creating work packages: " ++ e)%string])%list)
  | (d3, None) =>
  let out3 := (out2 ++ ["✅ Created 6 work packages"])%list in
  match insert_each put_risk [electrical_risk] 12 d3 with
  | (d4, Some e) =>
      (d4, (out3 ++ [("❌ Error creating risk: " ++ e)%string])%list)
  | (d4, None) =>
  (* risk_result.data[0]['id']: the store answers with the row inserted *)
  let risk_id := rr_id electrical_risk in
  let out4 := (out3 ++ ["✅ Created critical electrical risk"])%list in
  match insert_each put_mitigation (mitigations risk_id) 13 d4 with
  | (d5, Some e) =>
      (d5, (out4 ++ [("❌ Error creating mitigations: " ++ e)%string])%list)
  | (d5, None) =>
  let out5 := (out4 ++ ["✅ Created 3 mitigation options"])%list in
  match insert_each put_alert alerts 16 d5 with
  | (d6, Some e) =>
      (d6, (out5 ++ [("❌ Error creating alerts: " ++ e)%string])%list)
  | (d6, None) =>
      (d6, (out5 ++ ["✅ Created vendor alerts";
                     "🎉 Demo data seeded successfully!";
                     ("📋 Project ID: " ++ project_id)%string;
                     "🚀 You're ready for the demo!"])%list)
  end end end end end end.

(** The twenty inserts of the script, in the order it issues them. *)
Definition seed_inserts : list (Db -> Db) :=
  ([put_project (project (uuid4 0))] ++
   map put_vendor vendors_data ++
   map put_work_package (work_packages_data (uuid4 0)) ++
   [put_risk electrical_risk] ++
   map put_mitigation (mitigations (uuid4 12)) ++
   map put_alert alerts)%list.

End Script.

End Seed.

(** The inserts [puts] applied in order. *)
Definition apply_inserts (puts : list (Db -> Db)) (d : Db) : Db :=
  fold_left (fun acc put => put acc) puts d.

(** The number of the first insert, below [bound], that fails. *)
Fixpoint first_failure (failure : nat -> option string) (n bound : nat)
  : nat :=
  match bound with
  | O => n
  | S bound' =>
      match failure n with
      | Some _ => n
      | None => first_failure failure (S n) bound'
      end
  end.

(** What the script calls the stage of its [n]-th insert in its error
    line. *)
Definition stage (n : nat) : string :=
  if (n <? 1)%nat then "project"
  else if (n <? 6)%nat then "vendors"
  else if (n <? 12)%nat then "work packages"
  else if (n <? 13)%nat then "risk"
  else if (n <? 16)%nat then "mitigations"
  else "alerts".

(** Sample identifiers: [uuid-0], [uuid-1], ... *)
Definition sample_uuid4 (n : nat) : string :=
  "uuid-" ++ str_of_int (Z.of_nat n).

(** ** Proof support *)

Lemma bind_ok {A B} (c : result A) (k : A -> result B) (b : B) :
  bind c k = Ok b -> exists a, c = Ok a /\ k a = Ok b.
Proof.
  destruct c as [a|e]; simpl; intros H; [eauto | discriminate].
Qed.

Ltac inv_bind H :=
  let a := fresh "a" in
  let Ha := fresh "Ha" in
  apply bind_ok in H; destruct H as (a & Ha & H).

Lemma try_except_ok {A} hs prefix (body : result A) (a : A) :
  try_except hs prefix body = Ok a -> body = Ok a.
Proof.
  destruct body; simpl; intros H; [assumption | discriminate].
Qed.

(** ** Binary64 facts *)

Lemma digits2_pos_size p : digits2_pos p = Pos.size p.
Proof. induction p; simpl; congruence. Qed.

Lemma digits_log2 p : digits p = Z.log2 (Z.pos p) + 1.
Proof.
  unfold digits. rewrite digits2_pos_size.
  destruct p; simpl; lia.
Qed.

Lemma digits_bounds p : 2 ^ (digits p - 1) <= Z.pos p < 2 ^ digits p.
Proof.
  rewrite digits_log2.
  pose proof (Z.log2_spec (Z.pos p) eq_refl) as H.
  replace (Z.log2 (Z.pos p) + 1 - 1) with (Z.log2 (Z.pos p)) by lia.
  exact H.
Qed.

Lemma digits_pos p : 1 <= digits p.
Proof. unfold digits. lia. Qed.

Lemma iter_pos_eq {A} (f : A -> A) n x : iter_pos f n x = Pos.iter f x n.
Proof.
  revert x. induction n as [n IH|n IH|]; intros x; simpl.
  - rewrite !IH. rewrite <- !Pos.iter_swap. reflexivity.
  - rewrite !IH. reflexivity.
  - reflexivity.
Qed.

Lemma shr_1_m mrs :
  0 <= shr_m mrs -> shr_m (shr_1 mrs) = shr_m mrs / 2.
Proof.
  destruct mrs as [m r s]. simpl. intros Hm.
  rewrite <- Z.div2_div.
  destruct m as [|[p|p|]|p]; simpl; try reflexivity; lia.
Qed.

Lemma shr_iter_m n mrs :
  0 <= shr_m mrs ->
  shr_m (Pos.iter shr_1 mrs n) = shr_m mrs / 2 ^ Z.pos n.
Proof.
  intros Hm. induction n as [|n IH] using Pos.peano_ind.
  - simpl Pos.iter. rewrite shr_1_m by assumption. reflexivity.
  - rewrite Pos.iter_succ. rewrite shr_1_m.
    + rewrite IH. rewrite Z.div_div by (try apply Z.pow_pos_nonneg; lia).
      rewrite Pos2Z.inj_succ, Z.pow_succ_r by lia.
      f_equal. lia.
    + rewrite IH. apply Z.div_pos; [assumption|]. apply Z.pow_pos_nonneg; lia.
Qed.

Lemma shr_1_exact m :
  0 <= m -> Z.even m = true ->
  shr_1 (Build_shr_record m false false) = Build_shr_record (m / 2) false false.
Proof.
  intros Hm He. rewrite <- Z.div2_div.
  destruct m as [|[p|p|]|p]; simpl in *; try reflexivity; try discriminate; lia.
Qed.

Lemma shr_iter_exact n m :
  0 <= m -> (2 ^ Z.pos n | m) ->
  Pos.iter shr_1 (Build_shr_record m false false) n =
  Build_shr_record (m / 2 ^ Z.pos n) false false.
Proof.
  revert m. induction n as [|n IH] using Pos.peano_ind; intros m Hm [q Hq].
  - simpl Pos.iter. apply shr_1_exact; [assumption|].
    subst m. change (2 ^ 1) with 2. rewrite Z.even_mul. simpl. apply orb_true_r.
  - rewrite Pos.iter_succ_r.
    rewrite Pos2Z.inj_succ, Z.pow_succ_r in Hq |- * by lia.
    rewrite shr_1_exact.
    + rewrite IH.
      * rewrite Z.div_div by (try apply Z.pow_pos_nonneg; lia). reflexivity.
      * apply Z.div_pos; lia.
      * exists q. subst m. 
        replace (q * (2 * 2 ^ Z.pos n)) with (q * 2 ^ Z.pos n * 2) by ring.
        rewrite Z.div_mul by lia. reflexivity.
    + assumption.
    + subst m. replace (q * (2 * 2 ^ Z.pos n)) with (2 * (q * 2 ^ Z.pos n)) by ring.
      rewrite Z.even_mul. reflexivity.
Qed.

Lemma Zdigits2_log2 z : 0 < z -> Zdigits2 z = Z.log2 z + 1.
Proof.
  destruct z as [|p|p]; try lia. intros _.
  change (Zdigits2 (Z.pos p)) with (digits p). apply digits_log2.
Qed.

Lemma pow2_pos k : 0 <= k -> 0 < 2 ^ k.
Proof. intros. apply Z.pow_pos_nonneg; lia. Qed.

(** Rounding a mantissa [M * 2^n] with [M] of 53 bits is exact. *)
Lemma round_aux_exact_gen s P M n e :
  Z.log2 M = 52 -> 0 <= n -> P = M * 2 ^ n ->
  -1074 <= e + n ->
  binary_round_aux 53 1024 s P e loc_Exact =
  if e + n <=? 971 then S754_finite s (Z.to_pos M) (e + n)
  else S754_infinity s.
Proof.
  intros HM Hn HP He.
  assert (0 < M) by (destruct M; simpl in HM; lia).
  pose proof (pow2_pos n Hn) as H2n.
  assert (HPpos : 0 < P) by (subst P; lia).
  assert (HdP : Zdigits2 P = 53 + n).
  { rewrite Zdigits2_log2 by assumption. subst P.
    rewrite Z.log2_mul_pow2 by lia. lia. }
  assert (HdM : Zdigits2 M = 53) by (rewrite Zdigits2_log2; lia).
  assert (Hstage1 :
    shr_fexp 53 1024 P e loc_Exact = (Build_shr_record M false false, e + n)).
  { unfold shr_fexp, fexp, emin. rewrite HdP. simpl shr_record_of_loc.
    replace (Z.max (53 + n + e - 53) (3 - 1024 - 53) - e) with n by lia.
    unfold shr. destruct n as [|n|n]; try lia.
    - simpl in HP. f_equal; [f_equal; lia | lia].
    - rewrite iter_pos_eq, shr_iter_exact; try lia.
      + subst P. rewrite Z.div_mul by lia. reflexivity.
      + exists M. exact HP. }
  assert (Hstage2 :
    shr_fexp 53 1024 M (e + n) loc_Exact =
      (Build_shr_record M false false, e + n)).
  { unfold shr_fexp, fexp, emin. rewrite HdM. simpl shr_record_of_loc.
    replace (Z.max (53 + (e + n) - 53) (3 - 1024 - 53) - (e + n)) with 0 by lia.
    reflexivity. }
  unfold binary_round_aux. rewrite Hstage1. simpl loc_of_shr_record.
  simpl round_nearest_even. simpl shr_m at 1. rewrite Hstage2. simpl shr_m.
  destruct M as [|m|m]; try lia.
  reflexivity.
Qed.

Lemma round_aux_exact s P M n e :
  Z.log2 M = 52 -> 0 <= n -> P = M * 2 ^ n ->
  -1074 <= e + n <= 971 ->
  binary_round_aux 53 1024 s P e loc_Exact = S754_finite s (Z.to_pos M) (e + n).
Proof.
  intros HM Hn HP He. rewrite (round_aux_exact_gen s P M n e) by lia.
  replace (e + n <=? 971) with true by (symmetry; apply Z.leb_le; lia).
  reflexivity.
Qed.

Lemma iter_xO_pow a d : Z.pos (Pos.iter xO a d) = Z.pos a * 2 ^ Z.pos d.
Proof.
  induction d as [|d IH] using Pos.peano_ind.
  - simpl. lia.
  - rewrite Pos.iter_succ, Pos2Z.inj_xO, IH, Pos2Z.inj_succ, Z.pow_succ_r by lia.
    ring.
Qed.

Lemma binary_round_canon s a k :
  digits a <= 53 -> -1074 <= k + digits a - 53 <= 971 ->
  binary_round 53 1024 s a k = canon s a k.
Proof.
  intros Hd Hk. unfold binary_round, shl_align, fexp, emin, canon.
  change (Z.pos (digits2_pos a)) with (digits a).
  pose proof (digits_log2 a) as Hlog.
  replace (Z.max (digits a + k - 53) (3 - 1024 - 53) - k)
    with (digits a - 53) by lia.
  replace (Z.max (digits a + k - 53) (3 - 1024 - 53))
    with (k + digits a - 53) by lia.
  destruct (digits a - 53) as [|d|d] eqn:Hdd; try lia.
  - replace (53 - digits a) with 0 by lia. rewrite Z.mul_1_r.
    rewrite (round_aux_exact s (Z.pos a) (Z.pos a) 0 k); try lia.
    f_equal; lia.
  - rewrite (round_aux_exact s _ (Z.pos a * 2 ^ Z.pos d) 0); try lia.
    + replace (53 - digits a) with (Z.pos d) by lia. f_equal. lia.
    + rewrite Z.log2_mul_pow2 by lia. lia.
    + rewrite iter_xO_pow. lia.
Qed.

Lemma digits_lt_pow a d : 0 <= d -> Z.pos a < 2 ^ d -> digits a <= d.
Proof.
  intros Hd H. rewrite digits_log2.
  apply (Z.log2_lt_pow2 (Z.pos a) d) in H; lia.
Qed.

Lemma of_int_canon (a : positive) :
  Z.pos a < 2 ^ 53 ->
  PyFloat.of_int (Z.pos a) = Ok (canon false a 0) /\
  PyFloat.of_int (Z.neg a) = Ok (canon true a 0).
Proof.
  intros Ha. pose proof (digits_lt_pow a 53 ltac:(lia) Ha).
  pose proof (digits_pos a).
  unfold PyFloat.of_int, binary_normalize, PyFloat.prec, PyFloat.emax.
  rewrite !binary_round_canon by lia. split; reflexivity.
Qed.

Lemma int_truediv_2_canon (a : positive) :
  Z.pos a < 2 ^ 53 ->
  PyFloat.int_truediv_2 (Z.pos a) = Ok (canon false a (-1)) /\
  PyFloat.int_truediv_2 (Z.neg a) = Ok (canon true a (-1)).
Proof.
  intros Ha. pose proof (digits_lt_pow a 53 ltac:(lia) Ha).
  pose proof (digits_pos a).
  unfold PyFloat.int_truediv_2, binary_normalize, PyFloat.prec, PyFloat.emax.
  rewrite !binary_round_canon by lia. split; reflexivity.
Qed.

(** The product of two canonical values whose exact product fits 53 bits. *)
Lemma mul_canon sx a kx sy b ky :
  Z.pos a * Z.pos b < 2 ^ 53 ->
  -1074 <= kx + ky + digits (a * b) - 53 <= 971 ->
  PyFloat.mul (canon sx a kx) (canon sy b ky) =
  canon (xorb sx sy) (a * b) (kx + ky).
Proof.
  intros Hab Hk.
  pose proof (digits_log2 a) as Hla. pose proof (digits_log2 b) as Hlb.
  pose proof (digits_log2 (a * b)) as Hlab.
  pose proof (digits_pos a). pose proof (digits_pos b).
  assert (Hdab : digits (a * b) <= 53) by (apply digits_lt_pow; lia).
  assert (Hda : digits a <= 53) by (apply digits_lt_pow; nia).
  assert (Hdb : digits b <= 53) by (apply digits_lt_pow; nia).
  pose proof (Z.log2_mul_below (Z.pos a) (Z.pos b) eq_refl eq_refl) as Hlow.
  pose proof (Z.log2_mul_above (Z.pos a) (Z.pos b) ltac:(lia) ltac:(lia)) as Hup.
  rewrite <- Pos2Z.inj_mul in Hlow, Hup.
  unfold PyFloat.mul, PyFloat.prec, PyFloat.emax, canon, SFmul.
  set (n := digits (a * b) + 53 - digits a - digits b).
  assert (Hn : 0 <= n) by (unfold n; lia).
  pose proof (pow2_pos (53 - digits a) ltac:(lia)).
  pose proof (pow2_pos (53 - digits b) ltac:(lia)).
  pose proof (pow2_pos (53 - digits (a * b)) ltac:(lia)).
  rewrite (round_aux_exact _ _ (Z.pos (a * b) * 2 ^ (53 - digits (a * b))) n).
  - f_equal. unfold n. lia.
  - rewrite Z.log2_mul_pow2 by lia. lia.
  - assumption.
  - rewrite Pos2Z.inj_mul, !Z2Pos.id by lia.
    replace (Z.pos (a * b) * 2 ^ (53 - digits (a * b)) * 2 ^ n)
      with (Z.pos (a * b) * (2 ^ (53 - digits (a * b)) * 2 ^ n)) by ring.
    rewrite <- Z.pow_add_r by lia.
    replace (53 - digits (a * b) + n)
      with ((53 - digits a) + (53 - digits b)) by (unfold n; lia).
    rewrite Z.pow_add_r by lia. rewrite Pos2Z.inj_mul. ring.
  - unfold n. lia.
Qed.

Lemma shr_nonneg_exp mrs e n :
  0 <= n -> shr mrs e n = (fst (shr mrs 0 n), e + n).
Proof.
  intros Hn. unfold shr. destruct n as [|n|n]; try lia; simpl; f_equal; lia.
Qed.

Lemma shr_m_div mrs e n :
  0 <= shr_m mrs -> 0 <= n -> shr_m (fst (shr mrs e n)) = shr_m mrs / 2 ^ n.
Proof.
  intros Hm Hn. unfold shr. destruct n as [|n|n]; try lia; simpl fst.
  - rewrite Z.div_1_r. reflexivity.
  - rewrite iter_pos_eq. apply shr_iter_m. assumption.
Qed.

Lemma round_nearest_even_range m l :
  round_nearest_even m l = m \/ round_nearest_even m l = m + 1.
Proof.
  destruct l as [|[]]; simpl; auto. destruct (Z.even m); auto.
Qed.

Lemma log2_52_bounds m : Z.log2 m = 52 <-> 2 ^ 52 <= m < 2 ^ 53.
Proof.
  split.
  - intros H. assert (0 < m) by (destruct m; simpl in H; lia).
    pose proof (Z.log2_spec m ltac:(lia)) as Hs. rewrite H in Hs. exact Hs.
  - intros H. apply Z.log2_unique; [lia | exact H].
Qed.

Lemma round53_spec P :
  52 <= Z.log2 P ->
  let (m, n) := round53 P in
  Z.log2 m = 52 /\ Z.log2 P - 52 <= n <= Z.log2 P - 51.
Proof.
  intros HP. unfold round53.
  assert (0 < P) by (destruct P; simpl in HP; lia).
  set (n1 := Z.log2 P - 52). assert (0 <= n1) by (unfold n1; lia).
  set (mrs1 := fst (shr _ 0 n1)).
  assert (Hm' : Z.log2 (shr_m mrs1) = 52).
  { unfold mrs1. rewrite shr_m_div by (simpl; lia). simpl shr_m.
    rewrite <- Z.shiftr_div_pow2, Z.log2_shiftr by lia. unfold n1. lia. }
  set (m1 := round_nearest_even _ _).
  apply log2_52_bounds in Hm'.
  assert (Hm1 : 2 ^ 52 <= m1 <= 2 ^ 53).
  { unfold m1.
    destruct (round_nearest_even_range (shr_m mrs1) (loc_of_shr_record mrs1))
      as [-> | ->]; lia. }
  destruct (Z.eq_dec m1 (2 ^ 53)) as [E|NE].
  - rewrite E. change (Z.log2 (2 ^ 53) - 52) with 1.
    split; [reflexivity | unfold n1; lia].
  - assert (Hl : Z.log2 m1 = 52) by (apply log2_52_bounds; lia).
    rewrite Hl. change (52 - 52) with 0. simpl.
    split; [exact Hl | unfold n1; lia].
Qed.

(** Rounding a mantissa of at least 53 bits in the normal range. *)
Lemma round_aux_normal s P E :
  52 <= Z.log2 P -> -1074 <= E ->
  binary_round_aux 53 1024 s P E loc_Exact =
  (let (m, n) := round53 P in
   if E + n <=? 971 then S754_finite s (Z.to_pos m) (E + n)
   else S754_infinity s).
Proof.
  intros HP HE.
  pose proof (round53_spec P HP) as Hspec. unfold round53 in *.
  assert (0 < P) by (destruct P; simpl in HP; lia).
  set (n1 := Z.log2 P - 52) in *. assert (0 <= n1) by (unfold n1; lia).
  set (mrs1 := fst (shr _ 0 n1)) in *.
  set (m1 := round_nearest_even _ _) in *.
  set (n2 := Z.log2 m1 - 52) in *.
  set (mrs2 := fst (shr _ 0 n2)) in *.
  destruct Hspec as [Hm Hn].
  assert (Hm1 : 52 <= Z.log2 m1).
  { unfold m1, mrs1.
    assert (Hm' : Z.log2 (shr_m (fst (shr (Build_shr_record P false false) 0 n1))) = 52).
    { rewrite shr_m_div by (simpl; lia). simpl shr_m.
      rewrite <- Z.shiftr_div_pow2, Z.log2_shiftr by lia. unfold n1. lia. }
    destruct (round_nearest_even_range
                (shr_m (fst (shr (Build_shr_record P false false) 0 n1)))
                (loc_of_shr_record (fst (shr (Build_shr_record P false false) 0 n1))))
      as [-> | ->]; [lia|].
    rewrite <- Hm'. apply Z.log2_le_mono. lia. }
  assert (0 < m1) by (destruct m1; simpl in Hm1; lia).
  assert (0 <= n2) by (unfold n2; lia).
  unfold binary_round_aux, shr_fexp, fexp, emin.
  rewrite (Zdigits2_log2 P) by assumption. simpl shr_record_of_loc.
  replace (Z.max (Z.log2 P + 1 + E - 53) (3 - 1024 - 53) - E) with n1
    by (unfold n1; lia).
  rewrite (shr_nonneg_exp _ E n1) by assumption. fold mrs1. fold m1.
  rewrite (Zdigits2_log2 m1) by assumption.
  replace (Z.max (Z.log2 m1 + 1 + (E + n1) - 53) (3 - 1024 - 53) - (E + n1))
    with n2 by (unfold n2; lia).
  rewrite (shr_nonneg_exp _ (E + n1) n2) by assumption. fold mrs2.
  assert (0 < shr_m mrs2) by (destruct (shr_m mrs2); simpl in Hm; lia).
  destruct (shr_m mrs2) as [|m|m] eqn:Em; try lia.
  replace (E + n1 + n2) with (E + (n1 + n2)) by lia.
  reflexivity.
Qed.

Lemma double_finite s m e :
  Z.log2 (Z.pos m) = 52 -> -1074 <= e ->
  PyFloat.mul two (S754_finite s m e) =
  if e + 1 <=? 971 then S754_finite s m (e + 1) else S754_infinity s.
Proof.
  intros Hm He. unfold PyFloat.mul, two, SFmul. simpl xorb.
  rewrite (round_aux_exact_gen s _ (Z.pos m) 52 (-51 + e)); try lia.
  replace (-51 + e + 52) with (e + 1) by lia. reflexivity.
Qed.

(** The same when only the rounded value is in the normal range: the
    exponent [E] may be below [-1074] as long as the bits of [P] beyond
    the 53rd make up for it. *)
Lemma round_aux_normal_from s P E :
  52 <= Z.log2 P -> -1074 <= E + (Z.log2 P - 52) ->
  binary_round_aux 53 1024 s P E loc_Exact =
  (let (m, n) := round53 P in
   if E + n <=? 971 then S754_finite s (Z.to_pos m) (E + n)
   else S754_infinity s).
Proof.
  intros HP HE.
  pose proof (round53_spec P HP) as Hspec. unfold round53 in *.
  assert (0 < P) by (destruct P; simpl in HP; lia).
  set (n1 := Z.log2 P - 52) in *. assert (0 <= n1) by (unfold n1; lia).
  set (mrs1 := fst (shr _ 0 n1)) in *.
  set (m1 := round_nearest_even _ _) in *.
  set (n2 := Z.log2 m1 - 52) in *.
  set (mrs2 := fst (shr _ 0 n2)) in *.
  destruct Hspec as [Hm Hn].
  assert (Hm1 : 52 <= Z.log2 m1).
  { unfold m1, mrs1.
    assert (Hm' :
      Z.log2 (shr_m (fst (shr (Build_shr_record P false false) 0 n1))) = 52).
    { rewrite shr_m_div by (simpl; lia). simpl shr_m.
      rewrite <- Z.shiftr_div_pow2, Z.log2_shiftr by lia. unfold n1. lia. }
    destruct (round_nearest_even_range
                (shr_m (fst (shr (Build_shr_record P false false) 0 n1)))
                (loc_of_shr_record
                   (fst (shr (Build_shr_record P false false) 0 n1))))
      as [-> | ->]; [lia|].
    rewrite <- Hm'. apply Z.log2_le_mono. lia. }
  assert (0 < m1) by (destruct m1; simpl in Hm1; lia).
  assert (0 <= n2) by (unfold n2; lia).
  unfold binary_round_aux, shr_fexp, fexp, emin.
  rewrite (Zdigits2_log2 P) by assumption. simpl shr_record_of_loc.
  replace (Z.max (Z.log2 P + 1 + E - 53) (3 - 1024 - 53) - E) with n1
    by (unfold n1; lia).
  rewrite (shr_nonneg_exp _ E n1) by assumption. fold mrs1. fold m1.
  rewrite (Zdigits2_log2 m1) by assumption.
  replace (Z.max (Z.log2 m1 + 1 + (E + n1) - 53) (3 - 1024 - 53) - (E + n1))
    with n2 by (unfold n2; lia).
  rewrite (shr_nonneg_exp _ (E + n1) n2) by assumption. fold mrs2.
  assert (0 < shr_m mrs2) by (destruct (shr_m mrs2); simpl in Hm; lia).
  destruct (shr_m mrs2) as [|m|m] eqn:Em; try lia.
  replace (E + n1 + n2) with (E + (n1 + n2)) by lia.
  reflexivity.
Qed.

Lemma log2_product mc M :
  Z.log2 (Z.pos M) = 52 ->
  Z.log2 (Z.pos mc) + 52 <= Z.log2 (Z.pos (mc * M)).
Proof.
  intros HM. rewrite Pos2Z.inj_mul, <- HM.
  apply Z.log2_mul_below; lia.
Qed.

(** Doubling commutes with a product whose right factor has a 53-bit
    mantissa, as long as the product does not underflow. *)
Lemma mul_succ_exp c M e :
  Z.log2 (Z.pos M) = 52 ->
  (forall sc mc ec, c = S754_finite sc mc ec ->
                    -1074 <= Z.log2 (Z.pos mc) + ec + e) ->
  PyFloat.mul two (PyFloat.mul c (S754_finite false M e)) =
  PyFloat.mul c (S754_finite false M (e + 1)).
Proof.
  intros HM Hc. destruct c as [sc|sc| |sc mc ec].
  - destruct sc; reflexivity.
  - destruct sc; reflexivity.
  - reflexivity.
  - specialize (Hc sc mc ec eq_refl).
    unfold PyFloat.mul at 2 3. unfold SFmul, PyFloat.prec, PyFloat.emax.
    pose proof (log2_product mc M HM) as Hlow.
    pose proof (Z.log2_nonneg (Z.pos mc)) as Hmc.
    assert (HP : 52 <= Z.log2 (Z.pos (mc * M))) by lia.
    rewrite !round_aux_normal_from by lia.
    pose proof (round53_spec _ HP) as Hs.
    destruct (round53 (Z.pos (mc * M))) as [m n]. destruct Hs as [Hm Hn].
    assert (0 < m) by (destruct m; simpl in Hm; lia).
    replace (ec + (e + 1) + n) with (ec + e + n + 1) by lia.
    destruct (ec + e + n <=? 971) eqn:Hle.
    + rewrite double_finite; [reflexivity | | lia].
      rewrite Z2Pos.id by lia. exact Hm.
    + apply Z.leb_gt in Hle.
      replace (ec + e + n + 1 <=? 971) with false
        by (symmetry; apply Z.leb_gt; lia).
      destruct (xorb sc false); reflexivity.
Qed.

Lemma int_truediv_2_half w :
  - 2 ^ 53 < w < 2 ^ 53 ->
  exists m, PyFloat.int_truediv_2 w = Ok m /\ half_float m w.
Proof.
  intros Hw. destruct w as [|a|a].
  - eexists. split; [reflexivity|]. simpl. eauto.
  - eexists. split; [apply int_truediv_2_canon; lia | reflexivity].
  - eexists. split; [apply int_truediv_2_canon; lia | reflexivity].
Qed.

Ltac product_half a b :=
  eexists; split; [reflexivity|];
  pose proof (digits_pos (a * b));
  assert (Z.pos a * Z.pos b < 2 ^ 53) by nia;
  pose proof (digits_lt_pow (a * b) 53 ltac:(lia) ltac:(lia));
  rewrite mul_canon by lia; reflexivity.

Lemma int_mul_half d w m :
  - 2 ^ 26 < d < 2 ^ 26 -> - 2 ^ 26 < w < 2 ^ 26 ->
  half_float m w ->
  exists x, PyFloat.int_mul d m = Ok x /\ half_float x (d * w).
Proof.
  intros Hd Hw Hm. unfold PyFloat.int_mul.
  destruct d as [|a|a].
  - change (PyFloat.of_int 0) with (Ok (S754_zero false)). cbn [bind].
    destruct w as [|b|b]; simpl in Hm;
      [destruct Hm as [s ->] | subst m | subst m]; simpl; eauto.
  - rewrite (proj1 (of_int_canon a ltac:(lia))). cbn [bind].
    destruct w as [|b|b]; simpl in Hm.
    + destruct Hm as [s ->]. simpl. eauto.
    + subst m. product_half a b.
    + subst m. product_half a b.
  - rewrite (proj2 (of_int_canon a ltac:(lia))). cbn [bind].
    destruct w as [|b|b]; simpl in Hm.
    + destruct Hm as [s ->]. simpl. eauto.
    + subst m. product_half a b.
    + subst m. product_half a b.
Qed.

Lemma canon_half_parts s a :
  Z.pos a < 2 ^ 53 ->
  exists c, 0 < c /\ 
    canon s a (-1) = S754_finite s (Z.to_pos (Z.pos a * c)) (-1 + digits a - 53) /\
    2 ^ (- (-1 + digits a - 53)) = 2 * c /\ -1 + digits a - 53 < 0.
Proof.
  intros Ha. pose proof (digits_lt_pow a 53 ltac:(lia) Ha).
  pose proof (digits_pos a).
  exists (2 ^ (53 - digits a)). repeat split.
  - apply pow2_pos. lia.
  - replace (- (-1 + digits a - 53)) with (Z.succ (53 - digits a)) by lia.
    rewrite Z.pow_succ_r by lia. reflexivity.
  - lia.
Qed.

Lemma to_int_half x n :
  - 2 ^ 53 < n < 2 ^ 53 -> half_float x n ->
  PyFloat.to_int x = Ok (Z.quot n 2).
Proof.
  intros Hn Hx. destruct n as [|a|a]; simpl in Hx.
  - destruct Hx as [s ->]. reflexivity.
  - subst x. destruct (canon_half_parts false a ltac:(lia)) as (c & Hc & -> & Hp & He).
    unfold PyFloat.to_int.
    replace (0 <=? -1 + digits a - 53) with false by (symmetry; apply Z.leb_gt; lia).
    rewrite Hp. unfold PyFloat.signed. rewrite Z2Pos.id by lia.
    rewrite Z.quot_mul_cancel_r by lia. reflexivity.
  - subst x. destruct (canon_half_parts true a ltac:(lia)) as (c & Hc & -> & Hp & He).
    unfold PyFloat.to_int.
    replace (0 <=? -1 + digits a - 53) with false by (symmetry; apply Z.leb_gt; lia).
    rewrite Hp. unfold PyFloat.signed.
    replace (Z.neg (Z.to_pos (Z.pos a * c))) with (Z.neg a * c) by lia.
    rewrite Z.quot_mul_cancel_r by lia. reflexivity.
Qed.

Lemma round_half_even_exact q d :
  0 < d -> PyFloat.round_half_even (q * d) d = q.
Proof.
  intros Hd. unfold PyFloat.round_half_even.
  rewrite Z.div_mul, Z.mod_mul by lia.
  replace (2 * 0 ?= d) with Lt by (symmetry; apply Z.compare_lt_iff; lia).
  reflexivity.
Qed.

Lemma timedelta_half x n :
  - 2 ^ 53 < n < 2 ^ 53 -> half_float x n ->
  PyDate.timedelta_of_float_days x = PyDate.check_delta (n * 43200000000).
Proof.
  intros Hn Hx. destruct n as [|a|a]; simpl in Hx.
  - destruct Hx as [s ->]. reflexivity.
  - subst x. destruct (canon_half_parts false a ltac:(lia)) as (c & Hc & -> & Hp & He).
    unfold PyDate.timedelta_of_float_days.
    replace (0 <=? -1 + digits a - 53) with false by (symmetry; apply Z.leb_gt; lia).
    rewrite Hp. unfold PyFloat.signed, PyDate.us_per_day. rewrite Z2Pos.id by lia.
    replace (Z.pos a * c * 86400000000) with (Z.pos a * 43200000000 * (2 * c)) by ring.
    rewrite round_half_even_exact by lia. reflexivity.
  - subst x. destruct (canon_half_parts true a ltac:(lia)) as (c & Hc & -> & Hp & He).
    unfold PyDate.timedelta_of_float_days.
    replace (0 <=? -1 + digits a - 53) with false by (symmetry; apply Z.leb_gt; lia).
    rewrite Hp. unfold PyFloat.signed, PyDate.us_per_day.
    replace (Z.neg (Z.to_pos (Z.pos a * c)) * 86400000000)
      with (Z.neg a * 43200000000 * (2 * c)) by lia.
    rewrite round_half_even_exact by lia. reflexivity.
Qed.

Lemma half_div n H : 0 < H -> n * H / (2 * H) = n / 2.
Proof. intros. apply Z.div_mul_cancel_r; lia. Qed.

Lemma carry_bounds us n H :
  0 < H -> 0 <= us < 2 * H ->
  n / 2 <= (us + n * H) / (2 * H) <= n / 2 + 1.
Proof.
  intros HH Hus. split.
  - rewrite <- (half_div n H) by assumption. apply Z.div_le_mono; lia.
  - replace (n / 2 + 1) with ((n + 1 * 2) / 2) by (rewrite Z.div_add; lia).
    rewrite <- (half_div (n + 1 * 2) H) by assumption.
    apply Z.div_le_mono; lia.
Qed.

Lemma after_even_half_days dt j :
  PyDate.valid dt ->
  after_half_days dt (2 * j) =
  PyDate.mk_datetime (PyDate.ordinal dt + j) (PyDate.usec_of_day dt).
Proof.
  intros [_ Hus]. unfold after_half_days, PyDate.us_per_day in *. cbv zeta.
  replace (PyDate.usec_of_day dt + 2 * j * 43200000000)
    with (PyDate.usec_of_day dt + j * 86400000000) by ring.
  rewrite Z.div_add, Z.mod_add by lia.
  rewrite Z.div_small, Z.mod_small by lia. reflexivity.
Qed.

Lemma check_delta_ok us :
  - 999999999 <= us / 86400000000 <= 999999999 ->
  PyDate.check_delta us = Ok us.
Proof.
  intros H. unfold PyDate.check_delta, PyDate.us_per_day, PyDate.max_delta_days.
  replace (- (999999999) <=? us / 86400000000) with true
    by (symmetry; apply Z.leb_le; lia).
  replace (us / 86400000000 <=? 999999999) with true
    by (symmetry; apply Z.leb_le; lia).
  reflexivity.
Qed.

Lemma add_ok dt td q :
  (PyDate.ordinal dt * 86400000000 + PyDate.usec_of_day dt + td) / 86400000000
    = q ->
  1 <= q <= 3652059 ->
  PyDate.add dt td =
  Ok (PyDate.mk_datetime q
        ((PyDate.ordinal dt * 86400000000 + PyDate.usec_of_day dt + td)
           mod 86400000000)).
Proof.
  intros Hq H. unfold PyDate.add, PyDate.us_per_day, PyDate.MAXORDINAL.
  rewrite Hq.
  replace (1 <=? q) with true by (symmetry; apply Z.leb_le; lia).
  replace (q <=? 3652059) with true by (symmetry; apply Z.leb_le; lia).
  reflexivity.
Qed.

Lemma completion_steps now n :
  PyDate.valid now ->
  PyDate.ordinal now + 127 <= PyDate.MAXORDINAL ->
  1 <= PyDate.ordinal now + 127 + n / 2 ->
  PyDate.ordinal now + 128 + n / 2 <= PyDate.MAXORDINAL ->
  PyDate.add now 10972800000000 =
    Ok (PyDate.mk_datetime (PyDate.ordinal now + 127)
          (PyDate.usec_of_day now)) /\
  PyDate.check_delta (n * 43200000000) = Ok (n * 43200000000) /\
  PyDate.add (PyDate.mk_datetime (PyDate.ordinal now + 127)
                (PyDate.usec_of_day now)) (n * 43200000000) =
    Ok (after_half_days now (254 + n)).
Proof.
  unfold PyDate.valid, PyDate.MAXORDINAL, PyDate.us_per_day.
  intros [Hord Hus] Hbase Hlo Hhi.
  set (o := PyDate.ordinal now) in *. set (u := PyDate.usec_of_day now) in *.
  pose proof (carry_bounds u n 43200000000 ltac:(lia) ltac:(lia)) as Hc.
  change (2 * 43200000000) with 86400000000 in Hc.
  assert (E1 : (o * 86400000000 + u + 10972800000000) / 86400000000 = o + 127).
  { replace (o * 86400000000 + u + 10972800000000)
      with (u + (o + 127) * 86400000000) by ring.
    rewrite Z.div_add, Z.div_small by lia. lia. }
  assert (M1 : (o * 86400000000 + u + 10972800000000) mod 86400000000 = u).
  { replace (o * 86400000000 + u + 10972800000000)
      with (u + (o + 127) * 86400000000) by ring.
    rewrite Z.mod_add, Z.mod_small by lia. reflexivity. }
  assert (E2 : ((o + 127) * 86400000000 + u + n * 43200000000) / 86400000000
               = o + 127 + (u + n * 43200000000) / 86400000000).
  { replace ((o + 127) * 86400000000 + u + n * 43200000000)
      with (u + n * 43200000000 + (o + 127) * 86400000000) by ring.
    rewrite Z.div_add by lia. lia. }
  split; [|split].
  - rewrite (add_ok now _ (o + 127)) by (fold o u; lia). fold o u.
    rewrite M1. reflexivity.
  - apply check_delta_ok.
    change 86400000000 with (2 * 43200000000). rewrite half_div by lia. lia.
  - rewrite (add_ok (PyDate.mk_datetime (o + 127) u) (n * 43200000000) _ E2)
      by lia.
    cbn [PyDate.ordinal PyDate.usec_of_day].
    unfold after_half_days, PyDate.us_per_day. cbv zeta. fold o u.
    replace (u + (254 + n) * 43200000000)
      with (u + n * 43200000000 + 127 * 86400000000) by ring.
    replace ((o + 127) * 86400000000 + u + n * 43200000000)
      with (u + n * 43200000000 + (o + 127) * 86400000000) by ring.
    rewrite Z.div_add, !Z.mod_add by lia. f_equal. f_equal. ring.
Qed.

Lemma in_class_weaken L H L' H' x :
  L' <= L -> H <= H' -> in_class L H x -> in_class L' H' x.
Proof.
  intros HL HH. destruct x; simpl; try tauto. intros [? ?]. split; [assumption|lia].
Qed.

Lemma in_class_finite L H x : in_class L H x -> PyFloat.is_finite x = true.
Proof. destruct x; simpl; tauto. Qed.

Lemma canon_class s a k :
  Z.pos a < 2 ^ 53 -> in_class (k - 52) k (canon s a k).
Proof.
  intros Ha. pose proof (digits_lt_pow a 53 ltac:(lia) Ha).
  pose proof (digits_pos a). pose proof (digits_log2 a).
  pose proof (pow2_pos (53 - digits a) ltac:(lia)).
  unfold canon, in_class. rewrite Z2Pos.id by lia.
  rewrite Z.log2_mul_pow2 by lia. lia.
Qed.

Lemma of_int_class n :
  - 2 ^ 53 < n < 2 ^ 53 ->
  exists x, PyFloat.of_int n = Ok x /\ in_class (-52) 0 x.
Proof.
  intros Hn. destruct n as [|a|a].
  - eexists. split; [reflexivity | exact I].
  - eexists. split; [apply of_int_canon; lia|].
    apply (canon_class false a 0). lia.
  - eexists. split; [apply of_int_canon; lia|].
    apply (canon_class true a 0). lia.
Qed.

Lemma mul_class L H x sw mw ew :
  in_class L H x -> Z.log2 (Z.pos mw) = 52 ->
  -1074 <= L + ew -> H + ew + 54 <= 971 ->
  in_class (L + ew + 52) (H + ew + 54) (PyFloat.mul x (S754_finite sw mw ew)).
Proof.
  intros Hx Hw HL HH. destruct x as [s|s| |s m e]; cbn [in_class] in Hx;
    try contradiction.
  - exact I.
  - destruct Hx as [Hm He].
    unfold PyFloat.mul, SFmul, PyFloat.prec, PyFloat.emax.
    pose proof (Z.log2_mul_below (Z.pos m) (Z.pos mw) eq_refl eq_refl) as Hlow.
    pose proof (Z.log2_mul_above (Z.pos m) (Z.pos mw) ltac:(lia) ltac:(lia)) as Hup.
    rewrite <- Pos2Z.inj_mul in Hlow, Hup.
    rewrite round_aux_normal by lia.
    pose proof (round53_spec (Z.pos (m * mw)) ltac:(lia)) as Hs.
    destruct (round53 (Z.pos (m * mw))) as [m' n]. destruct Hs as [Hm' Hn].
    assert (0 < m') by (destruct m'; simpl in Hm'; lia).
    replace (e + ew + n <=? 971) with true by (symmetry; apply Z.leb_le; lia).
    cbn [in_class]. rewrite Z2Pos.id by lia. lia.
Qed.

Lemma binary_round_class s p e K :
  digits p <= K -> 53 <= K -> -1074 <= e - 52 -> e + K - 52 <= 971 ->
  in_class (e - 52) (e + K - 52) (binary_round 53 1024 s p e).
Proof.
  intros HK H53 Hlo Hhi. pose proof (digits_pos p). pose proof (digits_log2 p).
  destruct (Z_le_gt_dec (digits p) 53) as [Hd|Hd].
  - rewrite binary_round_canon by lia.
    apply (in_class_weaken (e - 52) e); try lia.
    apply canon_class. pose proof (digits_bounds p).
    assert (2 ^ digits p <= 2 ^ 53) by (apply Z.pow_le_mono_r; lia). lia.
  - unfold binary_round, shl_align, fexp, emin.
    change (Z.pos (digits2_pos p)) with (digits p).
    replace (Z.max (digits p + e - 53) (3 - 1024 - 53) - e)
      with (digits p - 53) by lia.
    destruct (digits p - 53) as [|d|d] eqn:Hdd; try lia.
    rewrite round_aux_normal by lia.
    pose proof (round53_spec (Z.pos p) ltac:(lia)) as Hs.
    destruct (round53 (Z.pos p)) as [m' n]. destruct Hs as [Hm' Hn].
    assert (0 < m') by (destruct m'; simpl in Hm'; lia).
    replace (e + n <=? 971) with true by (symmetry; apply Z.leb_le; lia).
    cbn [in_class]. rewrite Z2Pos.id by lia. lia.
Qed.

Lemma shl_align_fst mx ex ez :
  ez <= ex -> Z.pos (fst (shl_align mx ex ez)) = Z.pos mx * 2 ^ (ex - ez).
Proof.
  intros H. unfold shl_align.
  destruct (ez - ex) as [|d|d] eqn:E; try lia; simpl fst.
  - replace (ex - ez) with 0 by lia. lia.
  - rewrite iter_xO_pow. f_equal. f_equal. lia.
Qed.

Lemma add_class L H x y :
  in_class L H x -> in_class L H y ->
  -1074 <= L - 52 -> H + 2 <= 971 ->
  in_class (L - 52) (H + 2) (PyFloat.add x y).
Proof.
  intros Hx Hy HL HH.
  destruct x as [sx|sx| |sx mx ex]; cbn [in_class] in Hx; try contradiction;
    destruct y as [sy|sy| |sy my ey]; cbn [in_class] in Hy;
    try contradiction.
  - destruct sx, sy; exact I.
  - cbn. split; [tauto | lia].
  - cbn. split; [tauto | lia].
  - destruct Hx as [Hmx Hex], Hy as [Hmy Hey].
    apply log2_52_bounds in Hmx, Hmy.
    unfold PyFloat.add, SFadd, PyFloat.prec, PyFloat.emax.
    set (ez := Z.min ex ey).
    pose proof (shl_align_fst mx ex ez ltac:(unfold ez; lia)) as HX.
    pose proof (shl_align_fst my ey ez ltac:(unfold ez; lia)) as HY.
    set (X := Z.pos (fst (shl_align mx ex ez))) in *.
    set (Y := Z.pos (fst (shl_align my ey ez))) in *.
    set (K := 54 + Z.max ex ey - ez).
    assert (HXb : X < 2 ^ (K - 1)).
    { rewrite HX. replace (K - 1) with (53 + (Z.max ex ey - ez)) by (unfold K; lia).
      rewrite Z.pow_add_r by (unfold ez; lia).
      assert (2 ^ (ex - ez) <= 2 ^ (Z.max ex ey - ez))
        by (apply Z.pow_le_mono_r; unfold ez; lia).
      pose proof (pow2_pos (ex - ez) ltac:(unfold ez; lia)). nia. }
    assert (HYb : Y < 2 ^ (K - 1)).
    { rewrite HY. replace (K - 1) with (53 + (Z.max ex ey - ez)) by (unfold K; lia).
      rewrite Z.pow_add_r by (unfold ez; lia).
      assert (2 ^ (ey - ez) <= 2 ^ (Z.max ex ey - ez))
        by (apply Z.pow_le_mono_r; unfold ez; lia).
      pose proof (pow2_pos (ey - ez) ltac:(unfold ez; lia)). nia. }
    assert (HK : 2 ^ K = 2 * 2 ^ (K - 1)).
    { replace K with (Z.succ (K - 1)) at 1 by lia.
      apply Z.pow_succ_r. unfold K, ez. lia. }
    assert (HS : Z.abs (cond_Zopp sx X + cond_Zopp sy Y) < 2 ^ K).
    { unfold cond_Zopp. destruct sx, sy; lia. }
    destruct (cond_Zopp sx X + cond_Zopp sy Y) as [|p|p] eqn:ES;
      unfold binary_normalize.
    + exact I.
    + apply (in_class_weaken (ez - 52) (ez + K - 52)); try (unfold K, ez; lia).
      apply binary_round_class; try (unfold K, ez; lia).
      apply digits_lt_pow; [unfold K, ez; lia | simpl in HS; lia].
    + apply (in_class_weaken (ez - 52) (ez + K - 52)); try (unfold K, ez; lia).
      apply binary_round_class; try (unfold K, ez; lia).
      apply digits_lt_pow; [unfold K, ez; lia | simpl in HS; lia].
Qed.

Lemma int_mul_class n sw mw ew :
  - 2 ^ 53 < n < 2 ^ 53 -> Z.log2 (Z.pos mw) = 52 -> -56 <= ew <= -54 ->
  exists x, PyFloat.int_mul n (S754_finite sw mw ew) = Ok x /\
            in_class (-56) 0 x.
Proof.
  intros Hn Hw He. destruct (of_int_class n Hn) as (f & Hf & Hc).
  unfold PyFloat.int_mul. rewrite Hf. cbn [bind].
  eexists. split; [reflexivity|].
  apply (in_class_weaken (-52 + ew + 52) (0 + ew + 54)); try lia.
  apply mul_class; try assumption; lia.
Qed.

Lemma weighted_sum_finite o q c m :
  - 2 ^ 53 < o < 2 ^ 53 -> - 2 ^ 53 < q < 2 ^ 53 ->
  - 2 ^ 53 < c < 2 ^ 53 -> - 2 ^ 53 < m < 2 ^ 53 ->
  exists x, weighted_sum o q c m = Ok x /\ PyFloat.is_finite x = true.
Proof.
  intros Ho Hq Hc Hm.
  unfold weighted_sum, PyFloat.lit_0_35, PyFloat.lit_0_25, PyFloat.lit_0_15.
  destruct (int_mul_class o false 6305039478318694 (-54) Ho eq_refl
              ltac:(lia)) as (a & -> & Ha).
  destruct (int_mul_class q false 4503599627370496 (-54) Hq eq_refl
              ltac:(lia)) as (b & -> & Hb).
  destruct (int_mul_class c false 4503599627370496 (-54) Hc eq_refl
              ltac:(lia)) as (c' & -> & Hc').
  destruct (int_mul_class m false 5404319552844595 (-55) Hm eq_refl
              ltac:(lia)) as (d & -> & Hd').
  cbn [bind]. eexists. split; [reflexivity|].
  pose proof (add_class (-56) 0 a b Ha Hb ltac:(lia) ltac:(lia)) as H1.
  pose proof (add_class (-108) 2 _ c' H1
                (in_class_weaken (-56) 0 (-108) 2 c' ltac:(lia) ltac:(lia) Hc')
                ltac:(lia) ltac:(lia)) as H2.
  pose proof (add_class (-160) 4 _ d H2
                (in_class_weaken (-56) 0 (-160) 4 d ltac:(lia) ltac:(lia) Hd')
                ltac:(lia) ltac:(lia)) as H3.
  exact (in_class_finite _ _ _ H3).
Qed.


Lemma to_int_finite x :
  PyFloat.is_finite x = true -> exists k, PyFloat.to_int x = Ok k.
Proof.
  destruct x; simpl; intros H; try discriminate; eauto.
Qed.

Lemma to_int_trunc x k :
  PyFloat.to_int x = Ok k ->
  k = if PyFloat.is_negative x then - PyFloat.floor (SFopp x)
      else PyFloat.floor x.
Proof.
  destruct x as [s|s| |s m e]; simpl; intros H; try discriminate.
  - injection H as <-. reflexivity.
  - injection H as <-. unfold PyFloat.signed.
    destruct s; cbn [negb]; destruct (0 <=? e) eqn:He.
    + change (Z.neg m) with (- Z.pos m). ring.
    + assert (0 < 2 ^ (- e)) by (apply pow2_pos; apply Z.leb_gt in He; lia).
      change (Z.neg m) with (- Z.pos m).
      rewrite Z.quot_opp_l by lia. rewrite Z.quot_div_nonneg by lia.
      reflexivity.
    + reflexivity.
    + assert (0 < 2 ^ (- e)) by (apply pow2_pos; apply Z.leb_gt in He; lia).
      apply Z.quot_div_nonneg; lia.
Qed.

Lemma eqb_refl x : x <> S754_nan -> PyFloat.eqb x x = true.
Proof.
  intros Hx. unfold PyFloat.eqb, SFeqb.
  destruct x as [s|s| |s m e]; simpl; try congruence.
  - destruct s; reflexivity.
  - rewrite Z.compare_refl. destruct s.
    + replace (Pos.compare_cont Eq m m) with Eq; [reflexivity|].
      symmetry. apply Pos.compare_cont_refl.
    + replace (Pos.compare_cont Eq m m) with Eq; [reflexivity|].
      symmetry. apply Pos.compare_cont_refl.
Qed.

(** ** Scenario analysis: the computed impacts *)

Lemma analyze_scenario_exact hs now st a base rest :
  fault st = None ->
  risks_of st a = base :: rest ->
  - 2 ^ 26 < impact_days base < 2 ^ 26 ->
  - 2 ^ 26 < delay_weeks a < 2 ^ 26 ->
  PyDate.valid now ->
  PyDate.ordinal now + 127 <= PyDate.MAXORDINAL ->
  1 <= PyDate.ordinal now + 127 + impact_days base * delay_weeks a / 2 ->
  PyDate.ordinal now + 128 + impact_days base * delay_weeks a / 2
    <= PyDate.MAXORDINAL ->
  exists m,
    PyFloat.int_truediv_2 (delay_weeks a) = Ok m /\
    half_float m (delay_weeks a) /\
    analyze_scenario hs now st a =
      Ok (mk_ScenarioResult (PyFloat.mul (impact_cost base) m)
            (Z.quot (impact_days base * delay_weeks a) 2)
            (PyDate.strftime_b_d_Y
               (after_half_days now
                  (254 + impact_days base * delay_weeks a)))
            (scenario_risk_level (delay_weeks a))).
Proof.
  intros Hf Hrows Hd Hw Hnow Hbase Hlo Hhi.
  destruct (int_truediv_2_half (delay_weeks a) ltac:(lia)) as (m & Hm & Hhalf).
  destruct (int_mul_half _ _ m Hd Hw Hhalf) as (x & Hx & Hxh).
  assert (Hn : - 2 ^ 53 < impact_days base * delay_weeks a < 2 ^ 53) by nia.
  destruct (completion_steps now _ Hnow Hbase Hlo Hhi) as (S1 & S2 & S3).
  exists m. split; [exact Hm|]. split; [exact Hhalf|].
  unfold analyze_scenario, execute. rewrite Hf. cbn [bind].
  fold (risks_of st a). rewrite Hrows, Hm. cbn [bind]. rewrite Hx. cbn [bind].
  change (PyDate.timedelta_of_int_days 127) with (Ok 10972800000000).
  cbn [bind]. rewrite S1. cbn [bind].
  rewrite (timedelta_half x _ Hn Hxh), S2. cbn [bind]. rewrite S3. cbn [bind].
  rewrite (to_int_half x _ Hn Hxh). reflexivity.
Qed.

Lemma analyze_scenario_budget hs now st a r :
  analyze_scenario hs now st a = Ok r ->
  exists base rest m,
    risks_of st a = base :: rest /\
    PyFloat.int_truediv_2 (delay_weeks a) = Ok m /\
    budget_impact r = PyFloat.mul (impact_cost base) m.
Proof.
  unfold analyze_scenario. intros H. apply try_except_ok in H.
  unfold execute in H. destruct (fault st); [discriminate|]. cbn [bind] in H.
  fold (risks_of st a) in H.
  destruct (risks_of st a) as [|base rest]; [discriminate|].
  inv_bind H. exists base, rest, a0. repeat inv_bind H. injection H as <-.
  repeat split. exact Ha.
Qed.

(** C4: within the representable range (sizes below [2^26], a completion
    date inside the calendar), scenario analysis succeeds and returns
    [budget_impact = impact_cost * (delay_weeks / 2)] as a float, where
    [delay_weeks / 2] is the exact half, and [schedule_impact] the exact
    product [impact_days * delay_weeks / 2] truncated toward zero. *)
Theorem scenario_impacts_scaled :
  forall hs now st a base rest,
    fault st = None ->
    risks_of st a = base :: rest ->
    - 2 ^ 26 < impact_days base < 2 ^ 26 ->
    - 2 ^ 26 < delay_weeks a < 2 ^ 26 ->
    PyDate.valid now ->
    PyDate.ordinal now + 127 <= PyDate.MAXORDINAL ->
    1 <= PyDate.ordinal now + 127 + impact_days base * delay_weeks a / 2 ->
    PyDate.ordinal now + 128 + impact_days base * delay_weeks a / 2
      <= PyDate.MAXORDINAL ->
    exists m r,
      PyFloat.int_truediv_2 (delay_weeks a) = Ok m /\
      half_float m (delay_weeks a) /\
      analyze_scenario hs now st a = Ok r /\
      budget_impact r = PyFloat.mul (impact_cost base) m /\
      schedule_impact r = Z.quot (impact_days base * delay_weeks a) 2 /\
      sr_risk_level r = scenario_risk_level (delay_weeks a).
Proof.
  intros hs now st a base rest Hf Hrows Hd Hw Hnow Hbase Hlo Hhi.
  destruct (analyze_scenario_exact hs now st a base rest
              Hf Hrows Hd Hw Hnow Hbase Hlo Hhi) as (m & Hm & Hh & Hr).
  exists m. eexists. repeat split; try eassumption; reflexivity.
Qed.

Lemma demo_valid_afternoon : PyDate.valid Demo.afternoon.
Proof. unfold PyDate.valid. simpl. unfold PyDate.MAXORDINAL, PyDate.us_per_day. lia. Qed.

Lemma scenario_impacts_scaled_witness :
  exists r,
    analyze_scenario Demo.http_str Demo.afternoon Demo.store
      (mk_RiskAnalysis "wp-2" 4) = Ok r /\
    budget_impact r = S754_finite false 4939212390400000 (-30) /\
    schedule_impact r = 36 /\
    sr_risk_level r = "CRITICAL".
Proof.
  destruct (scenario_impacts_scaled Demo.http_str Demo.afternoon Demo.store
              (mk_RiskAnalysis "wp-2" 4) Demo.electrical_risk [])
    as (m & r & Hm & _ & Hr & Hb & Hs & Hl).
  - reflexivity.
  - reflexivity.
  - simpl. lia.
  - simpl. lia.
  - exact demo_valid_afternoon.
  - simpl. unfold PyDate.MAXORDINAL. lia.
  - simpl. lia.
  - simpl. unfold PyDate.MAXORDINAL. lia.
  - exists r. split; [exact Hr|].
    vm_compute in Hm. injection Hm as <-.
    rewrite Hb, Hs, Hl. repeat split.
Defined.

(** ** Completion date *)

(** At 13:00, three impact days under a one-week delay (1.5 days) move
    the date by 129 days; the specification's wording gives 128. *)
Lemma completion_date_counterexample :
  exists r,
    analyze_scenario Demo.http_str Demo.afternoon Demo.store
      (mk_RiskAnalysis "wp-3" 1) = Ok r /\
    schedule_impact r = 1 /\
    completion_date r = "Mar 11, 2025" /\
    claimed_completion_date Demo.afternoon 3 1 = "Mar 10, 2025" /\
    completion_date r <> claimed_completion_date Demo.afternoon 3 1.
Proof.
  eexists. split; [vm_compute; reflexivity|].
  repeat split. vm_compute. discriminate.
Qed.

Lemma quot_even n : Z.even n = true -> Z.quot n 2 = n / 2.
Proof.
  intros He. apply Z.even_spec in He. destruct He as [j ->].
  rewrite (Z.mul_comm 2 j), Z.quot_mul, Z.div_mul by lia. reflexivity.
Qed.

(** C2 (as amended): within the representable range the completion date
    is the calendar date of the instant [now + 127 days +
    impact_days * delay_weeks] half days (12 hours each), formatted as
    "Mon DD, YYYY"; when [impact_days * delay_weeks] is even this is today
    plus 127 plus [schedule_impact] whole days, as the specification
    words it. *)
Theorem completion_date_counts_half_days :
  forall hs now st a base rest,
    fault st = None ->
    risks_of st a = base :: rest ->
    - 2 ^ 26 < impact_days base < 2 ^ 26 ->
    - 2 ^ 26 < delay_weeks a < 2 ^ 26 ->
    PyDate.valid now ->
    PyDate.ordinal now + 127 <= PyDate.MAXORDINAL ->
    1 <= PyDate.ordinal now + 127 + impact_days base * delay_weeks a / 2 ->
    PyDate.ordinal now + 128 + impact_days base * delay_weeks a / 2
      <= PyDate.MAXORDINAL ->
    exists r,
      analyze_scenario hs now st a = Ok r /\
      completion_date r =
        PyDate.strftime_b_d_Y
          (after_half_days now (254 + impact_days base * delay_weeks a)) /\
      (Z.even (impact_days base * delay_weeks a) = true ->
       schedule_impact r = impact_days base * delay_weeks a / 2 /\
       completion_date r =
         PyDate.strftime_b_d_Y
           (PyDate.mk_datetime
              (PyDate.ordinal now + 127 + schedule_impact r)
              (PyDate.usec_of_day now)) /\
       completion_date r =
         claimed_completion_date now (impact_days base) (delay_weeks a)).
Proof.
  intros hs now st a base rest Hf Hrows Hd Hw Hnow Hbase Hlo Hhi.
  destruct (analyze_scenario_exact hs now st a base rest
              Hf Hrows Hd Hw Hnow Hbase Hlo Hhi) as (m & Hm & Hh & Hr).
  eexists. split; [exact Hr|]. cbn [completion_date schedule_impact].
  split; [reflexivity|]. intros He.
  set (n := impact_days base * delay_weeks a) in *.
  rewrite (quot_even n He). split; [reflexivity|].
  assert (E : after_half_days now (254 + n) =
              PyDate.mk_datetime (PyDate.ordinal now + 127 + n / 2)
                (PyDate.usec_of_day now)).
  { pose proof He as He'. apply Z.even_spec in He'. destruct He' as [j Hj].
    rewrite Hj. replace (254 + 2 * j) with (2 * (127 + j)) by ring.
    rewrite after_even_half_days by assumption.
    rewrite (Z.mul_comm 2 j), Z.div_mul by lia.
    f_equal. ring. }
  rewrite E. split; reflexivity.
Qed.

Lemma completion_date_counts_half_days_witness :
  exists r,
    analyze_scenario Demo.http_str Demo.afternoon Demo.store
      (mk_RiskAnalysis "wp-2" 4) = Ok r /\
    schedule_impact r = 36 /\
    completion_date r =
      PyDate.strftime_b_d_Y
        (PyDate.mk_datetime (PyDate.ordinal Demo.afternoon + 163)
           (PyDate.usec_of_day Demo.afternoon)) /\
    completion_date r = "Apr 14, 2025".
Proof.
  destruct (completion_date_counts_half_days Demo.http_str Demo.afternoon
              Demo.store (mk_RiskAnalysis "wp-2" 4) Demo.electrical_risk [])
    as (r & Hr & _ & He).
  - reflexivity.
  - reflexivity.
  - simpl. lia.
  - simpl. lia.
  - exact demo_valid_afternoon.
  - simpl. unfold PyDate.MAXORDINAL. lia.
  - simpl. lia.
  - simpl. unfold PyDate.MAXORDINAL. lia.
  - destruct (He eq_refl) as (Hs & Hc & _).
    exists r. split; [exact Hr|]. split; [exact Hs|].
    rewrite Hc, Hs. split; reflexivity.
Defined.

(** ** Linearity of the budget impact *)

Lemma canon_parts s a k :
  Z.pos a < 2 ^ 53 ->
  exists M,
    canon s a k = S754_finite s M (k + digits a - 53) /\
    Z.log2 (Z.pos M) = 52 /\
    Z.pos M = Z.pos a * 2 ^ (53 - digits a).
Proof.
  intros Ha. pose proof (digits_lt_pow a 53 ltac:(lia) Ha).
  pose proof (digits_pos a). pose proof (digits_log2 a).
  pose proof (pow2_pos (53 - digits a) ltac:(lia)).
  exists (Z.to_pos (Z.pos a * 2 ^ (53 - digits a))).
  split; [reflexivity|]. rewrite Z2Pos.id by lia.
  split; [|reflexivity]. rewrite Z.log2_mul_pow2 by lia. lia.
Qed.

Lemma canon_double s a k :
  Z.pos a~0 < 2 ^ 53 ->
  exists M,
    canon s a k = S754_finite s M (k + digits a - 53) /\
    canon s a~0 k = S754_finite s M (k + digits a - 53 + 1) /\
    Z.log2 (Z.pos M) = 52.
Proof.
  intros Ha.
  destruct (canon_parts s a k ltac:(lia)) as (M & E & HM & HMv).
  exists M. split; [exact E|]. split; [|exact HM].
  assert (Hd : digits a~0 = digits a + 1) by (unfold digits; simpl; lia).
  pose proof (digits_lt_pow a~0 53 ltac:(lia) Ha).
  unfold canon. rewrite Hd. f_equal; [|lia].
  apply Pos2Z.inj. rewrite HMv.
  pose proof (pow2_pos (53 - (digits a + 1)) ltac:(lia)).
  rewrite Z2Pos.id by lia.
  replace (53 - digits a) with (Z.succ (53 - (digits a + 1))) by lia.
  rewrite Z.pow_succ_r by lia. rewrite Pos2Z.inj_xO. ring.
Qed.

Lemma mul_ordinary_not_nan c s M e :
  ordinary c = true -> Z.log2 (Z.pos M) = 52 -> -1074 <= e + -1021 ->
  PyFloat.mul c (S754_finite s M e) <> S754_nan.
Proof.
  intros Hc HM He. destruct c as [sc|sc| |sc mc ec]; cbn [ordinary] in Hc;
    try discriminate.
  apply Z.leb_le in Hc.
  unfold PyFloat.mul, SFmul, PyFloat.prec, PyFloat.emax.
  pose proof (log2_product mc M HM) as Hlow.
  pose proof (Z.log2_nonneg (Z.pos mc)) as Hmc.
  assert (HP : 52 <= Z.log2 (Z.pos (mc * M))) by lia.
  rewrite round_aux_normal_from by lia.
  destruct (round53 (Z.pos (mc * M))) as [m n].
  destruct (ec + e + n <=? 971); discriminate.
Qed.

(** A base risk whose cost is the smallest positive float, 5e-324: for a
    delay of one week the budget impact is 0.0 (half of 5e-324 rounds to
    zero), for two weeks it is 5e-324, and [5e-324 == 2 * 0.0] is false. *)
Lemma budget_impact_doubling_counterexample :
  exists r r',
    analyze_scenario Demo.http_str Demo.afternoon Demo.tiny_cost_store
      (mk_RiskAnalysis "wp-t" 1) = Ok r /\
    analyze_scenario Demo.http_str Demo.afternoon Demo.tiny_cost_store
      (mk_RiskAnalysis "wp-t" 2) = Ok r' /\
    budget_impact r = S754_zero false /\
    budget_impact r' = S754_finite false 1 (-1074) /\
    PyFloat.int_mul 2 (budget_impact r) = Ok (S754_zero false) /\
    PyFloat.eqb (budget_impact r') (S754_zero false) = false.
Proof.
  eexists. eexists. split; [vm_compute; reflexivity|].
  split; [vm_compute; reflexivity|]. repeat split.
Qed.

(** C6: for a delay [0 < w < 2^52] and a base risk whose cost is not NaN
    and is zero, infinite or at least [2^-1021] in magnitude, the budget
    impact computed for delay [2 w] equals, as Python's [==] on floats has
    it, [2 * budget_impact] computed for delay [w] on the same base
    risk. *)
Theorem budget_impact_doubles :
  forall hs now now' st wp w base rest r r',
    0 < w < 2 ^ 52 ->
    risks_of st (mk_RiskAnalysis wp w) = base :: rest ->
    ordinary (impact_cost base) = true ->
    analyze_scenario hs now st (mk_RiskAnalysis wp w) = Ok r ->
    analyze_scenario hs now' st (mk_RiskAnalysis wp (2 * w)) = Ok r' ->
    exists twice,
      PyFloat.int_mul 2 (budget_impact r) = Ok twice /\
      twice = budget_impact r' /\
      PyFloat.eqb (budget_impact r') twice = true.
Proof.
  intros hs now now' st wp w base0 rest0 r r' Hw Hbase Hord Hr Hr'.
  apply analyze_scenario_budget in Hr, Hr'.
  destruct Hr as (base & rest & m & Hrows & Hm & Hb).
  destruct Hr' as (base' & rest' & m' & Hrows' & Hm' & Hb').
  unfold risks_of in Hbase, Hrows, Hrows'.
  cbn [ra_work_package_id] in Hbase, Hrows, Hrows'.
  rewrite Hrows in Hrows'. injection Hrows' as <- <-.
  rewrite Hrows in Hbase. injection Hbase as <- <-.
  cbn [delay_weeks] in Hm, Hm'.
  destruct w as [|a|a]; try lia.
  change (2 * Z.pos a) with (Z.pos a~0) in Hm'.
  rewrite (proj1 (int_truediv_2_canon a ltac:(lia))) in Hm.
  rewrite (proj1 (int_truediv_2_canon a~0 ltac:(lia))) in Hm'.
  injection Hm as <-. injection Hm' as <-.
  destruct (canon_double false a (-1) ltac:(lia)) as (M & E1 & E2 & HM).
  rewrite E1 in Hb. rewrite E2 in Hb'.
  pose proof (digits_pos a) as Hda.
  assert (Hdouble :
    PyFloat.mul two (budget_impact r) = budget_impact r').
  { rewrite Hb, Hb'. apply mul_succ_exp; [exact HM|].
    intros sc mc ec Ec. rewrite Ec in Hord. cbn [ordinary] in Hord.
    apply Z.leb_le in Hord. lia. }
  exists (PyFloat.mul two (budget_impact r)).
  split; [reflexivity|]. split; [exact Hdouble|].
  rewrite Hdouble. apply eqb_refl. rewrite Hb'.
  apply mul_ordinary_not_nan; [exact Hord | exact HM | lia].
Qed.

Lemma budget_impact_doubles_witness :
  exists r r',
    analyze_scenario Demo.http_str Demo.afternoon Demo.store
      (mk_RiskAnalysis "wp-2" 2) = Ok r /\
    analyze_scenario Demo.http_str Demo.morning Demo.store
      (mk_RiskAnalysis "wp-2" 4) = Ok r' /\
    PyFloat.int_mul 2 (budget_impact r) = Ok (budget_impact r') /\
    budget_impact r = Demo.cost_2300000.
Proof.
  eexists. eexists. split; [vm_compute; reflexivity|].
  split; [vm_compute; reflexivity|].
  destruct (budget_impact_doubles Demo.http_str Demo.afternoon Demo.morning
              Demo.store "wp-2" 2 Demo.electrical_risk [] _ _ ltac:(lia)
              eq_refl eq_refl
              ltac:(vm_compute; reflexivity) ltac:(vm_compute; reflexivity))
    as (twice & Ht & He & _).
  split; [|reflexivity]. rewrite Ht, He. reflexivity.
Defined.

(** ** Scenario classification *)

Lemma scenario_risk_level_steps (w : Z) :
  (w <= 2 -> scenario_risk_level w = "MEDIUM") /\
  (2 < w <= 3 -> scenario_risk_level w = "HIGH") /\
  (3 < w -> scenario_risk_level w = "CRITICAL") /\
  scenario_risk_level w <> "LOW".
Proof.
  unfold scenario_risk_level.
  destruct (3 <? w) eqn:H3; [apply Z.ltb_lt in H3 | apply Z.ltb_ge in H3];
    (destruct (2 <? w) eqn:H2; [apply Z.ltb_lt in H2 | apply Z.ltb_ge in H2]);
    repeat split; intros; try lia; try reflexivity; discriminate.
Qed.

Lemma analyze_scenario_level hs now st a r :
  analyze_scenario hs now st a = Ok r ->
  sr_risk_level r = scenario_risk_level (delay_weeks a).
Proof.
  unfold analyze_scenario. intros H. apply try_except_ok in H.
  inv_bind H. destruct a0 as [|base_risk rest]; [discriminate|].
  repeat inv_bind H. injection H as <-. reflexivity.
Qed.

(** C5: the risk level of a scenario result is a step function of the
    requested [delay_weeks] alone: at most 2 gives MEDIUM, 3 gives HIGH,
    more than 3 gives CRITICAL, whatever the base risk, the store and the
    clock are; LOW is never produced. *)
Theorem scenario_level_step_function :
  forall hs now st a r,
    analyze_scenario hs now st a = Ok r ->
    (delay_weeks a <= 2 -> sr_risk_level r = "MEDIUM") /\
    (2 < delay_weeks a <= 3 -> sr_risk_level r = "HIGH") /\
    (3 < delay_weeks a -> sr_risk_level r = "CRITICAL") /\
    sr_risk_level r <> "LOW".
Proof.
  intros hs now st a r H.
  rewrite (analyze_scenario_level _ _ _ _ _ H).
  apply scenario_risk_level_steps.
Qed.

Lemma scenario_level_step_function_witness :
  exists r,
    analyze_scenario Demo.http_str Demo.afternoon Demo.store
      (mk_RiskAnalysis "wp-2" 3) = Ok r /\
    sr_risk_level r = "HIGH".
Proof.
  eexists. split; [vm_compute; reflexivity|].
  refine (proj1 (proj2 (scenario_level_step_function Demo.http_str
           Demo.afternoon Demo.store (mk_RiskAnalysis "wp-2" 3) _ _)) _).
  - vm_compute. reflexivity.
  - simpl. lia.
Defined.

(** ** Scenario analysis: error paths *)

Lemma filter_none {A} (p : A -> bool) (l : list A) :
  (forall x, In x l -> p x = false) -> filter p l = [].
Proof.
  induction l as [|x l IH]; simpl; intros H; [reflexivity|].
  rewrite (H x (or_introl eq_refl)). apply IH. auto.
Qed.

Lemma analyze_scenario_store_fault hs now st a msg :
  fault st = Some msg ->
  analyze_scenario hs now st a =
    Raise (HTTPException 500 ("Analysis error: " ++ msg)).
Proof.
  intros Hf. unfold analyze_scenario, execute. rewrite Hf. reflexivity.
Qed.

(** C1: on the code, a scenario request whose work package matches no
    risk row does not end in the Not-Found (404) condition: the 404 raised
    inside the handler is caught by the handler's own blanket [except] and
    leaves as status 500 with an "Analysis error: " detail. *)
Theorem analyze_scenario_missing_risk_is_500 :
  forall hs now st a,
    fault st = None ->
    (forall r, In r (risks st) ->
               work_package_id r <> ra_work_package_id a) ->
    analyze_scenario hs now st a =
      Raise (HTTPException 500
               ("Analysis error: " ++ hs 404 "Risk not found")).
Proof.
  intros hs now st a Hf Hnone.
  unfold analyze_scenario, execute. rewrite Hf.
  rewrite filter_none; [reflexivity|].
  intros r Hr. apply String.eqb_neq. auto.
Qed.

Lemma analyze_scenario_missing_risk_is_500_witness :
  analyze_scenario Demo.http_str Demo.afternoon Demo.store
    (mk_RiskAnalysis "wp-1" 4) =
  Raise (HTTPException 500 "Analysis error: 404: Risk not found").
Proof.
  apply (analyze_scenario_missing_risk_is_500 Demo.http_str Demo.afternoon
           Demo.store (mk_RiskAnalysis "wp-1" 4)).
  - reflexivity.
  - simpl. intros r [<-|[<-|[]]]; discriminate.
Defined.

(** ** Vendor composite score *)

Lemma composite_total o q c m :
  - 2 ^ 53 < o < 2 ^ 53 -> - 2 ^ 53 < q < 2 ^ 53 ->
  - 2 ^ 53 < c < 2 ^ 53 -> - 2 ^ 53 < m < 2 ^ 53 ->
  exists x k,
    weighted_sum o q c m = Ok x /\ PyFloat.is_finite x = true /\
    PyFloat.to_int x = Ok k /\ composite o q c m = Ok k.
Proof.
  intros Ho Hq Hc Hm.
  destruct (weighted_sum_finite o q c m Ho Hq Hc Hm) as (x & Hx & Hfin).
  destruct (to_int_finite x Hfin) as (k & Hk).
  exists x, k. repeat split; try assumption.
  unfold composite. rewrite Hx. exact Hk.
Qed.

Lemma update_vendor_score_result hs st vid scores k :
  fault st = None ->
  composite (on_time scores) (quality scores) (cost scores)
    (communication scores) = Ok k ->
  update_vendor_score hs st vid scores =
    (Ok (mk_UpdateResult true k),
     set_vendors st (map (apply_scores vid scores k) (vendors st))).
Proof.
  intros Hf Hc. unfold update_vendor_score, composite, execute in *.
  rewrite Hf.
  destruct (weighted_sum _ _ _ _) as [x|]; cbn [bind] in *; [|discriminate].
  rewrite Hc. reflexivity.
Qed.

Lemma vendor_entry_score st v :
  (e <- vendor_entry st v ;; Ok (score e)) =
  composite (on_time_delivery v) (quality_score v)
    (cost_performance v) (communication_score v).
Proof.
  unfold vendor_entry, composite. cbn [ds_on_time ds_quality ds_cost ds_communication].
  destruct (weighted_sum _ _ _ _); cbn [bind]; [|reflexivity].
  destruct (PyFloat.to_int _); reflexivity.
Qed.

(** Sub-scores (-1, 0, 0, 0): the handlers answer 0, the floor of the
    weighted sum -0.35 is -1. *)
Lemma composite_floor_counterexample :
  fst (update_vendor_score Demo.http_str Demo.store "vendor-1"
         (mk_VendorScore "vendor-1" (-1) 0 0 0)) =
    Ok (mk_UpdateResult true 0) /\
  (e <- vendor_entry Demo.store
          (mk_Vendor "vendor-1" "ABC Electrical" 67 (-1) 0 0 0 "down") ;;
   Ok (score e)) = Ok 0 /\
  floor_composite (-1) 0 0 0 = -1 /\
  (x <- weighted_sum (-1) 0 0 0 ;; Ok (PyFloat.floor x)) = Ok (-1).
Proof. repeat split. Qed.

(** Sub-scores (91, 0, 0, 1): the binary64 sum is just below 32, and the
    handlers answer 31. *)
Lemma composite_binary64_example :
  composite 91 0 0 1 = Ok 31 /\ floor_composite 91 0 0 1 = 32.
Proof. split; reflexivity. Qed.

(** C3 (as amended): for sub-scores below [2^53] in magnitude, the
    listing and the update compute the same composite: the binary64
    weighted sum [o*0.35 + q*0.25 + c*0.25 + m*0.15] truncated toward zero
    by [int()], which is its floor when the sum is not negative and the
    negated floor of its opposite otherwise; (0,0,0,0) gives 0,
    (100,100,100,100) gives 100, (100,0,0,0) gives 35, and 74.999
    truncates to 74. *)
Theorem composite_truncates_toward_zero :
  forall o q c m,
    - 2 ^ 53 < o < 2 ^ 53 -> - 2 ^ 53 < q < 2 ^ 53 ->
    - 2 ^ 53 < c < 2 ^ 53 -> - 2 ^ 53 < m < 2 ^ 53 ->
    exists x k,
      weighted_sum o q c m = Ok x /\
      k = (if PyFloat.is_negative x then - PyFloat.floor (SFopp x)
           else PyFloat.floor x) /\
      (forall hs st vid vid',
         fault st = None ->
         fst (update_vendor_score hs st vid (mk_VendorScore vid' o q c m)) =
           Ok (mk_UpdateResult true k)) /\
      (forall st id name stored tr,
         (e <- vendor_entry st (mk_Vendor id name stored o q c m tr) ;;
          Ok (score e)) = Ok k) /\
      composite 0 0 0 0 = Ok 0 /\
      composite 100 100 100 100 = Ok 100 /\
      composite 100 0 0 0 = Ok 35 /\
      PyFloat.to_int (S754_finite false 5277585444580622 (-46)) = Ok 74.
Proof.
  intros o q c m Ho Hq Hc Hm.
  destruct (composite_total o q c m Ho Hq Hc Hm) as (x & k & Hx & _ & Hk & Hck).
  exists x, k. split; [exact Hx|]. split; [exact (to_int_trunc x k Hk)|].
  split; [|split].
  - intros hs st vid vid' Hf.
    rewrite (update_vendor_score_result hs st vid
               (mk_VendorScore vid' o q c m) k Hf Hck). reflexivity.
  - intros st id name stored tr. rewrite vendor_entry_score. exact Hck.
  - repeat split.
Qed.

Lemma composite_truncates_toward_zero_witness :
  exists x,
    weighted_sum 60 80 65 70 = Ok x /\
    fst (update_vendor_score Demo.http_str Demo.store "vendor-1"
           (mk_VendorScore "vendor-1" 60 80 65 70)) =
      Ok (mk_UpdateResult true (PyFloat.floor x)) /\
    PyFloat.floor x = 67.
Proof.
  destruct (composite_truncates_toward_zero 60 80 65 70)
    as (x & k & Hx & Hk & Hu & _); try lia.
  exists x. split; [exact Hx|].
  vm_compute in Hx. injection Hx as <-.
  split; [|reflexivity]. rewrite (Hu Demo.http_str Demo.store "vendor-1"
                                     "vendor-1" eq_refl).
  rewrite Hk. reflexivity.
Defined.

(** ** Vendor listing *)

Lemma vendor_entry_with_performance f st v :
  vendor_entry (with_performances f st) (with_performance f v) =
  vendor_entry st v.
Proof. reflexivity. Qed.

Lemma vendor_entries_with_performance f st vs :
  vendor_entries (with_performances f st) (map (with_performance f) vs) =
  vendor_entries st vs.
Proof.
  induction vs as [|v vs IH]; simpl; [reflexivity|].
  rewrite IH. reflexivity.
Qed.

Lemma listing_with_performances hs st f :
  get_vendor_performance hs (with_performances f st) =
  get_vendor_performance hs st.
Proof.
  unfold get_vendor_performance, execute. simpl.
  destruct (fault st); [reflexivity|]. simpl.
  rewrite vendor_entries_with_performance. reflexivity.
Qed.

(** ** Vendor score update *)

Lemma map_apply_scores_absent vid scores c vs :
  (forall v, In v vs -> vendor_id v <> vid) ->
  map (apply_scores vid scores c) vs = vs.
Proof.
  induction vs as [|v vs IH]; simpl; intros H; [reflexivity|].
  rewrite IH by auto. unfold apply_scores.
  destruct (String.eqb_spec (vendor_id v) vid) as [E|_]; [|reflexivity].
  exfalso. exact (H v (or_introl eq_refl) E).
Qed.

(** C10: with the store reachable and sub-scores below [2^53] in
    magnitude, the update answers [{success: true, new_score: composite}]
    computed from the four submitted sub-scores alone, whether or not a
    vendor row has the given id; when none has, the store is left as it
    was and still no error is raised. *)
Theorem update_succeeds_without_vendor :
  forall hs st vid scores,
    fault st = None ->
    - 2 ^ 53 < on_time scores < 2 ^ 53 ->
    - 2 ^ 53 < quality scores < 2 ^ 53 ->
    - 2 ^ 53 < cost scores < 2 ^ 53 ->
    - 2 ^ 53 < communication scores < 2 ^ 53 ->
    exists k,
      composite (on_time scores) (quality scores) (cost scores)
        (communication scores) = Ok k /\
      fst (update_vendor_score hs st vid scores) =
        Ok (mk_UpdateResult true k) /\
      ((forall v, In v (vendors st) -> vendor_id v <> vid) ->
       update_vendor_score hs st vid scores =
         (Ok (mk_UpdateResult true k), st)).
Proof.
  intros hs st vid scores Hf Ho Hq Hc Hm.
  destruct (composite_total _ _ _ _ Ho Hq Hc Hm) as (x & k & _ & _ & _ & Hk).
  exists k. split; [exact Hk|].
  rewrite (update_vendor_score_result hs st vid scores k Hf Hk).
  split; [reflexivity|].
  intros Habs. rewrite map_apply_scores_absent by assumption.
  destruct st; reflexivity.
Qed.

Lemma update_succeeds_without_vendor_witness :
  update_vendor_score Demo.http_str Demo.store "no-such-vendor"
    (mk_VendorScore "no-such-vendor" 60 80 65 70) =
  (Ok (mk_UpdateResult true 67), Demo.store).
Proof.
  destruct (update_succeeds_without_vendor Demo.http_str Demo.store
              "no-such-vendor" (mk_VendorScore "no-such-vendor" 60 80 65 70))
    as (k & Hk & _ & Habs); try (simpl; lia); [reflexivity|].
  vm_compute in Hk. injection Hk as <-.
  apply Habs. simpl. intros v [<-|[<-|[]]]; discriminate.
Defined.

(** ** Dashboard *)

Lemma collect_critical_high rs items :
  collect_critical rs = Ok items ->
  Forall2
    (fun r it =>
       ci_title it = title r /\ impact_text r = Ok (ci_impact it) /\
       ci_reasoning it = reasoning r)
    (filter (fun r => String.eqb (risk_level r) "HIGH") rs) items.
Proof.
  revert items.
  induction rs as [|r rs IH]; intros items H; cbn [collect_critical filter] in *.
  - injection H as <-. constructor.
  - destruct (String.eqb (risk_level r) "HIGH").
    + inv_bind H. inv_bind H. injection H as <-.
      constructor; [repeat split; assumption | apply IH; assumption].
    + apply IH. assumption.
Qed.

Lemma dashboard_critical_items hs st pid d :
  get_dashboard hs st pid = Ok d ->
  collect_critical (firstn 3 (order_by_cost_desc (risks st))) =
    Ok (critical_items d).
Proof.
  unfold get_dashboard. intros H. apply try_except_ok in H.
  unfold execute in H. destruct (fault st); [discriminate|]. simpl in H.
  inv_bind H. injection H as <-. exact Ha.
Qed.

Lemma dashboard_critical_items_any_project hs st pid pid' d d' :
  get_dashboard hs st pid = Ok d ->
  get_dashboard hs st pid' = Ok d' ->
  critical_items d = critical_items d'.
Proof.
  intros H H'. apply dashboard_critical_items in H, H'.
  rewrite H in H'. injection H' as ->. reflexivity.
Qed.

(** C7: on the code, the risks behind [critical_items] are the top 3 by
    cost of the whole store, not of the requested project: with a second
    project in the store, the dashboard of every project id lists that
    project's HIGH risk first, then the electrical one. *)
Theorem dashboard_lists_other_projects_risk :
  forall hs pid,
    (d <- get_dashboard hs Demo.two_project_store pid ;;
     Ok (critical_items d)) =
    Ok [mk_CriticalItem "Runway Lighting - Permit Delay"
          "$5.0M cost, 30 days delay" "Permit office backlog.";
        mk_CriticalItem "Electrical Package - Vendor Performance Decline"
          "$2.3M cost, 18 days delay"
          "ABC Electrical missed 3/5 recent milestones."].
Proof.
  intros hs pid. unfold get_dashboard, execute. simpl fault. cbv iota.
  simpl bind at 2.
  reflexivity.
Qed.

(** ** Executive brief *)

Lemma brief_clock_dependent :
  generate_executive_brief Demo.morning "project-1" <>
  generate_executive_brief Demo.afternoon "project-1".
Proof.
  intros H. apply (f_equal generated_at) in H. vm_compute in H. discriminate.
Qed.

(** C8 (as amended): the executive brief ignores [project_id]; every field
    but [generated_at] is a constant, and [generated_at] is the ISO text of
    the clock at the call, so two calls at the same instant agree. *)
Theorem brief_ignores_project_id :
  forall now now' pid pid',
    generate_executive_brief now pid = generate_executive_brief now pid' /\
    generated_at (generate_executive_brief now pid) = PyDate.isoformat now /\
    generation_time (generate_executive_brief now pid) =
      generation_time (generate_executive_brief now' pid') /\
    time_saved (generate_executive_brief now pid) =
      time_saved (generate_executive_brief now' pid') /\
    project_health (generate_executive_brief now pid) =
      project_health (generate_executive_brief now' pid') /\
    top_risks (generate_executive_brief now pid) =
      top_risks (generate_executive_brief now' pid') /\
    recommendations (generate_executive_brief now pid) =
      recommendations (generate_executive_brief now' pid') /\
    (budget_remaining (generate_executive_brief now pid),
     budget_at_risk (generate_executive_brief now pid),
     days_remaining (generate_executive_brief now pid),
     at_risk_days (generate_executive_brief now pid)) =
      (47200000, 2300000, 127, 18).
Proof.
  intros. repeat split.
Qed.

(** ** Unreachable store *)

Lemma small_scores_composite s :
  small_scores s ->
  exists k, composite (on_time s) (quality s) (cost s) (communication s) = Ok k.
Proof.
  intros (Ho & Hq & Hc & Hm).
  destruct (composite_total _ _ _ _ Ho Hq Hc Hm) as (x & k & _ & _ & _ & Hk).
  eauto.
Qed.

(** X1: when the store cannot be reached, every store-backed handler
    answers with status 500 and a detail made of its own prefix and the
    store's message, and a score update leaves the store as it was. *)
Theorem store_fault_gives_500 :
  forall hs now st msg pid a ms rid vid scores,
    fault st = Some msg ->
    small_scores scores ->
    get_dashboard hs st pid =
      Raise (HTTPException 500 ("Database error: " ++ msg)) /\
    analyze_scenario hs now st a =
      Raise (HTTPException 500 ("Analysis error: " ++ msg)) /\
    get_vendor_performance hs st =
      Raise (HTTPException 500 ("Vendor data error: " ++ msg)) /\
    get_risk_mitigations hs st ms rid =
      Raise (HTTPException 500 ("Mitigation data error: " ++ msg)) /\
    update_vendor_score hs st vid scores =
      (Raise (HTTPException 500 ("Update error: " ++ msg)), st).
Proof.
  intros hs now st msg pid a ms rid vid scores Hf Hs.
  repeat split.
  - unfold get_dashboard, execute. rewrite Hf. reflexivity.
  - apply analyze_scenario_store_fault. exact Hf.
  - unfold get_vendor_performance, execute. rewrite Hf. reflexivity.
  - unfold get_risk_mitigations, execute. rewrite Hf. reflexivity.
  - destruct (small_scores_composite scores Hs) as (k & Hk).
    unfold update_vendor_score, composite, execute in *. rewrite Hf.
    destruct (weighted_sum _ _ _ _) as [x|]; cbn [bind] in *; [|discriminate].
    rewrite Hk. reflexivity.
Qed.

Lemma store_fault_gives_500_witness :
  update_vendor_score Demo.http_str (with_fault "connection refused" Demo.store)
    "vendor-1" (mk_VendorScore "vendor-1" 60 80 65 70) =
  (Raise (HTTPException 500 "Update error: connection refused"),
   with_fault "connection refused" Demo.store).
Proof.
  refine (proj2 (proj2 (proj2 (proj2
    (store_fault_gives_500 Demo.http_str Demo.morning
       (with_fault "connection refused" Demo.store) "connection refused"
       "project-1" (mk_RiskAnalysis "wp-2" 4) [] "risk-1" "vendor-1"
       (mk_VendorScore "vendor-1" 60 80 65 70) eq_refl _))))).
  unfold small_scores, small. simpl. lia.
Defined.

(** ** Dashboard: reachable store *)

Lemma impact_text_total r : exists txt, impact_text r = Ok txt.
Proof. unfold impact_text, PyFloat.truediv_int. eexists. reflexivity. Qed.

Lemma collect_critical_total rs : exists items, collect_critical rs = Ok items.
Proof.
  induction rs as [|r rs [items IH]]; cbn [collect_critical]; [eauto|].
  destruct (String.eqb (risk_level r) "HIGH"); [|eauto].
  destruct (impact_text_total r) as [txt ->]. rewrite IH. cbn [bind]. eauto.
Qed.

Lemma insert_desc_In r x l : In x (insert_desc r l) <-> x = r \/ In x l.
Proof.
  induction l as [|y l IH]; simpl.
  - intuition congruence.
  - destruct (SFltb (impact_cost r) (impact_cost y)); simpl;
      rewrite ?IH; intuition congruence.
Qed.

Lemma order_by_cost_desc_In x l : In x (order_by_cost_desc l) <-> In x l.
Proof.
  induction l as [|r l IH]; simpl; [tauto|].
  rewrite insert_desc_In, IH. intuition congruence.
Qed.

Lemma insert_desc_length r l : List.length (insert_desc r l) = S (List.length l).
Proof.
  induction l as [|y l IH]; simpl; [reflexivity|].
  destruct (SFltb _ _); simpl; congruence.
Qed.

Lemma order_by_cost_desc_length l :
  List.length (order_by_cost_desc l) = List.length l.
Proof.
  induction l as [|r l IH]; simpl; [reflexivity|].
  rewrite insert_desc_length. congruence.
Qed.

Lemma filter_length_le {A} (p : A -> bool) l :
  (List.length (filter p l) <= List.length l)%nat.
Proof.
  induction l as [|x l IH]; simpl; [lia|]. destruct (p x); simpl; lia.
Qed.

(** X2: with the store reachable the dashboard never fails, whatever
    the project id: an unknown project gives [project = None] and no work
    packages rather than a Not-Found, every listed work package belongs to
    the requested project, and none of that project is left out. *)
Theorem dashboard_answers_any_project :
  forall hs st pid,
    fault st = None ->
    exists d,
      get_dashboard hs st pid = Ok d /\
      time_saved_today d = "4.5 hrs" /\
      (forall wp, In wp (map fst (d_work_packages d)) <->
                  In wp (work_packages st) /\ wp_project_id wp = pid) /\
      (forall p, d_project d = Some p -> In p (projects st) /\ project_id p = pid) /\
      ((forall p, In p (projects st) -> project_id p <> pid) ->
       d_project d = None) /\
      ((forall wp, In wp (work_packages st) -> wp_project_id wp <> pid) ->
       d_work_packages d = []).
Proof.
  intros hs st pid Hf.
  destruct (collect_critical_total (firstn 3 (order_by_cost_desc (risks st))))
    as [items Hitems].
  eexists. split.
  { unfold get_dashboard, execute. rewrite Hf. cbn [bind]. rewrite Hitems.
    reflexivity. }
  cbn [time_saved_today d_work_packages d_project].
  split; [reflexivity|]. split; [|split; [|split]].
  - intros wp. rewrite map_map. cbn [fst]. rewrite map_id, filter_In.
    rewrite String.eqb_eq. tauto.
  - intros p Hp.
    destruct (filter _ (projects st)) as [|p0 l] eqn:E; [discriminate|].
    injection Hp as ->.
    assert (Hin : In p (p :: l)) by (left; reflexivity).
    rewrite <- E in Hin. apply filter_In in Hin.
    rewrite String.eqb_eq in Hin. exact Hin.
  - intros Hnone. rewrite filter_none; [reflexivity|].
    intros p Hp. apply String.eqb_neq. auto.
  - intros Hnone. rewrite filter_none; [reflexivity|].
    intros wp Hwp. apply String.eqb_neq. auto.
Qed.

Lemma dashboard_answers_any_project_witness :
  exists d,
    get_dashboard Demo.http_str Demo.store "no-such-project" = Ok d /\
    d_project d = None /\ d_work_packages d = [].
Proof.
  destruct (dashboard_answers_any_project Demo.http_str Demo.store
              "no-such-project" eq_refl) as (d & Hd & _ & _ & _ & Hp & Hw).
  exists d. split; [exact Hd|]. split.
  - apply Hp. simpl. intros p [<-|[]]. discriminate.
  - apply Hw. simpl. intros wp [<-|[<-|[<-|[]]]]; discriminate.
Defined.

Lemma In_firstn {A} n (l : list A) x : In x (firstn n l) -> In x l.
Proof.
  revert l. induction n as [|n IH]; intros [|y l]; simpl; try tauto.
  intros [->|H]; [tauto|]. right. apply IH. exact H.
Qed.

Lemma Forall2_In_r {A B} (R : A -> B -> Prop) l1 l2 y :
  Forall2 R l1 l2 -> In y l2 -> exists x, In x l1 /\ R x y.
Proof.
  induction 1 as [|x y' l1 l2 HR _ IH]; simpl; [tauto|].
  intros [<-|Hin]; [eauto|]. destruct (IH Hin) as (x' & ? & ?). eauto.
Qed.

(** X3: the dashboard lists at most three critical items, and each one
    reshapes a HIGH risk row of the store: its title and reasoning copied,
    its impact text built from that row's cost and days. *)
Theorem dashboard_critical_items_are_high_risks :
  forall hs st pid d,
    get_dashboard hs st pid = Ok d ->
    (List.length (critical_items d) <= 3)%nat /\
    forall it, In it (critical_items d) ->
      exists r, In r (risks st) /\ risk_level r = "HIGH" /\
                ci_title it = title r /\ ci_reasoning it = reasoning r /\
                impact_text r = Ok (ci_impact it).
Proof.
  intros hs st pid d Hd. apply dashboard_critical_items in Hd.
  apply collect_critical_high in Hd.
  set (top := firstn 3 (order_by_cost_desc (risks st))) in *.
  split.
  - rewrite <- (Forall2_length Hd).
    etransitivity; [apply filter_length_le|]. unfold top.
    rewrite length_firstn. lia.
  - intros it Hit.
    destruct (Forall2_In_r _ _ _ _ Hd Hit) as (r & Hr & Ht & Htxt & Hre).
    apply filter_In in Hr. destruct Hr as [Hr Hhigh].
    exists r. repeat split; try assumption.
    + apply order_by_cost_desc_In. apply (In_firstn 3). exact Hr.
    + apply String.eqb_eq. exact Hhigh.
Qed.

Lemma dashboard_critical_items_are_high_risks_witness :
  exists d,
    get_dashboard Demo.http_str Demo.two_project_store "project-1" = Ok d /\
    (List.length (critical_items d) <= 3)%nat.
Proof.
  assert (H : exists d, get_dashboard Demo.http_str Demo.two_project_store
                          "project-1" = Ok d)
    by (eexists; vm_compute; reflexivity).
  destruct H as [d Hd]. exists d. split; [exact Hd|].
  exact (proj1 (dashboard_critical_items_are_high_risks _ _ _ _ Hd)).
Defined.


(** ** Scenario analysis: baseline, first row, out-of-range requests *)

(** Rounding a mantissa [M * 2^n] that is canonical at exponent [e + n]
    is exact (subnormal values included). *)
Lemma round_aux_exact_canonical s P M n e :
  0 < M -> 0 <= n -> P = M * 2 ^ n ->
  Z.max (Zdigits2 M + (e + n) - 53) (-1074) = e + n ->
  binary_round_aux 53 1024 s P e loc_Exact =
  if e + n <=? 971 then S754_finite s (Z.to_pos M) (e + n)
  else S754_infinity s.
Proof.
  intros HM Hn HP Hc.
  pose proof (pow2_pos n Hn) as H2n.
  assert (HPpos : 0 < P) by (subst P; lia).
  assert (HdP : Zdigits2 P = Zdigits2 M + n).
  { rewrite !Zdigits2_log2 by assumption. subst P.
    rewrite Z.log2_mul_pow2 by lia. lia. }
  assert (Hstage1 :
    shr_fexp 53 1024 P e loc_Exact = (Build_shr_record M false false, e + n)).
  { unfold shr_fexp, fexp, emin. rewrite HdP. simpl shr_record_of_loc.
    replace (Z.max (Zdigits2 M + n + e - 53) (3 - 1024 - 53) - e) with n by lia.
    unfold shr. destruct n as [|n|n]; try lia.
    - simpl in HP. f_equal; [f_equal; lia | lia].
    - rewrite iter_pos_eq, shr_iter_exact; try lia.
      + subst P. rewrite Z.div_mul by lia. reflexivity.
      + exists M. exact HP. }
  assert (Hstage2 :
    shr_fexp 53 1024 M (e + n) loc_Exact =
      (Build_shr_record M false false, e + n)).
  { unfold shr_fexp, fexp, emin. simpl shr_record_of_loc.
    replace (Z.max (Zdigits2 M + (e + n) - 53) (3 - 1024 - 53) - (e + n))
      with 0 by lia.
    reflexivity. }
  unfold binary_round_aux. rewrite Hstage1. simpl loc_of_shr_record.
  simpl round_nearest_even. simpl shr_m at 1. rewrite Hstage2. simpl shr_m.
  destruct M as [|m|m]; try lia.
  reflexivity.
Qed.

(** Multiplying a well-formed float by 1.0 gives it back. *)
Lemma mul_one x :
  valid_binary 53 1024 x = true -> PyFloat.mul x one = x.
Proof.
  destruct x as [s|s| |s m e]; intros Hv.
  - destruct s; reflexivity.
  - destruct s; reflexivity.
  - reflexivity.
  - unfold valid_binary, bounded, canonical_mantissa, fexp, emin in Hv.
    apply andb_true_iff in Hv. destruct Hv as [Hc He].
    apply Z.eqb_eq in Hc. apply Z.leb_le in He.
    unfold PyFloat.mul, SFmul, one, PyFloat.prec, PyFloat.emax.
    rewrite (round_aux_exact_canonical _ _ (Z.pos m) 52 (e + -52)); try lia.
    + replace (e + -52 + 52) with e by lia.
      replace (e <=? 971) with true by (symmetry; apply Z.leb_le; lia).
      destruct s; reflexivity.
    + replace (e + -52 + 52) with e by lia.
      change (Zdigits2 (Z.pos m)) with (Z.pos (digits2_pos m)). lia.
Qed.

(** X4: at the base scenario ([delay_weeks = 2]) the analysis gives the
    base risk back: [budget_impact] is the stored cost itself,
    [schedule_impact] the stored [impact_days], the level MEDIUM, and the
    completion date today plus 127 plus [impact_days] days. *)
Theorem base_scenario_reproduces_risk :
  forall hs now st a base rest,
    fault st = None ->
    risks_of st a = base :: rest ->
    delay_weeks a = 2 ->
    valid_binary 53 1024 (impact_cost base) = true ->
    - 2 ^ 26 < impact_days base < 2 ^ 26 ->
    PyDate.valid now ->
    PyDate.ordinal now + 127 <= PyDate.MAXORDINAL ->
    1 <= PyDate.ordinal now + 127 + impact_days base ->
    PyDate.ordinal now + 128 + impact_days base <= PyDate.MAXORDINAL ->
    analyze_scenario hs now st a =
      Ok (mk_ScenarioResult (impact_cost base) (impact_days base)
            (PyDate.strftime_b_d_Y
               (PyDate.mk_datetime
                  (PyDate.ordinal now + 127 + impact_days base)
                  (PyDate.usec_of_day now)))
            "MEDIUM").
Proof.
  intros hs now st a base rest Hf Hrows Hw Hv Hd Hnow Hbase Hlo Hhi.
  assert (Hhalf : impact_days base * delay_weeks a / 2 = impact_days base).
  { rewrite Hw. apply Z.div_mul. lia. }
  destruct (analyze_scenario_exact hs now st a base rest Hf Hrows Hd
              ltac:(rewrite Hw; lia) Hnow Hbase
              ltac:(rewrite Hhalf; exact Hlo) ltac:(rewrite Hhalf; exact Hhi))
    as (m & Hm & _ & ->).
  rewrite Hw in *. vm_compute in Hm. injection Hm as <-.
  fold one. rewrite (mul_one _ Hv).
  rewrite Z.quot_mul by lia.
  replace (254 + impact_days base * 2) with (2 * (127 + impact_days base))
    by ring.
  rewrite after_even_half_days by assumption.
  rewrite Z.add_assoc. reflexivity.
Qed.

Lemma demo_valid_morning : PyDate.valid Demo.morning.
Proof.
  unfold PyDate.valid. simpl. unfold PyDate.MAXORDINAL, PyDate.us_per_day. lia.
Qed.

Lemma base_scenario_reproduces_risk_witness :
  analyze_scenario Demo.http_str Demo.morning Demo.store
    (mk_RiskAnalysis "wp-2" 2) =
  Ok (mk_ScenarioResult Demo.cost_2300000 18 "Mar 27, 2025" "MEDIUM").
Proof.
  rewrite (base_scenario_reproduces_risk Demo.http_str Demo.morning Demo.store
             (mk_RiskAnalysis "wp-2" 2) Demo.electrical_risk []).
  all: try reflexivity.
  all: try exact demo_valid_morning.
  all: simpl; unfold PyDate.MAXORDINAL; lia.
Defined.


(** X5: when a work package has several risk rows, only the first row
    the store returns is used: two stores that agree on that first row give
    the same analysis, whatever rows follow it. *)
Theorem analyze_scenario_uses_first_row_only :
  forall hs now st st' a base rest rest',
    fault st = None -> fault st' = None ->
    risks_of st a = base :: rest ->
    risks_of st' a = base :: rest' ->
    analyze_scenario hs now st a = analyze_scenario hs now st' a.
Proof.
  intros hs now st st' a base rest rest' Hf Hf' Hr Hr'.
  unfold analyze_scenario, execute. rewrite Hf, Hf'. cbn [bind].
  fold (risks_of st a) (risks_of st' a). rewrite Hr, Hr'. reflexivity.
Qed.

Lemma analyze_scenario_uses_first_row_only_witness :
  analyze_scenario Demo.http_str Demo.morning Demo.store
    (mk_RiskAnalysis "wp-2" 4) =
  analyze_scenario Demo.http_str Demo.morning
    (mk_Store [] [] [Demo.electrical_risk;
                     mk_Risk "risk-7" "wp-2" "Cable shortage"
                       Demo.cost_450000 40 "LOW" "Supplier notice."]
       [] [] None)
    (mk_RiskAnalysis "wp-2" 4).
Proof.
  apply (analyze_scenario_uses_first_row_only Demo.http_str Demo.morning
           Demo.store _ (mk_RiskAnalysis "wp-2" 4) Demo.electrical_risk
           [] [mk_Risk "risk-7" "wp-2" "Cable shortage"
                 Demo.cost_450000 40 "LOW" "Supplier notice."]);
    reflexivity.
Defined.

Lemma add_out_of_range dt td :
  3652059 <
    (PyDate.ordinal dt * 86400000000 + PyDate.usec_of_day dt + td) / 86400000000 ->
  PyDate.add dt td = Raise (PyError "date value out of range").
Proof.
  intros H. unfold PyDate.add, PyDate.us_per_day, PyDate.MAXORDINAL.
  match goal with |- (if ?a && ?b then _ else _) = _ =>
    replace b with false by (symmetry; apply Z.leb_gt; lia) end.
  rewrite andb_false_r. reflexivity.
Qed.

(** X6: when the shift [impact_days * delay_weeks / 2] is a number of
    days a [timedelta] accepts (between 0 and 999999999, both factors
    below [2^26] in magnitude) and today plus 127 days plus that shift
    falls after 9999-12-31, the request is answered with status 500,
    "Analysis error: date value out of range". *)
Theorem analyze_scenario_date_out_of_range :
  forall hs now st a base rest,
    fault st = None ->
    risks_of st a = base :: rest ->
    - 2 ^ 26 < impact_days base < 2 ^ 26 ->
    - 2 ^ 26 < delay_weeks a < 2 ^ 26 ->
    PyDate.valid now ->
    0 <= impact_days base * delay_weeks a / 2 <= 999999999 ->
    PyDate.MAXORDINAL <
      PyDate.ordinal now + 127 + impact_days base * delay_weeks a / 2 ->
    analyze_scenario hs now st a =
      Raise (HTTPException 500 "Analysis error: date value out of range").
Proof.
  intros hs now st a base rest Hf Hrows Hd Hw Hnow Hn Hover.
  destruct (int_truediv_2_half (delay_weeks a) ltac:(lia)) as (m & Hm & Hhalf).
  destruct (int_mul_half _ _ m Hd Hw Hhalf) as (x & Hx & Hxh).
  assert (Hn53 : - 2 ^ 53 < impact_days base * delay_weeks a < 2 ^ 53) by nia.
  unfold analyze_scenario, execute. rewrite Hf. cbn [bind].
  fold (risks_of st a). rewrite Hrows, Hm. cbn [bind]. rewrite Hx. cbn [bind].
  change (PyDate.timedelta_of_int_days 127) with (Ok 10972800000000).
  cbn [bind].
  set (n := impact_days base * delay_weeks a) in *.
  unfold PyDate.valid, PyDate.MAXORDINAL, PyDate.us_per_day in *.
  destruct Hnow as [Hord Hus].
  set (o := PyDate.ordinal now) in *. set (u := PyDate.usec_of_day now) in *.
  assert (E1 : (o * 86400000000 + u + 10972800000000) / 86400000000 = o + 127).
  { replace (o * 86400000000 + u + 10972800000000)
      with (u + (o + 127) * 86400000000) by ring.
    rewrite Z.div_add, Z.div_small by lia. lia. }
  assert (M1 : (o * 86400000000 + u + 10972800000000) mod 86400000000 = u).
  { replace (o * 86400000000 + u + 10972800000000)
      with (u + (o + 127) * 86400000000) by ring.
    rewrite Z.mod_add, Z.mod_small by lia. reflexivity. }
  destruct (Z_le_gt_dec (o + 127) 3652059) as [Hb|Hb].
  - rewrite (add_ok now _ (o + 127)) by (fold o u; lia). fold o u.
    rewrite M1. cbn [bind].
    rewrite (timedelta_half x n Hn53 Hxh), check_delta_ok.
    2:{ change 86400000000 with (2 * 43200000000). rewrite half_div by lia. lia. }
    cbn [bind]. rewrite add_out_of_range; [reflexivity|].
    cbn [PyDate.ordinal PyDate.usec_of_day].
    pose proof (carry_bounds u n 43200000000 ltac:(lia) ltac:(lia)) as Hc.
    change (2 * 43200000000) with 86400000000 in Hc.
    replace ((o + 127) * 86400000000 + u + n * 43200000000)
      with (u + n * 43200000000 + (o + 127) * 86400000000) by ring.
    rewrite Z.div_add by lia. lia.
  - rewrite add_out_of_range; [reflexivity|]. fold o u. lia.
Qed.

Lemma analyze_scenario_date_out_of_range_witness :
  analyze_scenario Demo.http_str Demo.morning Demo.store
    (mk_RiskAnalysis "wp-2" 1000000) =
  Raise (HTTPException 500 "Analysis error: date value out of range").
Proof.
  apply (analyze_scenario_date_out_of_range Demo.http_str Demo.morning
           Demo.store (mk_RiskAnalysis "wp-2" 1000000) Demo.electrical_risk []).
  all: try reflexivity.
  all: try exact demo_valid_morning.
  all: repeat split; vm_compute; solve [reflexivity | discriminate].
Defined.

(** Conversions that overflow binary64. *)
Lemma binary_round_overflow s p e :
  -1074 <= e -> 53 <= Z.log2 (Z.pos p) -> 1024 <= Z.log2 (Z.pos p) + e ->
  binary_round 53 1024 s p e = S754_infinity s.
Proof.
  intros He H53 Hbig. pose proof (digits_log2 p) as Hd.
  unfold binary_round, shl_align, fexp, emin.
  change (Z.pos (digits2_pos p)) with (digits p).
  replace (Z.max (digits p + e - 53) (3 - 1024 - 53) - e)
    with (digits p - 53) by lia.
  destruct (digits p - 53) as [|d|d] eqn:Hdd; try lia.
  rewrite round_aux_normal by lia.
  pose proof (round53_spec (Z.pos p) ltac:(lia)) as Hs.
  destruct (round53 (Z.pos p)) as [m' n]. destruct Hs as [_ Hn].
  replace (e + n <=? 971) with false by (symmetry; apply Z.leb_gt; lia).
  reflexivity.
Qed.

Lemma int_truediv_2_overflow n :
  2 ^ 1025 <= Z.abs n ->
  PyFloat.int_truediv_2 n =
    Raise (PyError "integer division result too large for a float").
Proof.
  intros Hn. unfold PyFloat.int_truediv_2, binary_normalize,
    PyFloat.prec, PyFloat.emax.
  assert (H0 : 0 < 2 ^ 1025) by (apply pow2_pos; lia).
  destruct n as [|p|p]; simpl Z.abs in Hn; try lia;
    (rewrite binary_round_overflow; [reflexivity | lia | |]);
    pose proof (proj1 (Z.log2_le_pow2 (Z.pos p) 1025 eq_refl) Hn); lia.
Qed.

Lemma of_int_overflow n :
  2 ^ 1024 <= Z.abs n ->
  PyFloat.of_int n = Raise (PyError "int too large to convert to float").
Proof.
  intros Hn. unfold PyFloat.of_int, binary_normalize,
    PyFloat.prec, PyFloat.emax.
  assert (H0 : 0 < 2 ^ 1024) by (apply pow2_pos; lia).
  destruct n as [|p|p]; simpl Z.abs in Hn; try lia;
    (rewrite binary_round_overflow; [reflexivity | lia | |]);
    pose proof (proj1 (Z.log2_le_pow2 (Z.pos p) 1024 eq_refl) Hn); lia.
Qed.

(** X7: [delay_weeks] is an unbounded integer: from [2^1025] on (in
    magnitude) its half no longer fits a float, and the request is answered
    with status 500, "Analysis error: integer division result too large
    for a float", whatever the base risk. *)
Theorem analyze_scenario_delay_too_large :
  forall hs now st a base rest,
    fault st = None ->
    risks_of st a = base :: rest ->
    2 ^ 1025 <= Z.abs (delay_weeks a) ->
    analyze_scenario hs now st a =
      Raise (HTTPException 500
        "Analysis error: integer division result too large for a float").
Proof.
  intros hs now st a base rest Hf Hrows Hw.
  unfold analyze_scenario, execute. rewrite Hf. cbn [bind].
  fold (risks_of st a). rewrite Hrows.
  rewrite (int_truediv_2_overflow _ Hw). reflexivity.
Qed.

Lemma analyze_scenario_delay_too_large_witness :
  analyze_scenario Demo.http_str Demo.morning Demo.store
    (mk_RiskAnalysis "wp-2" (- 2 ^ 1025)) =
  Raise (HTTPException 500
    "Analysis error: integer division result too large for a float").
Proof.
  apply (analyze_scenario_delay_too_large Demo.http_str Demo.morning
           Demo.store (mk_RiskAnalysis "wp-2" (- 2 ^ 1025))
           Demo.electrical_risk []).
  - reflexivity.
  - reflexivity.
  - intros H. vm_compute in H. discriminate.
Defined.


(** ** Vendor listing: shape, alerts, overflow *)

Lemma small_vendor_composite v :
  small_vendor v ->
  exists k, composite (on_time_delivery v) (quality_score v)
              (cost_performance v) (communication_score v) = Ok k.
Proof.
  intros (Ho & Hq & Hc & Hm).
  destruct (composite_total _ _ _ _ Ho Hq Hc Hm) as (x & k & _ & _ & _ & Hk).
  eauto.
Qed.

Lemma vendor_entry_fields st v e :
  vendor_entry st v = Ok e ->
  ve_id e = vendor_id v /\ ve_name e = vendor_name v /\
  ve_trend e = trend v /\
  detailed_scores e =
    mk_DetailedScores (on_time_delivery v) (quality_score v)
      (cost_performance v) (communication_score v) /\
  composite (on_time_delivery v) (quality_score v)
    (cost_performance v) (communication_score v) = Ok (score e) /\
  alerts e =
    map message
      (filter is_active
         (filter (fun a => String.eqb (alert_vendor_id a) (vendor_id v))
            (vendor_alerts st))).
Proof.
  unfold vendor_entry, composite.
  cbn [ds_on_time ds_quality ds_cost ds_communication].
  destruct (weighted_sum _ _ _ _) as [x|]; cbn [bind]; [|discriminate].
  destruct (PyFloat.to_int x) as [k|]; cbn [bind]; [|discriminate].
  intros H. injection H as <-. repeat split.
Qed.

Lemma vendor_entry_small st v :
  small_vendor v -> exists e, vendor_entry st v = Ok e.
Proof.
  intros Hv. destruct (small_vendor_composite v Hv) as (k & Hk).
  unfold vendor_entry, composite in *.
  cbn [ds_on_time ds_quality ds_cost ds_communication].
  destruct (weighted_sum _ _ _ _) as [x|]; cbn [bind] in *; [|discriminate].
  rewrite Hk. cbn [bind]. eauto.
Qed.

Lemma vendor_entries_Forall2 st vs es :
  vendor_entries st vs = Ok es ->
  Forall2 (fun v e => vendor_entry st v = Ok e) vs es.
Proof.
  revert es. induction vs as [|v vs IH]; intros es H; cbn [vendor_entries] in H.
  - injection H as <-. constructor.
  - inv_bind H. inv_bind H. injection H as <-. constructor; auto.
Qed.

Lemma vendor_entries_small st vs :
  Forall small_vendor vs -> exists es, vendor_entries st vs = Ok es.
Proof.
  induction 1 as [|v vs Hv _ [es IH]]; cbn [vendor_entries]; [eauto|].
  destruct (vendor_entry_small st v Hv) as [e ->]. rewrite IH.
  cbn [bind]. eauto.
Qed.

(** X8: with the store reachable and every stored sub-score below
    [2^53] in magnitude, the listing succeeds and has exactly one entry per
    vendor row, in the store's order, carrying that row's id, name, trend
    and four sub-scores, and the composite recomputed from them. *)
Theorem listing_has_one_entry_per_vendor :
  forall hs st,
    fault st = None ->
    Forall small_vendor (vendors st) ->
    exists entries,
      get_vendor_performance hs st = Ok entries /\
      Forall2
        (fun v e =>
           ve_id e = vendor_id v /\ ve_name e = vendor_name v /\
           ve_trend e = trend v /\
           detailed_scores e =
             mk_DetailedScores (on_time_delivery v) (quality_score v)
               (cost_performance v) (communication_score v) /\
           composite (on_time_delivery v) (quality_score v)
             (cost_performance v) (communication_score v) = Ok (score e))
        (vendors st) entries.
Proof.
  intros hs st Hf Hsmall.
  destruct (vendor_entries_small st (vendors st) Hsmall) as [es Hes].
  exists es. split.
  - unfold get_vendor_performance, execute. rewrite Hf. cbn [bind].
    rewrite Hes. reflexivity.
  - apply vendor_entries_Forall2 in Hes.
    eapply Forall2_impl; [|exact Hes].
    intros v e He. apply vendor_entry_fields in He. tauto.
Qed.

Lemma demo_vendors_small : Forall small_vendor (vendors Demo.store).
Proof.
  repeat constructor; unfold small; simpl; lia.
Qed.

Lemma listing_has_one_entry_per_vendor_witness :
  exists entries,
    get_vendor_performance Demo.http_str Demo.store = Ok entries /\
    map ve_id entries = ["vendor-1"; "vendor-2"] /\
    map score entries = [67; 88].
Proof.
  destruct (listing_has_one_entry_per_vendor Demo.http_str Demo.store
              eq_refl demo_vendors_small) as (es & Hes & _).
  exists es. split; [exact Hes|].
  vm_compute in Hes. injection Hes as <-. split; reflexivity.
Defined.

Lemma get_vendor_performance_ok hs st entries :
  get_vendor_performance hs st = Ok entries ->
  Forall2 (fun v e => vendor_entry st v = Ok e) (vendors st) entries.
Proof.
  unfold get_vendor_performance, execute. intros H.
  apply try_except_ok in H. destruct (fault st); [discriminate|].
  cbn [bind] in H. apply vendor_entries_Forall2. exact H.
Qed.

(** C9: the [score] the listing returns for each vendor is recomputed
    from the four stored sub-scores and does not depend on the stored
    [performance_score]. Overwriting every stored [performance_score]
    leaves the answer of the listing unchanged, in every store state;
    whenever the listing answers, its entries are the vendor rows in
    order, each with the truncated weighted sum of that row's sub-scores
    as its score; and it does answer when the store is reachable and the
    sub-scores are below [2^53] in magnitude. *)
Theorem listing_ignores_stored_composite :
  forall hs st (f : Vendor -> Z),
    get_vendor_performance hs (with_performances f st) =
      get_vendor_performance hs st /\
    (forall entries,
       get_vendor_performance hs st = Ok entries ->
       Forall2
         (fun v e =>
            ve_id e = vendor_id v /\
            composite (on_time_delivery v) (quality_score v)
              (cost_performance v) (communication_score v) = Ok (score e))
         (vendors st) entries) /\
    (fault st = None -> Forall small_vendor (vendors st) ->
     exists entries, get_vendor_performance hs st = Ok entries).
Proof.
  intros hs st f. split; [apply listing_with_performances|]. split.
  - intros entries H. apply get_vendor_performance_ok in H.
    eapply Forall2_impl; [|exact H].
    intros v e He. apply vendor_entry_fields in He. tauto.
  - intros Hf Hsmall.
    destruct (vendor_entries_small st (vendors st) Hsmall) as [es Hes].
    exists es. unfold get_vendor_performance, execute. rewrite Hf.
    cbn [bind]. rewrite Hes. reflexivity.
Qed.

(** The demo store holds 89 as Steelworks Pro's [performance_score]; with
    every stored value overwritten by 0 the listing still answers 67 and
    88. *)
Lemma listing_ignores_stored_composite_witness :
  exists entries,
    get_vendor_performance Demo.http_str
      (with_performances (fun _ => 0) Demo.store) = Ok entries /\
    get_vendor_performance Demo.http_str Demo.store = Ok entries /\
    map score entries = [67; 88] /\
    map performance_score (vendors Demo.store) = [67; 89].
Proof.
  destruct (listing_ignores_stored_composite Demo.http_str Demo.store
              (fun _ => 0)) as (Hind & Hrows & Hok).
  destruct (Hok eq_refl demo_vendors_small) as [es Hes].
  exists es. rewrite Hind. split; [exact Hes|]. split; [exact Hes|].
  split; [|reflexivity].
  vm_compute in Hes. injection Hes as <-. reflexivity.
Defined.

(** X9: an alert message is listed under a vendor exactly when the
    store holds an active alert row of that vendor with that message:
    inactive alerts and other vendors' alerts never appear. *)
Theorem listing_shows_active_alerts_only :
  forall hs st entries e msg,
    get_vendor_performance hs st = Ok entries ->
    In e entries ->
    (In msg (alerts e) <->
     exists a, In a (vendor_alerts st) /\ alert_vendor_id a = ve_id e /\
               is_active a = true /\ message a = msg).
Proof.
  intros hs st entries e msg H He.
  apply get_vendor_performance_ok in H.
  destruct (Forall2_In_r _ _ _ _ H He) as (v & _ & Hv).
  apply vendor_entry_fields in Hv.
  destruct Hv as (Hid & _ & _ & _ & _ & Hal). rewrite Hal, Hid.
  rewrite in_map_iff. split.
  - intros (a & Hm & Ha). apply filter_In in Ha. destruct Ha as [Ha Hact].
    apply filter_In in Ha. destruct Ha as [Ha Hvid].
    apply String.eqb_eq in Hvid. exists a. tauto.
  - intros (a & Ha & Hvid & Hact & Hm). exists a. split; [exact Hm|].
    apply filter_In. split; [|exact Hact].
    apply filter_In. split; [exact Ha|]. apply String.eqb_eq. exact Hvid.
Qed.

Lemma listing_shows_active_alerts_only_witness :
  exists e,
    In e [e] /\ ve_id e = "vendor-1" /\
    ~ In "Insurance certificate expired" (alerts e).
Proof.
  pose (st := mk_Store [] [] [] [Demo.abc_electrical]
                [mk_VendorAlert "vendor-1" "Insurance certificate expired" false;
                 mk_VendorAlert "vendor-2" "Late invoice" true] None).
  assert (Hl : exists e, get_vendor_performance Demo.http_str st = Ok [e] /\
                         ve_id e = "vendor-1").
  { eexists. split; vm_compute; reflexivity. }
  destruct Hl as (e & Hl & Hid). exists e.
  split; [left; reflexivity|]. split; [exact Hid|].
  intros Hin.
  apply (listing_shows_active_alerts_only Demo.http_str st [e] e _ Hl
           (or_introl eq_refl)) in Hin.
  destruct Hin as (a & [<-|[<-|[]]] & Hv & Hact & Hm).
  - discriminate Hact.
  - discriminate Hm.
Defined.

Lemma weighted_sum_overflow o q c m :
  2 ^ 1024 <= Z.abs o ->
  weighted_sum o q c m = Raise (PyError "int too large to convert to float").
Proof.
  intros Ho. unfold weighted_sum, PyFloat.int_mul.
  rewrite (of_int_overflow o Ho). reflexivity.
Qed.

(** X10: the listing is all or nothing: one vendor row whose
    [on_time_delivery] is too large for a float ([2^1024] or more in
    magnitude) turns the whole answer into status 500, "Vendor data error:
    int too large to convert to float", even when the rows before it are
    fine. *)
Theorem listing_fails_on_one_overflowing_row :
  forall hs st good v rest,
    fault st = None ->
    vendors st = (good ++ v :: rest)%list ->
    Forall small_vendor good ->
    2 ^ 1024 <= Z.abs (on_time_delivery v) ->
    get_vendor_performance hs st =
      Raise (HTTPException 500
        "Vendor data error: int too large to convert to float").
Proof.
  intros hs st good v rest Hf Hvs Hgood Hbig.
  unfold get_vendor_performance, execute. rewrite Hf. cbn [bind].
  rewrite Hvs. clear Hvs.
  assert (Hv : vendor_entries st (good ++ v :: rest) =
               Raise (PyError "int too large to convert to float")).
  { induction Hgood as [|g good Hg _ IH]; cbn [vendor_entries app].
    - unfold vendor_entry.
      cbn [ds_on_time ds_quality ds_cost ds_communication].
      rewrite (weighted_sum_overflow _ _ _ _ Hbig). reflexivity.
    - destruct (vendor_entry_small st g Hg) as [e ->]. cbn [bind].
      rewrite IH. reflexivity. }
  rewrite Hv. reflexivity.
Qed.

Lemma listing_fails_on_one_overflowing_row_witness :
  get_vendor_performance Demo.http_str
    (mk_Store [] [] []
       [Demo.abc_electrical;
        mk_Vendor "vendor-8" "Overflow Ltd" 0 (2 ^ 1024) 0 0 0 "up"]
       [] None) =
  Raise (HTTPException 500
    "Vendor data error: int too large to convert to float").
Proof.
  apply (listing_fails_on_one_overflowing_row Demo.http_str _
           [Demo.abc_electrical]
           (mk_Vendor "vendor-8" "Overflow Ltd" 0 (2 ^ 1024) 0 0 0 "up") []).
  - reflexivity.
  - reflexivity.
  - repeat constructor; unfold small; simpl; lia.
  - intros H. vm_compute in H. discriminate.
Defined.


(** ** Composite of non-negative sub-scores *)

Lemma round_aux_sign s P e l :
  match binary_round_aux 53 1024 s P e l with
  | S754_zero s' | S754_finite s' _ _ | S754_infinity s' => s' = s
  | S754_nan => True
  end.
Proof.
  unfold binary_round_aux.
  destruct (shr_fexp 53 1024 P e l) as [mrs' e'].
  destruct (shr_fexp 53 1024 _ e' loc_Exact) as [mrs'' e''].
  destruct (shr_m mrs''); [reflexivity| |exact I].
  destruct (e'' <=? 1024 - 53); reflexivity.
Qed.

Lemma mul_nonneg x mw ew :
  nonneg_float x ->
  PyFloat.is_finite (PyFloat.mul x (S754_finite false mw ew)) = true ->
  nonneg_float (PyFloat.mul x (S754_finite false mw ew)).
Proof.
  destruct x as [[]|s| |[] m e]; cbn [nonneg_float]; try contradiction;
    intros _ Hfin.
  - exact I.
  - unfold PyFloat.mul, SFmul, PyFloat.prec, PyFloat.emax in *.
    cbn [xorb] in *.
    pose proof (round_aux_sign false (Z.pos (m * mw)) (e + ew) loc_Exact) as Hs.
    destruct (binary_round_aux 53 1024 false (Z.pos (m * mw)) (e + ew) loc_Exact)
      as [s'|s'| |s' m' e']; cbn in Hfin |- *; try discriminate;
      subst s'; exact I.
Qed.

Lemma add_nonneg x y :
  nonneg_float x -> nonneg_float y ->
  PyFloat.is_finite (PyFloat.add x y) = true ->
  nonneg_float (PyFloat.add x y).
Proof.
  destruct x as [[]|sx| |[] mx ex]; cbn [nonneg_float]; try contradiction;
    destruct y as [[]|sy| |[] my ey]; cbn [nonneg_float]; try contradiction;
    intros _ _ Hfin; try exact I.
  unfold PyFloat.add, SFadd, PyFloat.prec, PyFloat.emax in *.
  cbn [cond_Zopp] in *.
  set (ez := Z.min ex ey) in *.
  change (Z.pos (fst (shl_align mx ex ez)) + Z.pos (fst (shl_align my ey ez)))
    with (Z.pos (fst (shl_align mx ex ez) + fst (shl_align my ey ez))) in *.
  unfold binary_normalize, binary_round in *.
  destruct (shl_align _ ez _) as [mz ez'].
  pose proof (round_aux_sign false (Z.pos mz) ez' loc_Exact) as Hs.
  destruct (binary_round_aux 53 1024 false (Z.pos mz) ez' loc_Exact)
    as [s'|s'| |s' m' e']; cbn in Hfin |- *; try discriminate;
    subst s'; exact I.
Qed.

Lemma of_int_nonneg n :
  0 <= n < 2 ^ 53 ->
  exists x, PyFloat.of_int n = Ok x /\ in_class (-52) 0 x /\ nonneg_float x.
Proof.
  intros Hn. destruct n as [|a|a]; try lia.
  - eexists. split; [reflexivity|]. split; exact I.
  - eexists. split; [apply of_int_canon; lia|].
    split; [apply (canon_class false a 0); lia | exact I].
Qed.

Lemma int_mul_nonneg n mw ew :
  0 <= n < 2 ^ 53 -> Z.log2 (Z.pos mw) = 52 -> -56 <= ew <= -54 ->
  exists x, PyFloat.int_mul n (S754_finite false mw ew) = Ok x /\
            in_class (-56) 0 x /\ nonneg_float x.
Proof.
  intros Hn Hw He. destruct (of_int_nonneg n Hn) as (f & Hf & Hc & Hs).
  unfold PyFloat.int_mul. rewrite Hf. cbn [bind].
  eexists. split; [reflexivity|].
  assert (Hcl : in_class (-56) 0 (PyFloat.mul f (S754_finite false mw ew))).
  { apply (in_class_weaken (-52 + ew + 52) (0 + ew + 54)); try lia.
    apply mul_class; try assumption; lia. }
  split; [exact Hcl|].
  apply mul_nonneg; [exact Hs|]. exact (in_class_finite _ _ _ Hcl).
Qed.

Lemma to_int_nonneg x k :
  nonneg_float x -> PyFloat.to_int x = Ok k -> 0 <= k.
Proof.
  destruct x as [[]|s| |[] m e]; cbn [nonneg_float]; try contradiction;
    intros _ H; cbn [PyFloat.to_int PyFloat.signed] in H; injection H as <-.
  - lia.
  - destruct (0 <=? e) eqn:He; cbv iota.
    + apply Z.leb_le in He. pose proof (pow2_pos e He).
      change (0 <= Z.pos m * 2 ^ e). apply Z.mul_nonneg_nonneg; lia.
    + apply Z.leb_gt in He. pose proof (pow2_pos (- e) ltac:(lia)).
      apply Z.quot_pos; lia.
Qed.

(** X11: for non-negative sub-scores (below [2^53]) the composite both
    vendor handlers report is never negative, and it is the floor of the
    binary64 weighted sum: on this range truncation and floor agree. *)
Theorem composite_of_nonnegative_scores :
  forall o q c m,
    0 <= o < 2 ^ 53 -> 0 <= q < 2 ^ 53 ->
    0 <= c < 2 ^ 53 -> 0 <= m < 2 ^ 53 ->
    exists x k,
      weighted_sum o q c m = Ok x /\
      composite o q c m = Ok k /\
      0 <= k /\ k = PyFloat.floor x.
Proof.
  intros o q c m Ho Hq Hc Hm.
  unfold composite, weighted_sum,
    PyFloat.lit_0_35, PyFloat.lit_0_25, PyFloat.lit_0_15.
  destruct (int_mul_nonneg o 6305039478318694 (-54) Ho eq_refl ltac:(lia))
    as (a & -> & Ha & Sa).
  destruct (int_mul_nonneg q 4503599627370496 (-54) Hq eq_refl ltac:(lia))
    as (b & -> & Hb & Sb).
  destruct (int_mul_nonneg c 4503599627370496 (-54) Hc eq_refl ltac:(lia))
    as (c' & -> & Hc' & Sc).
  destruct (int_mul_nonneg m 5404319552844595 (-55) Hm eq_refl ltac:(lia))
    as (d & -> & Hd & Sd).
  cbn [bind].
  pose proof (add_class (-56) 0 a b Ha Hb ltac:(lia) ltac:(lia)) as H1.
  pose proof (add_nonneg a b Sa Sb (in_class_finite _ _ _ H1)) as S1.
  pose proof (add_class (-108) 2 _ c' H1
                (in_class_weaken (-56) 0 (-108) 2 c' ltac:(lia) ltac:(lia) Hc')
                ltac:(lia) ltac:(lia)) as H2.
  pose proof (add_nonneg _ c' S1 Sc (in_class_finite _ _ _ H2)) as S2.
  pose proof (add_class (-160) 4 _ d H2
                (in_class_weaken (-56) 0 (-160) 4 d ltac:(lia) ltac:(lia) Hd)
                ltac:(lia) ltac:(lia)) as H3.
  pose proof (add_nonneg _ d S2 Sd (in_class_finite _ _ _ H3)) as S3.
  set (x := PyFloat.add (PyFloat.add (PyFloat.add a b) c') d) in *.
  destruct (to_int_finite x (in_class_finite _ _ _ H3)) as (k & Hk).
  exists x, k. split; [reflexivity|]. split; [exact Hk|].
  split; [exact (to_int_nonneg x k S3 Hk)|].
  rewrite (to_int_trunc x k Hk).
  destruct x as [[]|s| |[] mx ex]; cbn [nonneg_float] in S3;
    try contradiction; reflexivity.
Qed.

Lemma composite_of_nonnegative_scores_witness :
  exists x, weighted_sum 95 88 85 90 = Ok x /\
            composite 95 88 85 90 = Ok (PyFloat.floor x) /\
            PyFloat.floor x = 90.
Proof.
  destruct (composite_of_nonnegative_scores 95 88 85 90)
    as (x & k & Hx & Hk & _ & Hfl); try lia.
  exists x. split; [exact Hx|]. rewrite <- Hfl. split; [exact Hk|].
  vm_compute in Hk. injection Hk as <-. reflexivity.
Defined.


(** ** Vendor score update: effect on the store *)

Lemma apply_scores_twice vid scores k v :
  apply_scores vid scores k (apply_scores vid scores k v) =
  apply_scores vid scores k v.
Proof.
  unfold apply_scores.
  destruct (String.eqb (vendor_id v) vid) eqn:E; cbn [vendor_id]; rewrite E;
    reflexivity.
Qed.

Lemma update_vendor_score_error hs st vid scores e :
  composite (on_time scores) (quality scores) (cost scores)
    (communication scores) = Raise e ->
  update_vendor_score hs st vid scores =
    (Raise (HTTPException 500 ("Update error: " ++ exn_str hs e)), st).
Proof.
  intros Hc. unfold update_vendor_score, composite in *.
  destruct (weighted_sum _ _ _ _) as [x|e']; cbn [bind] in *.
  - rewrite Hc. reflexivity.
  - injection Hc as ->. reflexivity.
Qed.

Lemma update_vendor_score_fault hs st vid scores k msg :
  fault st = Some msg ->
  composite (on_time scores) (quality scores) (cost scores)
    (communication scores) = Ok k ->
  update_vendor_score hs st vid scores =
    (Raise (HTTPException 500 ("Update error: " ++ msg)), st).
Proof.
  intros Hf Hc. unfold update_vendor_score, composite, execute in *.
  rewrite Hf.
  destruct (weighted_sum _ _ _ _) as [x|]; cbn [bind] in *; [|discriminate].
  rewrite Hc. reflexivity.
Qed.

(** X12: a successful update rewrites, in every vendor row whose id is
    the path's [vendor_id], the four sub-scores to the submitted ones and
    [performance_score] to the returned [new_score]; it keeps those rows'
    id, name and trend, every other vendor row, the number and order of
    rows and all other tables. The [vendor_id] of the request body plays no
    part. *)
Theorem update_rewrites_matching_rows_only :
  forall hs st vid scores,
    fault st = None ->
    small_scores scores ->
    exists k st',
      update_vendor_score hs st vid scores =
        (Ok (mk_UpdateResult true k), st') /\
      projects st' = projects st /\
      work_packages st' = work_packages st /\
      risks st' = risks st /\
      vendor_alerts st' = vendor_alerts st /\
      fault st' = None /\
      Forall2
        (fun v v' =>
           (vendor_id v = vid ->
            v' = mk_Vendor (vendor_id v) (vendor_name v) k
                   (on_time scores) (quality scores) (cost scores)
                   (communication scores) (trend v) /\
            composite (on_time_delivery v') (quality_score v')
              (cost_performance v') (communication_score v') =
              Ok (performance_score v')) /\
           (vendor_id v <> vid -> v' = v))
        (vendors st) (vendors st').
Proof.
  intros hs st vid scores Hf Hs.
  destruct (small_scores_composite scores Hs) as (k & Hk).
  exists k, (set_vendors st (map (apply_scores vid scores k) (vendors st))).
  rewrite (update_vendor_score_result hs st vid scores k Hf Hk).
  cbn [set_vendors projects work_packages risks vendor_alerts fault vendors].
  repeat (split; [reflexivity|]). split; [exact Hf|].
  induction (vendors st) as [|v vs IH]; cbn [map]; constructor; [|exact IH].
  unfold apply_scores.
  destruct (String.eqb_spec (vendor_id v) vid) as [E|NE]; split;
    try (intros; congruence).
  intros _. split; [reflexivity|]. exact Hk.
Qed.

Lemma update_rewrites_matching_rows_only_witness :
  vendors (snd (update_vendor_score Demo.http_str Demo.store "vendor-2"
                  (mk_VendorScore "ignored" 95 88 85 90))) =
  [Demo.abc_electrical;
   mk_Vendor "vendor-2" "Steelworks Pro" 90 95 88 85 90 "up"].
Proof.
  destruct (update_rewrites_matching_rows_only Demo.http_str Demo.store
              "vendor-2" (mk_VendorScore "ignored" 95 88 85 90) eq_refl)
    as (k & st' & Hu & _).
  - unfold small_scores, small. simpl. lia.
  - rewrite Hu. cbn [snd].
    vm_compute in Hu. injection Hu as _ <-. reflexivity.
Defined.

(** X13: the update is idempotent: applying the same update again to
    the store it produced gives the same answer and leaves that store
    unchanged, on the error paths as well. *)
Theorem update_is_idempotent :
  forall hs st vid scores,
    update_vendor_score hs
      (snd (update_vendor_score hs st vid scores)) vid scores =
    (fst (update_vendor_score hs st vid scores),
     snd (update_vendor_score hs st vid scores)).
Proof.
  intros hs st vid scores.
  destruct (composite (on_time scores) (quality scores) (cost scores)
              (communication scores)) as [k|e] eqn:Hc.
  - destruct (fault st) as [msg|] eqn:Hf.
    + rewrite !(update_vendor_score_fault hs st vid scores k msg Hf Hc).
      cbn [fst snd].
      apply (update_vendor_score_fault hs st vid scores k msg Hf Hc).
    + rewrite !(update_vendor_score_result hs st vid scores k Hf Hc).
      cbn [fst snd].
      rewrite (update_vendor_score_result hs _ vid scores k); [|exact Hf|exact Hc].
      f_equal. unfold set_vendors. cbn [projects work_packages risks vendors
                                         vendor_alerts fault].
      f_equal. rewrite map_map. apply map_ext. intros v.
      apply apply_scores_twice.
  - rewrite !(update_vendor_score_error hs st vid scores e Hc). cbn [fst snd].
    apply (update_vendor_score_error hs st vid scores e Hc).
Qed.

Lemma vendor_entries_after_update st' vid scores k vs es :
  composite (on_time scores) (quality scores) (cost scores)
    (communication scores) = Ok k ->
  vendor_entries st' (map (apply_scores vid scores k) vs) = Ok es ->
  Forall
    (fun e => ve_id e = vid ->
              score e = k /\
              detailed_scores e =
                mk_DetailedScores (on_time scores) (quality scores)
                  (cost scores) (communication scores))
    es.
Proof.
  intros Hk. revert es.
  induction vs as [|v vs IH]; intros es H; cbn [map vendor_entries] in H.
  - injection H as <-. constructor.
  - inv_bind H. inv_bind H. injection H as <-.
    constructor; [|apply IH; assumption].
    apply vendor_entry_fields in Ha.
    destruct Ha as (Hid & _ & _ & Hds & Hsc & _).
    intros Hvid. rewrite Hid in Hvid. unfold apply_scores in *.
    destruct (String.eqb_spec (vendor_id v) vid) as [E|NE].
    + cbn in Hds, Hsc. rewrite Hk in Hsc. injection Hsc as <-.
      split; [reflexivity | exact Hds].
    + contradiction.
Qed.

Lemma apply_scores_small vid scores k v :
  small_scores scores -> small_vendor v ->
  small_vendor (apply_scores vid scores k v).
Proof.
  intros Hs Hv. unfold apply_scores.
  destruct (String.eqb (vendor_id v) vid); [exact Hs | exact Hv].
Qed.

(** X14: update, then list: with the store reachable and all sub-scores
    below [2^53], the listing taken after an update succeeds, has one
    entry per vendor row, and every entry with the updated id shows the
    returned [new_score] and the four submitted sub-scores. *)
Theorem listing_after_update_shows_new_score :
  forall hs st vid scores,
    fault st = None ->
    small_scores scores ->
    Forall small_vendor (vendors st) ->
    exists k entries,
      fst (update_vendor_score hs st vid scores) =
        Ok (mk_UpdateResult true k) /\
      get_vendor_performance hs
        (snd (update_vendor_score hs st vid scores)) = Ok entries /\
      List.length entries = List.length (vendors st) /\
      Forall
        (fun e => ve_id e = vid ->
                  score e = k /\
                  detailed_scores e =
                    mk_DetailedScores (on_time scores) (quality scores)
                      (cost scores) (communication scores))
        entries.
Proof.
  intros hs st vid scores Hf Hs Hvs.
  destruct (small_scores_composite scores Hs) as (k & Hk).
  rewrite (update_vendor_score_result hs st vid scores k Hf Hk).
  cbn [fst snd].
  set (st' := set_vendors st (map (apply_scores vid scores k) (vendors st))).
  assert (Hsmall' : Forall small_vendor (vendors st')).
  { cbn [st' set_vendors vendors]. apply Forall_map.
    eapply Forall_impl; [|exact Hvs].
    intros v Hv. apply apply_scores_small; assumption. }
  destruct (vendor_entries_small st' (vendors st') Hsmall') as [es Hes].
  exists k, es. split; [reflexivity|]. split; [|split].
  - unfold get_vendor_performance, execute.
    cbn [st' set_vendors fault]. rewrite Hf. cbn [bind].
    fold st'. rewrite Hes. reflexivity.
  - pose proof (vendor_entries_Forall2 _ _ _ Hes) as HF.
    rewrite <- (Forall2_length HF). cbn [st' set_vendors vendors].
    apply length_map.
  - exact (vendor_entries_after_update st' vid scores k _ es Hk Hes).
Qed.

Lemma listing_after_update_shows_new_score_witness :
  exists entries,
    get_vendor_performance Demo.http_str
      (snd (update_vendor_score Demo.http_str Demo.store "vendor-1"
              (mk_VendorScore "vendor-1" 100 100 100 100))) = Ok entries /\
    map score entries = [100; 88].
Proof.
  destruct (listing_after_update_shows_new_score Demo.http_str Demo.store
              "vendor-1" (mk_VendorScore "vendor-1" 100 100 100 100) eq_refl)
    as (k & es & _ & Hl & _ & _).
  - unfold small_scores, small. simpl. lia.
  - exact demo_vendors_small.
  - exists es. split; [exact Hl|].
    vm_compute in Hl. injection Hl as <-. reflexivity.
Defined.

(** X15: an update that cannot compute its composite writes nothing:
    with an [on_time] too large for a float ([2^1024] or more in
    magnitude) the answer is status 500, "Update error: int too large to
    convert to float", and the store is left exactly as it was. *)
Theorem failed_update_writes_nothing :
  forall hs st vid scores,
    2 ^ 1024 <= Z.abs (on_time scores) ->
    update_vendor_score hs st vid scores =
      (Raise (HTTPException 500
         "Update error: int too large to convert to float"), st).
Proof.
  intros hs st vid scores Hbig.
  rewrite (update_vendor_score_error hs st vid scores
             (PyError "int too large to convert to float")); [reflexivity|].
  unfold composite. rewrite (weighted_sum_overflow _ _ _ _ Hbig). reflexivity.
Qed.

Lemma failed_update_writes_nothing_witness :
  update_vendor_score Demo.http_str Demo.store "vendor-1"
    (mk_VendorScore "vendor-1" (2 ^ 1024) 80 65 70) =
  (Raise (HTTPException 500
     "Update error: int too large to convert to float"), Demo.store).
Proof.
  apply (failed_update_writes_nothing Demo.http_str Demo.store "vendor-1"
           (mk_VendorScore "vendor-1" (2 ^ 1024) 80 65 70)).
  intros H. vm_compute in H. discriminate.
Defined.

(** ** Mitigations *)

(** X16: with the store reachable, the mitigations of a risk are exactly
    the rows of [mitigations] carrying that [risk_id]; a risk id that
    matches nothing, existing or not, gives the empty list, never a
    Not-Found. *)
Theorem mitigations_are_filtered_by_risk :
  forall hs st ms rid,
    fault st = None ->
    exists rows,
      get_risk_mitigations hs st ms rid = Ok rows /\
      (forall m, In m rows <-> In m ms /\ mitigation_risk_id m = rid) /\
      ((forall m, In m ms -> mitigation_risk_id m <> rid) -> rows = []).
Proof.
  intros hs st ms rid Hf. eexists. split.
  { unfold get_risk_mitigations, execute. rewrite Hf. reflexivity. }
  split.
  - intros m. rewrite filter_In, String.eqb_eq. tauto.
  - intros Hnone. apply filter_none. intros m Hm.
    apply String.eqb_neq. auto.
Qed.

Lemma mitigations_are_filtered_by_risk_witness :
  get_risk_mitigations Demo.http_str Demo.store
    [mk_Mitigation "risk-1" "Dual-source switchgear procurement"
       "Secure secondary supplier" Demo.cost_450000 "5 days" 45 "proposed"]
    "no-such-risk" = Ok [].
Proof.
  destruct (mitigations_are_filtered_by_risk Demo.http_str Demo.store
              [mk_Mitigation "risk-1" "Dual-source switchgear procurement"
                 "Secure secondary supplier" Demo.cost_450000 "5 days" 45
                 "proposed"]
              "no-such-risk" eq_refl) as (rows & Hr & _ & Hnone).
  rewrite Hr. f_equal. apply Hnone.
  intros m [<-|[]]. discriminate.
Defined.


(** ** Start-up *)

Lemma present_some (v : option string) (s : string) :
  present v = Some s <-> v = Some s /\ s <> "".
Proof.
  unfold present. destruct v as [x|].
  - destruct (String.eqb x "") eqn:E.
    + apply String.eqb_eq in E. split; [discriminate|].
      intros [H Hs]. inversion H. subst. contradiction.
    + apply String.eqb_neq in E. split.
      * intros H. inversion H. subst. auto.
      * intros [H _]. exact H.
  - split; [discriminate | intros [H _]; discriminate].
Qed.

(** X17. The module-level code of [main.py] ends with the client in
    hand exactly when SUPABASE_URL and SUPABASE_ANON_KEY are both set to
    non-empty strings and [create_client] accepts them; in every other
    case (a variable unset or set to the empty string, or [create_client]
    raising) the process ends by [exit(1)] after printing a line that
    starts with the cross mark. With the URL missing the key is not
    looked at and [create_client] plays no part. *)
Theorem startup_serves_iff_configured {C : Type}
    (http_exception_str : Z -> string -> string)
    (create_client : string -> string -> result C)
    (environ : string -> option string) :
  let run := startup http_exception_str create_client environ in
  (forall c, snd run = Started c <->
     exists u k, environ "SUPABASE_URL" = Some u /\ u <> "" /\
                 environ "SUPABASE_ANON_KEY" = Some k /\ k <> "" /\
                 create_client u k = Ok c) /\
  ((forall c, snd run <> Started c) ->
     snd run = Exited 1 /\
     exists rest, hd "" (fst run) = "❌" ++ rest) /\
  (present (environ "SUPABASE_URL") = None ->
     forall (create_client' : string -> string -> result C)
            (environ' : string -> option string),
       environ' "SUPABASE_URL" = environ "SUPABASE_URL" ->
       startup http_exception_str create_client' environ' = run /\
       hd "" (fst run) =
         "❌ ERROR: SUPABASE_URL not found in environment variables").
Proof.
  cbv zeta. unfold startup.
  split; [|split].
  - intros c. split.
    + destruct (present (environ "SUPABASE_URL")) as [u|] eqn:Eu;
        [|discriminate].
      destruct (present (environ "SUPABASE_ANON_KEY")) as [k|] eqn:Ek;
        [|discriminate].
      apply present_some in Eu, Ek. destruct Eu as [Hu Hu'], Ek as [Hk Hk'].
      destruct (create_client u k) as [c'|e] eqn:Ec; [|discriminate].
      cbn [snd]. intros H. inversion H. subst c'.
      exists u, k. auto.
    + intros (u & k & Hu & Hu' & Hk & Hk' & Hc).
      assert (Eu : present (environ "SUPABASE_URL") = Some u)
        by (apply present_some; auto).
      assert (Ek : present (environ "SUPABASE_ANON_KEY") = Some k)
        by (apply present_some; auto).
      rewrite Eu, Ek, Hc. reflexivity.
  - intros Hno.
    destruct (present (environ "SUPABASE_URL")) as [u|];
      [|split; [reflexivity | eexists; reflexivity]].
    destruct (present (environ "SUPABASE_ANON_KEY")) as [k|];
      [|split; [reflexivity | eexists; reflexivity]].
    destruct (create_client u k) as [c|e].
    + exfalso. apply (Hno c). reflexivity.
    + split; [reflexivity | eexists; reflexivity].
  - intros Hu cc' env' Henv. rewrite Henv, Hu. split; reflexivity.
Qed.

Lemma startup_serves_iff_configured_witness :
  let environ := fun name : string =>
    if String.eqb name "SUPABASE_ANON_KEY" then Some "anon-key" else None in
  present (environ "SUPABASE_URL") = None /\
  hd "" (fst (startup Demo.http_str
                (fun _ _ => Ok tt) environ)) =
    "❌ ERROR: SUPABASE_URL not found in environment variables".
Proof.
  cbv zeta. split; [reflexivity|].
  refine (proj2 (proj2 (proj2 (startup_serves_iff_configured
    Demo.http_str (fun _ _ => Ok tt)
    (fun name : string =>
       if String.eqb name "SUPABASE_ANON_KEY" then Some "anon-key" else None))
    ) _ (fun _ _ => Ok tt)
    (fun name : string =>
       if String.eqb name "SUPABASE_ANON_KEY" then Some "anon-key" else None)
    _)).
  - reflexivity.
  - reflexivity.
Defined.


(** ** Seeding *)

Ltac next_insert failure :=
  match goal with
  | |- context [failure ?n] =>
      let F := fresh "F" in
      destruct (failure n) as [?msg|] eqn:F
  end.

(** X18. The seeding script has no rollback: whatever the tables held
    before, it leaves them with exactly the rows of the inserts issued
    before the first failing one appended, in the script's order
    (project, five vendors, six work packages, the risk, three
    mitigations, four alerts). It prints the success line exactly when
    none of the twenty inserts fails; otherwise its last line names the
    stage of the failing insert and carries that insert's error text. *)
Theorem seed_stops_at_first_failure (uuid4 : nat -> string)
    (failure : nat -> option string) (d0 : Db) :
  let run := Seed.seed_demo_data uuid4 failure d0 in
  let n := first_failure failure 0 20 in
  fst run = apply_inserts (firstn n (Seed.seed_inserts uuid4)) d0 /\
  (In "🎉 Demo data seeded successfully!" (snd run) <-> n = 20%nat) /\
  (n <> 20%nat ->
   exists msg, failure n = Some msg /\
     last (snd run) "" = "❌ Error creating " ++ stage n ++ ": " ++ msg).
Proof.
  cbv zeta. unfold Seed.seed_demo_data, Seed.seed_inserts.
  cbn [Seed.insert_each first_failure Seed.vendors_data
       Seed.work_packages_data Seed.mitigations Seed.alerts].
  do 20 (try (next_insert failure;
    [cbn [fst snd apply_inserts firstn map app fold_left];
     split; [reflexivity|];
     split; [split; [intros H; cbn in H; intuition discriminate
                    | discriminate]|];
     intros _; eexists; split; [eassumption | reflexivity] |])).
  split; [reflexivity|]. split.
  - split; [reflexivity|]. intros _. unfold snd.
    repeat first [left; reflexivity | right].
  - intros H. exfalso. apply H. reflexivity.
Qed.

Lemma seed_stops_at_first_failure_witness :
  let failure := fun n : nat =>
    if (n =? 3)%nat then Some "duplicate key" else None in
  first_failure failure 0 20 <> 20%nat /\
  List.length (db_vendors (fst (Seed.seed_demo_data sample_uuid4 failure
                                  empty_db))) = 2%nat /\
  last (snd (Seed.seed_demo_data sample_uuid4 failure empty_db)) "" =
    "❌ Error creating vendors: duplicate key".
Proof.
  cbv zeta.
  pose proof (seed_stops_at_first_failure sample_uuid4
    (fun n : nat => if (n =? 3)%nat then Some "duplicate key" else None)
    empty_db) as H.
  cbv zeta in H. destruct H as (Hdb & _ & Hlast).
  assert (Hn : first_failure
                 (fun n : nat =>
                    if (n =? 3)%nat then Some "duplicate key" else None)
                 0 20 <> 20%nat) by (vm_compute; discriminate).
  split; [exact Hn|]. split.
  - rewrite Hdb. reflexivity.
  - destruct (Hlast Hn) as (msg & Hmsg & ->).
    vm_compute in Hmsg. injection Hmsg as <-. reflexivity.
Defined.

Lemma seed_all_succeed (uuid4 : nat -> string)
    (failure : nat -> option string) (d0 : Db) :
  (forall n, (n < 20)%nat -> failure n = None) ->
  fst (Seed.seed_demo_data uuid4 failure d0) =
    apply_inserts (Seed.seed_inserts uuid4) d0.
Proof.
  intros H. unfold Seed.seed_demo_data.
  cbn [Seed.insert_each Seed.vendors_data
       Seed.work_packages_data Seed.mitigations Seed.alerts].
  repeat (rewrite H by (repeat constructor)).
  reflexivity.
Qed.

Lemma injective_on_NoDup {A B} (f : A -> B) (l : list A) a b :
  NoDup (map f l) -> In a l -> In b l -> f a = f b -> a = b.
Proof.
  induction l as [|x l IH]; cbn [map]; intros Hnd Ha Hb E; [destruct Ha|].
  inversion Hnd as [|? ? Hx Hl]; subst.
  destruct Ha as [->|Ha], Hb as [->|Hb].
  - reflexivity.
  - exfalso. apply Hx. rewrite E. apply in_map. exact Hb.
  - exfalso. apply Hx. rewrite <- E. apply in_map. exact Ha.
  - apply IH; assumption.
Qed.

Lemma uuid_eqb (uuid4 : nat -> string) (i j : nat) :
  NoDup (map uuid4 (seq 0 13)) -> (i < 13)%nat -> (j < 13)%nat ->
  String.eqb (uuid4 i) (uuid4 j) = Nat.eqb i j.
Proof.
  intros Hnd Hi Hj. destruct (Nat.eqb i j) eqn:E.
  - apply Nat.eqb_eq in E. subst. apply String.eqb_refl.
  - apply String.eqb_neq. intros Heq. apply Nat.eqb_neq in E. apply E.
    apply (injective_on_NoDup uuid4 (seq 0 13)); try assumption;
      apply in_seq; lia.
Qed.

Lemma sample_uuid4_NoDup : NoDup (map sample_uuid4 (seq 0 13)).
Proof.
  cbn [seq map].
  repeat (constructor;
    [cbn [In]; intros H;
     repeat (destruct H as [H|H]; [vm_compute in H; discriminate|]);
     exact H|]).
  constructor.
Qed.


(** X19. After a run in which no insert fails, the seeded rows refer to
    one another: every work package belongs to the seeded project and to
    a seeded vendor, the risk to a seeded work package, every mitigation
    to the seeded risk and every alert to a seeded vendor, whatever
    identifiers [uuid4] hands out. *)
Theorem seed_references_resolve (uuid4 : nat -> string)
    (failure : nat -> option string) :
  (forall n, (n < 20)%nat -> failure n = None) ->
  let db := fst (Seed.seed_demo_data uuid4 failure empty_db) in
  Forall (fun wp => In (wr_project_id wp) (map pr_id (db_projects db)) /\
                    In (wr_vendor_id wp) (map vr_id (db_vendors db)))
    (db_work_packages db) /\
  Forall (fun r => In (rr_work_package_id r)
                     (map wr_id (db_work_packages db)))
    (db_risks db) /\
  Forall (fun m => In (mitigation_risk_id m) (map rr_id (db_risks db)))
    (db_mitigations db) /\
  Forall (fun a => In (ar_vendor_id a) (map vr_id (db_vendors db)))
    (db_vendor_alerts db).
Proof.
  intros Hok. cbv zeta. rewrite (seed_all_succeed _ _ _ Hok).
  cbv [apply_inserts Seed.seed_inserts Seed.vendors_data
       Seed.work_packages_data Seed.mitigations Seed.alerts Seed.project
       Seed.electrical_risk empty_db fold_left map app
       put_project put_vendor put_work_package put_risk put_mitigation
       put_alert db_projects db_vendors db_work_packages db_risks
       db_mitigations db_vendor_alerts
       wr_project_id wr_vendor_id wr_id rr_work_package_id rr_id
       mitigation_risk_id ar_vendor_id vr_id pr_id].
  repeat match goal with
         | |- _ /\ _ => split
         | |- Forall _ (_ :: _) => apply Forall_cons
         | |- Forall _ [] => apply Forall_nil
         end;
    cbn [In]; repeat first [left; reflexivity | right].
Qed.

Lemma seed_references_resolve_witness :
  Forall (fun a => In (ar_vendor_id a)
            (map vr_id (db_vendors
               (fst (Seed.seed_demo_data sample_uuid4 (fun _ => None)
                       empty_db)))))
    (db_vendor_alerts
       (fst (Seed.seed_demo_data sample_uuid4 (fun _ => None) empty_db))).
Proof.
  exact (proj2 (proj2 (proj2
    (seed_references_resolve sample_uuid4 (fun _ => None)
       (fun _ _ => eq_refl))))).
Defined.


Ltac seeded_store Hok :=
  cbv zeta; rewrite (seed_all_succeed _ _ _ Hok);
  cbv [apply_inserts Seed.seed_inserts Seed.vendors_data
       Seed.work_packages_data Seed.mitigations Seed.alerts Seed.project
       Seed.electrical_risk empty_db fold_left map app store_of_db
       put_project put_vendor put_work_package put_risk put_mitigation
       put_alert db_projects db_vendors db_work_packages db_risks
       db_mitigations db_vendor_alerts
       pr_id pr_name pr_status
       vr_id vr_name vr_performance_score vr_on_time_delivery
       vr_quality_score vr_cost_performance vr_communication_score vr_trend
       wr_id wr_project_id wr_name wr_risk_level wr_vendor_id
       rr_id rr_work_package_id rr_title rr_impact_cost rr_impact_days
       rr_risk_level rr_reasoning
       ar_vendor_id ar_message ar_is_active].

Ltac uuid_tests Hnd :=
  repeat (rewrite (uuid_eqb _ _ _ Hnd) by (apply Nat.ltb_lt; reflexivity)).

(** X20. On the tables a complete seeding run leaves (identifiers all
    distinct), the vendor listing answers the five vendors in insertion
    order, each with its active alerts, and with the score recomputed
    from the sub-scores: 67, 90, 72, 94, 67. The performance scores the
    script stored are 67, 89, 72, 94, 68: for Steelworks Pro and TechNet
    Systems the listing does not show the seeded value. *)
Theorem seeded_listing (hs : Z -> string -> string)
    (uuid4 : nat -> string) (failure : nat -> option string) :
  (forall n, (n < 20)%nat -> failure n = None) ->
  NoDup (map uuid4 (seq 0 13)) ->
  let db := fst (Seed.seed_demo_data uuid4 failure empty_db) in
  exists es,
    get_vendor_performance hs (store_of_db db) = Ok es /\
    map (fun e => (ve_id e, ve_name e, score e, alerts e)) es =
      [(uuid4 1%nat, "ABC Electrical", 67,
        ["3 consecutive missed milestones";
         "Penalty clause triggers in 14 days"]);
       (uuid4 2%nat, "Steelworks Pro", 90, []);
       (uuid4 3%nat, "HVAC Solutions", 72,
        ["Material delivery 3 days late"]);
       (uuid4 4%nat, "SafeGuard Fire", 94, []);
       (uuid4 5%nat, "TechNet Systems", 67,
        ["RFI response time exceeded"])] /\
    map vr_performance_score (db_vendors db) = [67; 89; 72; 94; 68].
Proof.
  intros Hok Hnd. seeded_store Hok.
  unfold get_vendor_performance, execute. cbn [fault bind vendors].
  cbn [vendor_entries]. unfold vendor_entry.
  cbn [vendor_alerts filter vendor_id alert_vendor_id].
  uuid_tests Hnd.
  eexists. split; [vm_compute; reflexivity|].
  split; reflexivity.
Qed.

Lemma seeded_listing_witness :
  exists es,
    get_vendor_performance Demo.http_str
      (store_of_db (fst (Seed.seed_demo_data sample_uuid4 (fun _ => None)
                           empty_db))) = Ok es /\
    map score es = [67; 90; 72; 94; 67].
Proof.
  destruct (seeded_listing Demo.http_str sample_uuid4 (fun _ => None)
              (fun _ _ => eq_refl) sample_uuid4_NoDup)
    as (es & Hes & Hl & _).
  exists es. split; [exact Hes|].
  apply (f_equal (map (fun x => snd (fst x)))) in Hl.
  rewrite map_map in Hl. exact Hl.
Defined.


(** X21. On the tables a complete seeding run leaves (identifiers all
    distinct), the dashboard of the seeded project shows the project, its
    six work packages each with its vendor's name, and one critical item:
    the electrical risk, with impact [$2.3M cost, 18 days delay]. For any
    other project id the project is missing and the work packages are
    empty, and the critical item is the same. *)
Theorem seeded_dashboard (hs : Z -> string -> string)
    (uuid4 : nat -> string) (failure : nat -> option string)
    (pid : string) :
  (forall n, (n < 20)%nat -> failure n = None) ->
  NoDup (map uuid4 (seq 0 13)) ->
  let db := fst (Seed.seed_demo_data uuid4 failure empty_db) in
  exists d,
    get_dashboard hs (store_of_db db) pid = Ok d /\
    critical_items d =
      [mk_CriticalItem "Electrical Package - Vendor Performance Decline"
         "$2.3M cost, 18 days delay"
         "ABC Electrical missed 3/5 recent milestones. Historical pattern shows 85% probability of 2-week delay. Contract compliance at 67% and declining."] /\
    (pid = uuid4 0%nat ->
     d_project d =
       Some (mk_Project (uuid4 0%nat) "Port Expansion Project - Phase 2"
               "active") /\
     map (fun x => (wp_name (fst x), snd x)) (d_work_packages d) =
       [("Foundation & Structural", Some "Steelworks Pro");
        ("Electrical Systems", Some "ABC Electrical");
        ("HVAC Installation", Some "HVAC Solutions");
        ("Fire Safety Systems", Some "SafeGuard Fire");
        ("IT Infrastructure", Some "TechNet Systems");
        ("Exterior Cladding", Some "Steelworks Pro")]) /\
    (pid <> uuid4 0%nat -> d_project d = None /\ d_work_packages d = []).
Proof.
  intros Hok Hnd. seeded_store Hok.
  unfold get_dashboard, execute. cbn [fault bind].
  cbn [projects work_packages filter project_id wp_project_id].
  destruct (String.eqb (uuid4 0%nat) pid) eqn:E.
  - apply String.eqb_eq in E. subst pid.
    unfold vendor_name_of.
    cbn [map find vendors wp_vendor_id vendor_id option_map].
    uuid_tests Hnd.
    eexists. split; [vm_compute; reflexivity|].
    split; [reflexivity|]. split.
    + intros _. split; reflexivity.
    + intros H. exfalso. apply H. reflexivity.
  - apply String.eqb_neq in E.
    eexists. split; [vm_compute; reflexivity|].
    split; [reflexivity|]. split.
    + intros H. exfalso. apply E. symmetry. exact H.
    + intros _. split; reflexivity.
Qed.

Lemma seeded_dashboard_witness :
  exists d,
    get_dashboard Demo.http_str
      (store_of_db (fst (Seed.seed_demo_data sample_uuid4 (fun _ => None)
                           empty_db))) "uuid-0" = Ok d /\
    map ci_impact (critical_items d) = ["$2.3M cost, 18 days delay"] /\
    List.length (d_work_packages d) = 6%nat.
Proof.
  destruct (seeded_dashboard Demo.http_str sample_uuid4 (fun _ => None)
              "uuid-0" (fun _ _ => eq_refl) sample_uuid4_NoDup)
    as (d & Hd & Hc & Hp & _).
  exists d. split; [exact Hd|]. split.
  - rewrite Hc. reflexivity.
  - destruct (Hp eq_refl) as [_ Hw].
    apply (f_equal (@List.length _)) in Hw.
    rewrite length_map in Hw. exact Hw.
Defined.


(** X22. On the tables a complete seeding run leaves, scenario analysis
    of the Electrical Systems work package with [delay_weeks = w] (the
    date inside the calendar) answers nine days of delay per week:
    [schedule_impact = 9 * w], the completion date [127 + 9 * w] days
    after today, and as budget impact 2,300,000.0 times the exact half of
    [w]. Every other work package id gets status 500 carrying the text
    of the 404. *)
Theorem seeded_scenario (hs : Z -> string -> string)
    (uuid4 : nat -> string) (failure : nat -> option string)
    (now : PyDate.datetime) (wp : string) (w : Z) :
  (forall n, (n < 20)%nat -> failure n = None) ->
  - 2 ^ 26 < w < 2 ^ 26 ->
  PyDate.valid now ->
  PyDate.ordinal now + 127 <= PyDate.MAXORDINAL ->
  1 <= PyDate.ordinal now + 127 + 9 * w ->
  PyDate.ordinal now + 128 + 9 * w <= PyDate.MAXORDINAL ->
  let st := store_of_db (fst (Seed.seed_demo_data uuid4 failure empty_db)) in
  (wp = uuid4 7%nat ->
   exists m,
     half_float m w /\
     analyze_scenario hs now st (mk_RiskAnalysis wp w) =
       Ok (mk_ScenarioResult
             (PyFloat.mul (S754_finite false 4939212390400000 (-31)) m)
             (9 * w)
             (PyDate.strftime_b_d_Y
                (PyDate.mk_datetime (PyDate.ordinal now + 127 + 9 * w)
                   (PyDate.usec_of_day now)))
             (scenario_risk_level w))) /\
  (wp <> uuid4 7%nat ->
   analyze_scenario hs now st (mk_RiskAnalysis wp w) =
     Raise (HTTPException 500
              ("Analysis error: " ++ hs 404 "Risk not found"))).
Proof.
  intros Hok Hw Hnow Hbase Hlo Hhi. seeded_store Hok. split.
  - intros ->.
    match goal with
    | |- context [analyze_scenario hs now ?st ?a] =>
        destruct (analyze_scenario_exact hs now st a
          (mk_Risk (uuid4 12%nat) (uuid4 7%nat)
             "Electrical Package - Vendor Performance Decline"
             (S754_finite false 4939212390400000 (-31)) 18 "HIGH"
             "ABC Electrical missed 3/5 recent milestones. Historical pattern shows 85% probability of 2-week delay. Contract compliance at 67% and declining.")
          [] eq_refl) as (m & _ & Hm & Hr)
    end.
    + unfold risks_of. cbn [risks filter work_package_id ra_work_package_id].
      rewrite String.eqb_refl. reflexivity.
    + cbn [impact_days]. lia.
    + cbn [delay_weeks]. exact Hw.
    + exact Hnow.
    + exact Hbase.
    + cbn [impact_days delay_weeks].
      replace (18 * w / 2) with (9 * w)
        by (replace (18 * w) with (9 * w * 2) by ring;
            rewrite Z.div_mul by lia; reflexivity).
      exact Hlo.
    + cbn [impact_days delay_weeks].
      replace (18 * w / 2) with (9 * w)
        by (replace (18 * w) with (9 * w * 2) by ring;
            rewrite Z.div_mul by lia; reflexivity).
      exact Hhi.
    + exists m. split; [exact Hm|].
      cbn [impact_days delay_weeks impact_cost] in Hr. rewrite Hr.
      replace (18 * w) with (9 * w * 2) by ring.
      rewrite Z.quot_mul by lia.
      replace (254 + 9 * w * 2) with (2 * (127 + 9 * w)) by ring.
      rewrite (after_even_half_days now _ Hnow).
      replace (PyDate.ordinal now + (127 + 9 * w))
        with (PyDate.ordinal now + 127 + 9 * w) by ring.
      reflexivity.
  - intros Hne. unfold analyze_scenario, execute. cbn [fault bind].
    cbn [risks filter work_package_id ra_work_package_id].
    replace (String.eqb (uuid4 7%nat) wp) with false
      by (symmetry; apply String.eqb_neq; intros E; apply Hne;
          symmetry; exact E).
    reflexivity.
Qed.

Lemma seeded_scenario_witness :
  analyze_scenario Demo.http_str Demo.afternoon
    (store_of_db (fst (Seed.seed_demo_data sample_uuid4 (fun _ => None)
                         empty_db)))
    (mk_RiskAnalysis "uuid-7" 4) =
  Ok (mk_ScenarioResult (S754_finite false 4939212390400000 (-30)) 36
        "Apr 14, 2025" "CRITICAL").
Proof.
  destruct (seeded_scenario Demo.http_str sample_uuid4 (fun _ => None)
              Demo.afternoon "uuid-7" 4 (fun _ _ => eq_refl)) as [H _].
  - split; vm_compute; reflexivity.
  - exact demo_valid_afternoon.
  - vm_compute. discriminate.
  - vm_compute. discriminate.
  - vm_compute. discriminate.
  - destruct (H eq_refl) as (m & Hm & Hr).
    rewrite Hr. cbn [half_float] in Hm. subst m. vm_compute. reflexivity.
Defined.

(** X23. On the tables a complete seeding run leaves, the mitigations of
    the seeded risk are the three options of the script in insertion
    order, with costs 180,000.0, 0.0 and 340,000.0; every other risk id
    gets the empty list, not an error. *)
Theorem seeded_mitigations (hs : Z -> string -> string)
    (uuid4 : nat -> string) (failure : nat -> option string)
    (rid : string) :
  (forall n, (n < 20)%nat -> failure n = None) ->
  let db := fst (Seed.seed_demo_data uuid4 failure empty_db) in
  get_risk_mitigations hs (store_of_db db) (db_mitigations db) rid =
    Ok (if String.eqb rid (uuid4 12%nat)
        then Seed.mitigations (uuid4 12%nat)
        else []) /\
  map mitigation_title (Seed.mitigations (uuid4 12%nat)) =
    ["Dual-source switchgear procurement";
     "Accelerate contractor penalties";
     "Bring backup vendor online"] /\
  map mitigation_cost (Seed.mitigations (uuid4 12%nat)) =
    [S754_finite false 6184752906240000 (-35); S754_zero false;
     S754_finite false 5841155522560000 (-34)].
Proof.
  intros Hok. seeded_store Hok.
  unfold get_risk_mitigations, execute. cbn [fault].
  cbn [filter mitigation_risk_id].
  rewrite (String.eqb_sym (uuid4 12%nat) rid).
  destruct (String.eqb rid (uuid4 12%nat)); repeat split.
Qed.

Lemma seeded_mitigations_witness :
  get_risk_mitigations Demo.http_str
    (store_of_db (fst (Seed.seed_demo_data sample_uuid4 (fun _ => None)
                         empty_db)))
    (db_mitigations (fst (Seed.seed_demo_data sample_uuid4 (fun _ => None)
                            empty_db)))
    "uuid-12" = Ok (Seed.mitigations "uuid-12").
Proof.
  exact (proj1 (seeded_mitigations Demo.http_str sample_uuid4
                  (fun _ => None) "uuid-12" (fun _ _ => eq_refl))).
Defined.
